(** * ADA compliance detection: the rule-based scoring engine, the
      model-backed analyzer and the aggregator

    A shallow embedding of

      - [base_analyzer.py]      ([ViolationResult], [BaseAnalyzer.analyze_all_detections]),
      - [cv_rules/*.py]         (the five category analyzers),
      - [rule_based_analyzer.py] (the router),
      - [claude_analyzer.py]    (JSON extraction and response parsing),
      - [ada_compliance_system/object_detector.py] ([DetectionResult.get_crop]).

    Conventions.

      - A Python [float] is modelled by the exact rational it denotes ([Q]);
        the thresholds of the analyzers ([2.5], [3.0], [0.05], [0.6], ...)
        are compared exactly.  Binary rounding can only move a comparison
        whose two sides are within a few units in the last place of each
        other, which for ratios of pixel counts below [2^50] happens only
        when the exact values are equal.
      - The one transcendental computation, [np.degrees(np.arctan(.))] of
        the ramp analyzer, is modelled by the real function ([R], [atan]).
      - A Python [str] is a [string]; a character is a code point below 256.
      - Calls into OpenCV, the JSON parser, the remote model and the string
        formatting of floats are fields of an environment record [Env];
        the calls that can raise return in the error monad [exc].
      - Python [None] returned by a check is [None] of [option]. *)

From Stdlib Require Import ZArith QArith Qround Qminmax Reals Psatz Lia.
From Stdlib Require Import List Bool Ascii String DecimalString Decimal DecimalNat FinFun.
Import ListNotations.

Set Implicit Arguments.
Set Warnings "-register-all".

(* ================================================================== *)
(** * 1. Exceptions *)
(* ================================================================== *)

(** A computation that returns a value or raises a Python exception,
    named by its message. *)
Inductive exc (A : Type) : Type :=
| Ok (a : A)
| Raise (e : string).

Arguments Ok {A} a.
Arguments Raise {A} e.

Definition exc_bind {A B : Type} (c : exc A) (k : A -> exc B) : exc B :=
  match c with
  | Ok a => k a
  | Raise e => Raise e
  end.

Notation "x <- c ;; k" := (exc_bind c (fun x => k))
  (at level 61, c at next level, right associativity).

Definition raises {A : Type} (c : exc A) : bool :=
  match c with Ok _ => false | Raise _ => true end.

(* ================================================================== *)
(** * 2. Python values *)
(* ================================================================== *)

(** The values [json.loads] produces; the fields of a record built from
    a model response hold such values unchanged. *)
Inductive pyobj : Type :=
| PyNone
| PyBool (b : bool)
| PyInt (z : Z)
| PyFloat (q : Q)
| PyStr (s : string)
| PyList (l : list pyobj)
| PyDict (d : list (string * pyobj)).

(** A measurement attached to a finding: an int, a float, the real-valued
    ramp angle, or a string such as ["1:12"]. *)
Inductive mval : Type :=
| MInt (z : Z)
| MFloat (q : Q)
| MReal (r : R)
| MStr (s : string).

(** [d.get(key, default)] on a dict held as an association list. *)
Fixpoint dict_get (d : list (string * pyobj)) (key : string) (default : pyobj) : pyobj :=
  match d with
  | [] => default
  | (k, v) :: d' => if String.eqb k key then v else dict_get d' key default
  end.

Fixpoint dict_lookup {V : Type} (d : list (string * V)) (key : string) : option V :=
  match d with
  | [] => None
  | (k, v) :: d' => if String.eqb k key then Some v else dict_lookup d' key
  end.

(** [d[key] = v]: an existing key keeps its place, a new key goes last. *)
Fixpoint dict_set {V : Type} (d : list (string * V)) (key : string) (v : V) : list (string * V) :=
  match d with
  | [] => [(key, v)]
  | (k, w) :: d' =>
      if String.eqb k key then (k, v) :: d' else (k, w) :: dict_set d' key v
  end.

(* ================================================================== *)
(** * 3. Strings *)
(* ================================================================== *)

Section Strings.
Local Open Scope string_scope.

(** [str.lower] on code points below 256: A-Z, and the Latin-1 capitals
    192-214 and 216-222, move up by 32. *)
Definition lower_char (c : ascii) : ascii :=
  let n := nat_of_ascii c in
  if ((65 <=? n) && (n <=? 90) || (192 <=? n) && (n <=? 214)
      || (216 <=? n) && (n <=? 222))%nat
  then ascii_of_nat (n + 32) else c.

Fixpoint lower (s : string) : string :=
  match s with
  | EmptyString => EmptyString
  | String c s' => String (lower_char c) (lower s')
  end.

(** [x in xs] for a list of strings. *)
Fixpoint str_in (x : string) (xs : list string) : bool :=
  match xs with
  | [] => false
  | y :: ys => String.eqb x y || str_in x ys
  end.

(** First offset at which [sub] occurs in [s]. *)
Fixpoint find_first (sub s : string) : option nat :=
  if prefix sub s then Some 0%nat
  else match s with
       | EmptyString => None
       | String _ s' => option_map S (find_first sub s')
       end.

(** Last offset at which [sub] occurs in [s]. *)
Fixpoint find_last (sub s : string) : option nat :=
  match s with
  | EmptyString => if prefix sub s then Some 0%nat else None
  | String _ s' =>
      match find_last sub s' with
      | Some i => Some (S i)
      | None => if prefix sub s then Some 0%nat else None
      end
  end.

Fixpoint drop (n : nat) (s : string) : string :=
  match n, s with
  | O, _ => s
  | S n', EmptyString => EmptyString
  | S n', String _ s' => drop n' s'
  end.

(** A slice bound brought into [0 .. len], a negative one counted from
    the end. *)
Definition norm_index (len i : Z) : Z :=
  if (i <? 0)%Z then Z.max 0 (i + len) else Z.min i len.

(** [s.find(sub, start)]: the offset, or [-1]. *)
Definition str_find (sub s : string) (start : Z) : Z :=
  let len := Z.of_nat (String.length s) in
  if (len <? start)%Z then (-1)%Z
  else
    let a := Z.to_nat (norm_index len start) in
    match find_first sub (drop a s) with
    | Some i => Z.of_nat (a + i)
    | None => (-1)%Z
    end.

(** [s.rfind(sub)]: the last offset, or [-1]. *)
Definition str_rfind (sub s : string) : Z :=
  match find_last sub s with
  | Some i => Z.of_nat i
  | None => (-1)%Z
  end.

(** [sub in s]. *)
Definition str_contains (sub s : string) : bool :=
  match find_first sub s with Some _ => true | None => false end.

(** [s[start:stop]]. *)
Definition str_slice (s : string) (start stop : Z) : string :=
  let len := Z.of_nat (String.length s) in
  let a := norm_index len start in
  let b := norm_index len stop in
  substring (Z.to_nat a) (Z.to_nat (b - a)) s.

(** [s[:n]]. *)
Definition str_take (s : string) (n : nat) : string := str_slice s 0 (Z.of_nat n).

(** [str.isspace] on one code point below 256. *)
Definition is_space (c : ascii) : bool :=
  let n := nat_of_ascii c in
  ((9 <=? n) && (n <=? 13) || (28 <=? n) && (n <=? 32)
   || (n =? 133) || (n =? 160))%nat.

Fixpoint lstrip (s : string) : string :=
  match s with
  | EmptyString => EmptyString
  | String c s' => if is_space c then lstrip s' else s
  end.

Fixpoint rstrip (s : string) : string :=
  match s with
  | EmptyString => EmptyString
  | String c s' =>
      match rstrip s' with
      | EmptyString => if is_space c then EmptyString else String c EmptyString
      | t => String c t
      end
  end.

(** [s.strip()]. *)
Definition strip (s : string) : string := rstrip (lstrip s).

(** [str(i)] for a non-negative int. *)
Definition str_of_nat (n : nat) : string := NilEmpty.string_of_uint (Nat.to_uint n).

End Strings.

(* ================================================================== *)
(** * 4. Numbers *)
(* ================================================================== *)

(** Nearest integer, a tie going to the even neighbour. *)
Definition Qround_half_even (q : Q) : Z :=
  let f := Qfloor q in
  let d := (q - inject_Z f)%Q in
  match (d ?= 1 # 2)%Q with
  | Lt => f
  | Gt => (f + 1)%Z
  | Eq => if Z.even f then f else (f + 1)%Z
  end.

(** [round(q, ndigits)]. *)
Definition py_round (q : Q) (ndigits : nat) : Q :=
  let p := (10 ^ Z.of_nat ndigits)%Z in
  (inject_Z (Qround_half_even (q * inject_Z p)) / inject_Z p)%Q.

(** [int(q)]: truncation toward zero. *)
Definition py_int (q : Q) : Z := if Qle_bool 0 q then Qfloor q else Qceiling q.

Definition Qltb (a b : Q) : bool := negb (Qle_bool b a).

(** [np.degrees]. *)
Definition np_degrees (x : R) : R := (x * (180 / PI))%R.

(** Nearest integer to a real, a tie going to the even neighbour. *)
Definition Rround_half_even (r : R) : Z :=
  let f := Int_part r in
  let d := (r - IZR f)%R in
  if Rlt_dec d (1 / 2) then f
  else if Rlt_dec (1 / 2) d then (f + 1)%Z
  else if Z.even f then f else (f + 1)%Z.

(** [round(r, 1)] on the real-valued angle. *)
Definition py_round1_R (r : R) : R := (IZR (Rround_half_even (r * 10)) / 10)%R.

(* ================================================================== *)
(** * 5. Arrays *)
(* ================================================================== *)

(** A two-dimensional numpy array: its first two shape components and
    the element at row [y], column [x]. *)
Record ndarray (A : Type) : Type := mk_ndarray {
  shape0 : nat;
  shape1 : nat;
  at_ : nat -> nat -> A
}.

(** One element of a three-channel [uint8] image. *)
Definition pixel : Type := (Z * Z * Z)%type.

(** A colour image of shape [(H, W, 3)] and a single-channel one. *)
Definition image : Type := ndarray pixel.
Definition gray : Type := ndarray Z.

(** [image.size] of a three-channel image and [mask.size] of a mask. *)
Definition image_size (im : image) : nat := shape0 im * shape1 im * 3.
Definition mask_size (m : gray) : nat := shape0 m * shape1 m.

(** [a[r0:r1, c0:c1]] with bounds already inside the array. *)
Definition sub_array {A : Type} (a : ndarray A) (r0 r1 c0 c1 : nat) : ndarray A :=
  {| shape0 := r1 - r0; shape1 := c1 - c0;
     at_ := fun y x => at_ a (r0 + y) (c0 + x) |}.

(** The bounds of [a[start:stop]] along an axis of length [len]. *)
Definition slice_bounds (len : nat) (start stop : Z) : nat * nat :=
  let l := Z.of_nat len in
  let a := norm_index l start in
  let b := norm_index l stop in
  (Z.to_nat a, Z.to_nat (Z.max a b)).

(** [a[y0:y1, x0:x1]] with Python's treatment of out-of-range and
    negative bounds. *)
Definition py_slice2 {A : Type} (a : ndarray A) (y0 y1 x0 x1 : Z) : ndarray A :=
  let '(r0, r1) := slice_bounds (shape0 a) y0 y1 in
  let '(c0, c1) := slice_bounds (shape1 a) x0 x1 in
  sub_array a r0 r1 c0 c1.

(** The elements of row [y], left to right, and all elements in
    row-major order. *)
Definition row_elems {A : Type} (a : ndarray A) (y : nat) : list A :=
  map (at_ a y) (seq 0 (shape1 a)).

Definition elems {A : Type} (a : ndarray A) : list A :=
  flat_map (row_elems a) (seq 0 (shape0 a)).

(** [np.sum(row > 0)] and [np.sum(mask > 0)]. *)
Definition count_positive (l : list Z) : nat :=
  List.length (filter (fun v => (0 <? v)%Z) l).

Definition np_sum_positive (m : gray) : nat := count_positive (elems m).

(** [np.where(mask > 0)[0]]: the row index of every positive element, in
    row-major order. *)
Definition np_where_rows (m : gray) : list nat :=
  flat_map (fun y => repeat y (count_positive (row_elems m y))) (seq 0 (shape0 m)).

(** [np.mean] of a list of indices. *)
Definition np_mean_nat (l : list nat) : Q :=
  (inject_Z (Z.of_nat (fold_right Nat.add 0%nat l)) / inject_Z (Z.of_nat (List.length l)))%Q.

(** [np.mean] and [np.max] of a list of floats. *)
Definition np_mean (l : list Q) : Q :=
  (fold_right Qplus 0 l / inject_Z (Z.of_nat (List.length l)))%Q.

Definition np_max (l : list Q) : Q :=
  match l with
  | [] => 0%Q
  | q :: l' => fold_left Qmax l' q
  end.

(** [np.max] and [np.min] of a [uint8] channel; numpy raises on an empty
    array. *)
Definition np_max_Z (l : list Z) : exc Z :=
  match l with
  | [] => Raise "ValueError: zero-size array to reduction operation maximum"
  | v :: l' => Ok (fold_left Z.max l' v)
  end.

Definition np_min_Z (l : list Z) : exc Z :=
  match l with
  | [] => Raise "ValueError: zero-size array to reduction operation minimum"
  | v :: l' => Ok (fold_left Z.min l' v)
  end.

(** [cv2.inRange]: 255 where every channel lies within its bounds,
    0 elsewhere. *)
Definition in_range (p lo hi : pixel) : bool :=
  let '(p0, p1, p2) := p in
  let '(l0, l1, l2) := lo in
  let '(h0, h1, h2) := hi in
  ((l0 <=? p0) && (p0 <=? h0) && (l1 <=? p1) && (p1 <=? h1)
   && (l2 <=? p2) && (p2 <=? h2))%Z.

Definition inRange (im : image) (lo hi : pixel) : gray :=
  {| shape0 := shape0 im; shape1 := shape1 im;
     at_ := fun y x => if in_range (at_ im y x) lo hi then 255%Z else 0%Z |}.

(** The first channel of a three-channel image ([lab[:, :, 0]]). *)
Definition channel0 (im : image) : gray :=
  {| shape0 := shape0 im; shape1 := shape1 im;
     at_ := fun y x => fst (fst (at_ im y x)) |}.

(* ================================================================== *)
(** * 6. The environment: OpenCV, numpy reductions and formatting *)
(* ================================================================== *)

(** A line segment [(x1, y1, x2, y2)] of [cv2.HoughLinesP] and a contour
    of [cv2.findContours]. *)
Definition segment : Type := (Z * Z * Z * Z)%type.
Definition contour : Type := list (Z * Z).

Record Env : Type := mk_Env {
  (** [cv2.cvtColor(image, cv2.COLOR_BGR2GRAY)] and its HSV and LAB
      variants; OpenCV raises on an empty input. *)
  cvtColor_BGR2GRAY : image -> exc gray;
  cvtColor_BGR2HSV : image -> exc image;
  cvtColor_BGR2LAB : image -> exc image;
  (** [cv2.Canny(gray, low, high)]. *)
  Canny : gray -> Z -> Z -> exc gray;
  (** [cv2.HoughLinesP(edges, rho=1, theta=np.pi/180, threshold,
      minLineLength, maxLineGap)]; [None] when no line is found. *)
  HoughLinesP : gray -> Z -> Z -> Z -> exc (option (list segment));
  (** [cv2.findContours(edges, RETR_EXTERNAL, CHAIN_APPROX_SIMPLE)],
      [cv2.contourArea] and [cv2.boundingRect]. *)
  findContours : gray -> exc (list contour);
  contourArea : contour -> Q;
  boundingRect : contour -> Z * Z * Z * Z;
  (** [np.std] of a patch. *)
  np_std : gray -> Q;
  (** [f"{x:.nf}"], [f"{x:.n%}"], the former also on the real angle, and
      [str.title]. *)
  format_fixed : nat -> Q -> string;
  format_percent : nat -> Q -> string;
  format_fixed_R : nat -> R -> string;
  title : string -> string
}.

(** The double quote and the degree sign as one-character strings. *)
Definition dquote : string := String (ascii_of_nat 34) EmptyString.
Definition degree_sign : string := String (ascii_of_nat 176) EmptyString.

(* ================================================================== *)
(** * 7. Detections and findings *)
(* ================================================================== *)

(** [DetectionResult] of [object_detector.py]. *)
Record DetectionResult : Type := mk_DetectionResult {
  class_id : Z;
  class_name : string;
  det_confidence : Q;
  bbox : Z * Z * Z * Z;
  center : Z * Z
}.

(** [DetectionResult.get_crop]: [image[y:y+h, x:x+w]]. *)
Definition get_crop (d : DetectionResult) (im : image) : image :=
  let '(x, y, w, h) := bbox d in
  py_slice2 im y (y + h) x (x + w).

(** The dictionary a category analyzer returns for one finding. *)
Record violation : Type := mk_violation {
  v_type : string;
  v_severity : string;
  v_ada_code : string;
  v_description : string;
  v_recommendation : string;
  v_confidence : Q;
  v_detection_method : string;
  v_measurements : list (string * mval)
}.

(** [violations.append(v)] when the check returned a finding. *)
Definition append_if {A : Type} (l : list A) (o : option A) : list A :=
  match o with
  | Some v => l ++ [v]
  | None => l
  end.

(* ================================================================== *)
(** * 8. Door analyzer ([cv_rules/door_analyzer.py]) *)
(* ================================================================== *)

Module DoorAnalyzer.
Section WithEnv.
Variable E : Env.
Local Open Scope string_scope.

Definition narrow_door_ratio : Q := 2.5.
Definition very_narrow_ratio : Q := 3.0.
Definition canny_low : Z := 50.
Definition canny_high : Z := 150.

Definition width_violation (aspect_ratio : Q) (confidence : Q)
    (estimated_width : nat) (description : string) : violation :=
  {| v_type := "Door Width";
     v_severity := "Critical";
     v_ada_code := "404.2.3";
     v_description := description;
     v_recommendation := "Verify actual door width with physical measurement. If below 32 inches clear width, widen opening or install wider door.";
     v_confidence := confidence;
     v_detection_method := "rule_based_cv";
     v_measurements :=
       [("aspect_ratio", MFloat (py_round aspect_ratio 2));
        ("estimated_width_inches", MInt (Z.of_nat estimated_width));
        ("required_width_inches", MInt 32)] |}.

Definition _check_width (im : image) (height width : nat) : option violation :=
  let aspect_ratio : Q :=
    if (0 <? width)%nat
    then (inject_Z (Z.of_nat height) / inject_Z (Z.of_nat width))%Q
    else 0%Q in
  if Qltb very_narrow_ratio aspect_ratio then
    Some (width_violation aspect_ratio 0.70 28
            ("Door aspect ratio (" ++ format_fixed E 2 aspect_ratio
             ++ ") suggests width significantly below required 32 inches (estimated ~"
             ++ str_of_nat 28 ++ dquote ++ ")"))
  else if Qltb narrow_door_ratio aspect_ratio then
    Some (width_violation aspect_ratio 0.60 30
            ("Door aspect ratio (" ++ format_fixed E 2 aspect_ratio
             ++ ") suggests width may be below required 32 inches (estimated ~"
             ++ str_of_nat 30 ++ dquote ++ ")"))
  else None.

(** [edges[start:, :]]. *)
Definition rows_from (a : gray) (start : Z) : gray :=
  py_slice2 a start (Z.of_nat (shape0 a)) 0 (Z.of_nat (shape1 a)).

(** The number of rows of [section] with more than [width * 0.3]
    positive pixels. *)
Definition strong_rows (section : gray) (width : nat) : nat :=
  List.length
    (filter (fun y =>
               Qltb (inject_Z (Z.of_nat width) * 0.3)
                    (inject_Z (Z.of_nat (count_positive (row_elems section y)))))
            (seq 0 (shape0 section))).

Definition _check_threshold (im : image) (height width : nat) : exc (option violation) :=
  gray_im <- cvtColor_BGR2GRAY E im ;;
  edges <- Canny E gray_im canny_low canny_high ;;
  let bottom_section := rows_from edges (py_int (inject_Z (Z.of_nat height) * 0.85)) in
  let horizontal_edges := strong_rows bottom_section width in
  let edge_density : Q :=
    if (0 <? shape0 bottom_section)%nat
    then (inject_Z (Z.of_nat horizontal_edges)
          / inject_Z (Z.of_nat (shape0 bottom_section)))%Q
    else 0%Q in
  if Qltb 0.3 edge_density then
    let confidence := Qmin (0.55 + edge_density * 0.2) 0.75 in
    Ok (Some
      {| v_type := "Door Threshold";
         v_severity := "Moderate";
         v_ada_code := "404.2.5";
         v_description :=
           "Detected horizontal edge features at door base (density: "
           ++ format_fixed E 2 edge_density
           ++ "), suggesting possible raised threshold exceeding 1/2 inch maximum";
         v_recommendation := "Verify threshold height with physical measurement. If over 1/2 inch, install beveled threshold or remove raised threshold.";
         v_confidence := confidence;
         v_detection_method := "rule_based_cv";
         v_measurements :=
           [("edge_density", MFloat (py_round edge_density 2));
            ("max_threshold_height_inches", MFloat 0.5)] |})
  else Ok None.

(** A contour is hardware-like when its area lies strictly between the
    two bounds and its bounding box is less than three times as long as
    it is wide. *)
Definition hardware_like (min_area max_area : Q) (c : contour) : bool :=
  let area := contourArea E c in
  if Qltb min_area area && Qltb area max_area then
    let '(_, _, w, h) := boundingRect E c in
    let aspect_ratio : Q :=
      if (0 <? Z.min w h)%Z
      then (inject_Z (Z.max w h) / inject_Z (Z.min w h))%Q
      else 0%Q in
    Qltb aspect_ratio 3
  else false.

Definition _check_hardware (im : image) (height width : nat) : exc (option violation) :=
  gray_im <- cvtColor_BGR2GRAY E im ;;
  let middle_start := py_int (inject_Z (Z.of_nat height) * 0.4) in
  let middle_end := py_int (inject_Z (Z.of_nat height) * 0.6) in
  let middle_section :=
    py_slice2 gray_im middle_start middle_end 0 (Z.of_nat (shape1 gray_im)) in
  edges <- Canny E middle_section canny_low canny_high ;;
  contours <- findContours E edges ;;
  let min_area := (inject_Z (Z.of_nat (width * height)) * 0.002)%Q in
  let max_area := (inject_Z (Z.of_nat (width * height)) * 0.05)%Q in
  let hardware_contours := filter (hardware_like min_area max_area) contours in
  if (List.length hardware_contours <? 2)%nat then
    Ok (Some
      {| v_type := "Door Hardware";
         v_severity := "Minor";
         v_ada_code := "404.2.7";
         v_description :=
           "Limited hardware features detected ("
           ++ str_of_nat (List.length hardware_contours)
           ++ " features found). Door hardware should be operable with one hand without tight grasping.";
         v_recommendation := "Verify door hardware is lever-style or push-type, operable with closed fist. Replace round knobs or twist-style hardware.";
         v_confidence := 0.50;
         v_detection_method := "rule_based_cv";
         v_measurements :=
           [("hardware_features_detected",
             MInt (Z.of_nat (List.length hardware_contours)))] |})
  else Ok None.

Definition analyze (im : image) (detection : DetectionResult) : exc (list violation) :=
  let violations : list violation := [] in
  if (image_size im =? 0)%nat then Ok violations
  else
    let height := shape0 im in
    let width := shape1 im in
    let violations := append_if violations (_check_width im height width) in
    threshold_violation <- _check_threshold im height width ;;
    let violations := append_if violations threshold_violation in
    hardware_violation <- _check_hardware im height width ;;
    let violations := append_if violations hardware_violation in
    Ok violations.

End WithEnv.
End DoorAnalyzer.

(* ================================================================== *)
(** * 9. Parking analyzer ([cv_rules/parking_analyzer.py]) *)
(* ================================================================== *)

Module ParkingAnalyzer.
Section WithEnv.
Variable E : Env.
Local Open Scope string_scope.

Definition blue_lower : pixel := (90, 80, 50)%Z.
Definition blue_upper : pixel := (135, 255, 255)%Z.
Definition white_lower : pixel := (0, 0, 180)%Z.
Definition white_upper : pixel := (180, 50, 255)%Z.
Definition min_blue_percentage : Q := 0.05.
Definition min_white_percentage : Q := 0.02.

(** [np.sum(mask > 0) / mask.size]. *)
Definition mask_fraction (m : gray) : Q :=
  (inject_Z (Z.of_nat (np_sum_positive m)) / inject_Z (Z.of_nat (mask_size m)))%Q.

Definition blue_percentage_of (hsv : image) : Q :=
  mask_fraction (inRange hsv blue_lower blue_upper).

Definition white_percentage_of (hsv : image) : Q :=
  mask_fraction (inRange hsv white_lower white_upper).

Definition _check_signage (im : image) (height width : nat) : exc (option violation) :=
  hsv <- cvtColor_BGR2HSV E im ;;
  let blue_percentage := blue_percentage_of hsv in
  let white_percentage := white_percentage_of hsv in
  let has_blue := Qle_bool min_blue_percentage blue_percentage in
  let has_white := Qle_bool min_white_percentage white_percentage in
  if negb has_blue then
    Ok (Some
      {| v_type := "Parking Signage";
         v_severity := "Critical";
         v_ada_code := "502.6";
         v_description :=
           "No blue signage detected (found " ++ format_percent E 1 blue_percentage
           ++ " blue pixels). Accessible parking spaces must display the International Symbol of Accessibility on a sign.";
         v_recommendation := "Install accessible parking sign with International Symbol of Accessibility (blue background, white wheelchair symbol) at 60 inches minimum height above ground.";
         v_confidence := 0.80;
         v_detection_method := "rule_based_cv";
         v_measurements :=
           [("blue_percentage", MFloat (py_round (blue_percentage * 100) 1));
            ("white_percentage", MFloat (py_round (white_percentage * 100) 1));
            ("required_blue_percentage", MFloat (min_blue_percentage * 100))] |})
  else if has_blue && negb has_white then
    Ok (Some
      {| v_type := "Wheelchair Symbol";
         v_severity := "Critical";
         v_ada_code := "502.6";
         v_description :=
           "Blue sign detected but missing white wheelchair symbol (found "
           ++ format_percent E 1 white_percentage
           ++ " white). Sign must include International Symbol of Accessibility.";
         v_recommendation := "Verify sign includes white wheelchair symbol. Replace if symbol is missing or obscured.";
         v_confidence := 0.70;
         v_detection_method := "rule_based_cv";
         v_measurements :=
           [("blue_percentage", MFloat (py_round (blue_percentage * 100) 1));
            ("white_percentage", MFloat (py_round (white_percentage * 100) 1))] |})
  else Ok None.

(** [np.mean(blue_positions[0]) / height]. *)
Definition relative_position_of (hsv : image) (height : nat) : Q :=
  (np_mean_nat (np_where_rows (inRange hsv blue_lower blue_upper))
   / inject_Z (Z.of_nat height))%Q.

Definition _check_sign_position (im : image) (height width : nat) : exc (option violation) :=
  hsv <- cvtColor_BGR2HSV E im ;;
  let blue_mask := inRange hsv blue_lower blue_upper in
  let blue_rows := np_where_rows blue_mask in
  if (0 <? List.length blue_rows)%nat then
    let avg_y_position := np_mean_nat blue_rows in
    let relative_position := (avg_y_position / inject_Z (Z.of_nat height))%Q in
    if Qltb 0.6 relative_position then
      Ok (Some
        {| v_type := "Sign Height";
           v_severity := "Moderate";
           v_ada_code := "502.6";
           v_description :=
             "Sign appears in lower portion of image (position: "
             ++ format_percent E 0 relative_position
             ++ " from top). ADA requires signs at 60 inches minimum above ground.";
           v_recommendation := "Verify sign mounting height with physical measurement. If below 60 inches, raise sign to compliant height.";
           v_confidence := 0.60;
           v_detection_method := "rule_based_cv";
           v_measurements :=
             [("vertical_position_percentage",
               MFloat (py_round (relative_position * 100) 0));
              ("required_height_inches", MInt 60)] |})
    else Ok None
  else Ok None.

Definition analyze (im : image) (detection : DetectionResult) : exc (list violation) :=
  let violations : list violation := [] in
  if (image_size im =? 0)%nat then Ok violations
  else
    let height := shape0 im in
    let width := shape1 im in
    sign_violation <- _check_signage im height width ;;
    let violations := append_if violations sign_violation in
    position_violation <- _check_sign_position im height width ;;
    let violations := append_if violations position_violation in
    Ok violations.

End WithEnv.
End ParkingAnalyzer.

(* ================================================================== *)
(** * 10. Pathway analyzer ([cv_rules/pathway_analyzer.py]) *)
(* ================================================================== *)

Module PathwayAnalyzer.
Section WithEnv.
Variable E : Env.
Local Open Scope string_scope.

Definition obstruction_objects : list string :=
  ["chair"; "couch"; "bench"; "potted_plant"; "vase";
   "suitcase"; "backpack"; "handbag"; "umbrella";
   "bicycle"; "motorcycle"; "fire_hydrant"].

Definition high_risk_objects : list string :=
  ["chair"; "couch"; "bench"; "bicycle"].

(** [(w * h) / (width * height) if (width * height) > 0 else 0]. *)
Definition relative_size_of (im : image) (detection : DetectionResult) : Q :=
  let '(_, _, w, h) := bbox detection in
  let height := shape0 im in
  let width := shape1 im in
  if (0 <? width * height)%nat
  then (inject_Z (w * h) / inject_Z (Z.of_nat (width * height)))%Q
  else 0%Q.

(** Severity and confidence after the size test, in the order the source
    writes its two branches. *)
Definition size_assessment (relative_size : Q) : string * Q :=
  if Qltb 0.3 relative_size then ("Moderate", 0.65%Q)
  else if Qltb 0.5 relative_size then ("Critical", 0.70%Q)
  else ("Moderate", 0.60%Q).

Definition _check_obstruction (im : image) (detection : DetectionResult) : violation :=
  let object_name := class_name detection in
  let relative_size := relative_size_of im detection in
  let '(severity, confidence) := size_assessment relative_size in
  let confidence :=
    if str_in (lower object_name) high_risk_objects
    then (confidence + 0.05)%Q else confidence in
  let description := title E object_name ++ " detected in potential pathway area" in
  let description :=
    if Qltb 0.4 relative_size
    then description ++ " (occupies " ++ format_percent E 0 relative_size
         ++ " of detected area)"
    else description in
  let description :=
    description ++ ". Objects may not protrude into accessible routes or reduce required 36-inch clear width." in
  {| v_type := "Pathway Obstruction";
     v_severity := severity;
     v_ada_code := "403.5.1";
     v_description := description;
     v_recommendation :=
       "Relocate " ++ object_name
       ++ " to maintain minimum 36-inch clear pathway width. Ensure objects do not protrude more than 4 inches into circulation path (ADA 307).";
     v_confidence := Qmin confidence 0.75;
     v_detection_method := "rule_based_cv";
     v_measurements :=
       [("object_type", MStr object_name);
        ("relative_size_percentage", MFloat (py_round (relative_size * 100) 1));
        ("required_clear_width_inches", MInt 36);
        ("max_protrusion_inches", MInt 4)] |}.

(** The returned dictionary is never empty, so the test
    [if obstruction_violation:] always appends it. *)
Definition analyze (im : image) (detection : DetectionResult) : list violation :=
  let violations : list violation := [] in
  if (image_size im =? 0)%nat then violations
  else
    let object_type := lower (class_name detection) in
    if negb (str_in object_type obstruction_objects) then violations
    else append_if violations (Some (_check_obstruction im detection)).

End WithEnv.
End PathwayAnalyzer.

(* ================================================================== *)
(** * 11. Ramp analyzer ([cv_rules/ramp_analyzer.py]) *)
(* ================================================================== *)

Module RampAnalyzer.
Section WithEnv.
Variable E : Env.
Local Open Scope string_scope.

Definition max_slope_degrees : R := 5.
Definition warning_slope_degrees : R := 4.
Definition canny_low : Z := 50.
Definition canny_high : Z := 150.

(** [abs(np.degrees(np.arctan((y2 - y1) / (x2 - x1))))], for a segment
    that is not vertical. *)
Definition line_angle (l : segment) : option R :=
  let '(x1, y1, x2, y2) := l in
  if (x2 - x1 =? 0)%Z then None
  else Some (Rabs (np_degrees (atan (IZR (y2 - y1) / IZR (x2 - x1))))).

(** The angles kept by [if 10 < angle < 80], in the order of the lines. *)
Fixpoint qualifying_angles (lines : list segment) : list R :=
  match lines with
  | [] => []
  | l :: rest =>
      match line_angle l with
      | Some angle =>
          if Rlt_dec 10 angle then
            if Rlt_dec angle 80 then angle :: qualifying_angles rest
            else qualifying_angles rest
          else qualifying_angles rest
      | None => qualifying_angles rest
      end
  end.

(** [max(angles)] of a non-empty list. *)
Definition max_angle (a : R) (angles : list R) : R := fold_left Rmax angles a.

Definition slope_violation (severity : string) (confidence : Q)
    (description : string) (steepest_angle : R) : violation :=
  {| v_type := "Ramp Slope";
     v_severity := severity;
     v_ada_code := "405.2";
     v_description := description;
     v_recommendation := "Verify ramp slope with physical measurement (rise:run ratio). If steeper than 1:12 (8.33%), reconstruct ramp to meet compliance or install alternative accessible route.";
     v_confidence := confidence;
     v_detection_method := "rule_based_cv";
     v_measurements :=
       [("detected_angle_degrees", MReal (py_round1_R steepest_angle));
        ("max_allowed_angle_degrees", MFloat 4.76);
        ("max_allowed_ratio", MStr "1:12");
        ("max_allowed_percentage", MFloat 8.33)] |}.

(** The part of [_check_slope] after the line detection. *)
Definition assess_slope (lines : option (list segment)) : option violation :=
  match lines with
  | None => None
  | Some [] => None
  | Some ls =>
      match qualifying_angles ls with
      | [] => None
      | a :: angles =>
          let steepest_angle := max_angle a angles in
          if Rlt_dec max_slope_degrees steepest_angle then
            Some (slope_violation "Critical" 0.60
                    ("Detected diagonal line at " ++ format_fixed_R E 1 steepest_angle
                     ++ degree_sign ++ " angle, exceeding ADA maximum slope of 4.76"
                     ++ degree_sign ++ " (1:12 ratio)")
                    steepest_angle)
          else if Rlt_dec warning_slope_degrees steepest_angle then
            Some (slope_violation "Moderate" 0.55
                    ("Detected diagonal line at " ++ format_fixed_R E 1 steepest_angle
                     ++ degree_sign ++ " angle, approaching ADA maximum slope of 4.76"
                     ++ degree_sign ++ " (1:12 ratio)")
                    steepest_angle)
          else None
      end
  end.

Definition _check_slope (im : image) (height width : nat) : exc (option violation) :=
  gray_im <- cvtColor_BGR2GRAY E im ;;
  edges <- Canny E gray_im canny_low canny_high ;;
  lines <- HoughLinesP E edges 50
             (py_int (inject_Z (Z.of_nat (Nat.min width height)) * 0.2)) 20 ;;
  Ok (assess_slope lines).

(** [(x1 + x2) / 2 < width * 0.3] and [(x1 + x2) / 2 > width * 0.7]. *)
Definition on_left (width : nat) (l : segment) : bool :=
  let '(x1, _, x2, _) := l in
  Qltb (inject_Z (x1 + x2) / 2) (inject_Z (Z.of_nat width) * 0.3).

Definition on_right (width : nat) (l : segment) : bool :=
  let '(x1, _, x2, _) := l in
  negb (on_left width l)
  && Qltb (inject_Z (Z.of_nat width) * 0.7) (inject_Z (x1 + x2) / 2).

(** [' and '.join(missing)]. *)
Definition missing_sides (left_count right_count : nat) : string :=
  match left_count, right_count with
  | O, O => "left and right"
  | O, _ => "left"
  | _, O => "right"
  | _, _ => EmptyString
  end.

Definition _check_handrails (im : image) (height width : nat) : exc (option violation) :=
  gray_im <- cvtColor_BGR2GRAY E im ;;
  edges <- Canny E gray_im canny_low canny_high ;;
  lines <- HoughLinesP E edges 40 (py_int (inject_Z (Z.of_nat height) * 0.3)) 30 ;;
  match lines with
  | None =>
      Ok (Some
        {| v_type := "Ramp Handrails";
           v_severity := "Moderate";
           v_ada_code := "405.8";
           v_description := "No handrail features detected. Ramps with rise greater than 6 inches must have handrails on both sides.";
           v_recommendation := "Install handrails on both sides of ramp, 34-38 inches above ramp surface, extending 12 inches beyond top and bottom of ramp.";
           v_confidence := 0.65;
           v_detection_method := "rule_based_cv";
           v_measurements :=
             [("handrail_features_detected", MInt 0);
              ("required_handrails", MInt 2)] |})
  | Some ls =>
      let left_lines := filter (on_left width) ls in
      let right_lines := filter (on_right width) ls in
      if (List.length left_lines =? 0)%nat || (List.length right_lines =? 0)%nat then
        Ok (Some
          {| v_type := "Ramp Handrails";
             v_severity := "Moderate";
             v_ada_code := "405.8";
             v_description :=
               "Handrail features missing on "
               ++ missing_sides (List.length left_lines) (List.length right_lines)
               ++ " side(s). Ramps must have handrails on both sides if rise exceeds 6 inches.";
             v_recommendation := "Install handrails on both sides, 34-38 inches above ramp surface, with gripping surface complying with ADA 505.";
             v_confidence := 0.60;
             v_detection_method := "rule_based_cv";
             v_measurements :=
               [("left_handrail_features", MInt (Z.of_nat (List.length left_lines)));
                ("right_handrail_features", MInt (Z.of_nat (List.length right_lines)));
                ("required_handrails", MInt 2)] |})
      else Ok None
  end.

Definition analyze (im : image) (detection : DetectionResult) : exc (list violation) :=
  let violations : list violation := [] in
  if (image_size im =? 0)%nat then Ok violations
  else
    let height := shape0 im in
    let width := shape1 im in
    slope_violation <- _check_slope im height width ;;
    let violations := append_if violations slope_violation in
    handrail_violation <- _check_handrails im height width ;;
    let violations := append_if violations handrail_violation in
    Ok violations.

End WithEnv.
End RampAnalyzer.

(* ================================================================== *)
(** * 12. Signage analyzer ([cv_rules/signage_analyzer.py]) *)
(* ================================================================== *)

Module SignageAnalyzer.
Section WithEnv.
Variable E : Env.
Local Open Scope string_scope.

Definition min_contrast_ratio : Q := 3.0.
Definition low_contrast_ratio : Q := 2.5.
Definition min_texture_stddev : Q := 15.0.
Definition patch_size : nat := 20.

Definition contrast_violation (severity : string) (confidence : Q)
    (description : string) (contrast_ratio : Q) (max_luminance min_luminance : Z)
    : violation :=
  {| v_type := "Sign Contrast";
     v_severity := severity;
     v_ada_code := "703.5";
     v_description := description;
     v_recommendation := "Improve contrast between characters and background. Use light characters on dark background or vice versa to achieve minimum 3:1 contrast ratio.";
     v_confidence := confidence;
     v_detection_method := "rule_based_cv";
     v_measurements :=
       [("contrast_ratio", MFloat (py_round contrast_ratio 2));
        ("min_required_ratio", MFloat 3.0);
        ("max_luminance", MInt max_luminance);
        ("min_luminance", MInt min_luminance)] |}.

Definition _check_contrast (im : image) (height width : nat) : exc (option violation) :=
  lab <- cvtColor_BGR2LAB E im ;;
  let l_channel := channel0 lab in
  max_luminance <- np_max_Z (elems l_channel) ;;
  min_luminance <- np_min_Z (elems l_channel) ;;
  let l1 := (inject_Z max_luminance / 255.0)%Q in
  let l2 := (inject_Z min_luminance / 255.0)%Q in
  let contrast_ratio := ((l1 + 0.05) / (l2 + 0.05))%Q in
  if Qltb contrast_ratio low_contrast_ratio then
    Ok (Some (contrast_violation "Critical" 0.70
                ("Very low contrast ratio of " ++ format_fixed E 2 contrast_ratio
                 ++ ":1 detected, well below ADA minimum of 3:1")
                contrast_ratio max_luminance min_luminance))
  else if Qltb contrast_ratio min_contrast_ratio then
    Ok (Some (contrast_violation "Moderate" 0.65
                ("Low contrast ratio of " ++ format_fixed E 2 contrast_ratio
                 ++ ":1 detected, below ADA minimum of 3:1")
                contrast_ratio max_luminance min_luminance))
  else Ok None.

(** [range(0, stop, step)] for a positive step. *)
Definition py_range (stop : Z) (step : nat) : list nat :=
  map (fun k => (k * step)%nat)
      (seq 0 (Z.to_nat ((stop + Z.of_nat step - 1) / Z.of_nat step))).

(** The standard deviation of every patch, rows of patches first. *)
Definition texture_scores_of (g : gray) (height width : nat) : list Q :=
  flat_map
    (fun y =>
       map (fun x =>
              np_std E (py_slice2 g (Z.of_nat y) (Z.of_nat (y + patch_size))
                                    (Z.of_nat x) (Z.of_nat (x + patch_size))))
           (py_range (Z.of_nat width - Z.of_nat patch_size) patch_size))
    (py_range (Z.of_nat height - Z.of_nat patch_size) patch_size).

Definition _check_tactile_features (im : image) (height width : nat)
    : exc (option violation) :=
  gray_im <- cvtColor_BGR2GRAY E im ;;
  let texture_scores := texture_scores_of gray_im height width in
  if (List.length texture_scores =? 0)%nat then Ok None
  else
    let avg_texture := np_mean texture_scores in
    let max_texture := np_max texture_scores in
    if Qltb avg_texture min_texture_stddev && Qltb max_texture 25.0 then
      Ok (Some
        {| v_type := "Tactile Features";
           v_severity := "Minor";
           v_ada_code := "703.2";
           v_description :=
             "Smooth surface detected (texture score: "
             ++ format_fixed E 1 avg_texture
             ++ "). Permanent room signs must have raised characters and Grade 2 braille.";
           v_recommendation :=
             "For permanent room identification signs, add raised characters (5/8"
             ++ dquote ++ " to 2" ++ dquote
             ++ " height) and Grade 2 braille. Characters must be raised at least 1/32 inch.";
           v_confidence := 0.55;
           v_detection_method := "rule_based_cv";
           v_measurements :=
             [("average_texture_score", MFloat (py_round avg_texture 1));
              ("max_texture_score", MFloat (py_round max_texture 1));
              ("texture_threshold", MFloat min_texture_stddev);
              ("min_character_height_inches", MFloat 0.625);
              ("max_character_height_inches", MFloat 2.0)] |})
    else Ok None.

Definition analyze (im : image) (detection : DetectionResult) : exc (list violation) :=
  let violations : list violation := [] in
  if (image_size im =? 0)%nat then Ok violations
  else
    let height := shape0 im in
    let width := shape1 im in
    contrast_violation <- _check_contrast im height width ;;
    let violations := append_if violations contrast_violation in
    tactile_violation <- _check_tactile_features im height width ;;
    let violations := append_if violations tactile_violation in
    Ok violations.

End WithEnv.
End SignageAnalyzer.

(* ================================================================== *)
(** * 13. Findings as records ([base_analyzer.py]) *)
(* ================================================================== *)

(** The dataclass [ViolationResult].  Its fields are not validated: the
    first six hold whatever object the caller passes. *)
Record ViolationResult : Type := mk_ViolationResult {
  type : pyobj;
  severity : pyobj;
  ada_code : pyobj;
  description : pyobj;
  recommendation : pyobj;
  confidence : pyobj;
  detection_method : string;
  measurements : list (string * mval)
}.

(** The severity taxonomy of [config.py]. *)
Definition SEVERITY_CRITICAL : string := "Critical".
Definition SEVERITY_MODERATE : string := "Moderate".
Definition SEVERITY_MINOR : string := "Minor".




(* ================================================================== *)
(** * 14. The router ([rule_based_analyzer.py]) *)
(* ================================================================== *)

Module RuleBasedAnalyzer.
Section WithEnv.
Variable E : Env.
Local Open Scope string_scope.

Definition name : string := "rule_based_cv".

Definition door_objects : list string := ["door"; "entrance"].
Definition parking_objects : list string := ["car"; "truck"; "bus"; "parking"].
Definition ramp_objects : list string := ["ramp"; "stairs"; "steps"].
Definition sign_objects : list string := ["sign"; "signage"; "stop_sign"; "street_sign"].

(** [ViolationResult(type=v_dict['type'], ...)]: every key is present in
    the dictionaries the category analyzers build. *)
Definition to_result (v : violation) : ViolationResult :=
  {| type := PyStr (v_type v);
     severity := PyStr (v_severity v);
     ada_code := PyStr (v_ada_code v);
     description := PyStr (v_description v);
     recommendation := PyStr (v_recommendation v);
     confidence := PyFloat (v_confidence v);
     detection_method := v_detection_method v;
     measurements := v_measurements v |}.

(** The dictionaries of the category analyzer the label is routed to.
    Slicing an array by ints does not raise, so the handler around
    [get_crop] is never entered. *)
Definition route (im : image) (detection : DetectionResult) : exc (list violation) :=
  let object_type := lower (class_name detection) in
  let cropped := get_crop detection im in
  if str_in object_type door_objects then DoorAnalyzer.analyze E cropped detection
  else if str_in object_type parking_objects then ParkingAnalyzer.analyze E cropped detection
  else if str_in object_type ramp_objects then RampAnalyzer.analyze E cropped detection
  else if str_in object_type sign_objects then SignageAnalyzer.analyze E cropped detection
  else Ok (PathwayAnalyzer.analyze E cropped detection).

Definition analyze_detection (im : image) (detection : DetectionResult)
    : exc (list ViolationResult) :=
  violations_dicts <- route im detection ;;
  Ok (map to_result violations_dicts).

End WithEnv.
End RuleBasedAnalyzer.

(* ================================================================== *)
(** * 15. The model-backed analyzer ([claude_analyzer.py]) *)
(* ================================================================== *)

(** What the analyzer calls outside the repository. *)
Record Remote : Type := mk_Remote {
  (** [json.loads]; [None] stands for [json.JSONDecodeError]. *)
  json_loads : string -> option pyobj;
  (** [cv2.imencode('.jpg', image)] and [base64.b64encode(.).decode]. *)
  imencode_jpg : image -> exc (bool * string);
  b64encode : string -> string;
  (** [client.messages.create(...).content[0].text] for an encoded image
      and a prompt. *)
  messages_create : string -> string -> exc string;
  (** [prompts.get_prompt_for_object] and [prompts.SYSTEM_PROMPT]. *)
  get_prompt_for_object : string -> string;
  SYSTEM_PROMPT : string
}.

Module ClaudeAPIAnalyzer.
Section WithRemote.
Variable Rm : Remote.
Variable use_mock : bool.
Local Open Scope string_scope.

Definition name : string := "claude_api".

Definition _encode_image (im : image) : exc string :=
  r <- imencode_jpg Rm im ;;
  let '(success, buffer) := r in
  if negb success then Raise "ValueError: Failed to encode image"
  else Ok (b64encode Rm buffer).

Definition fence_json : string := "```json".
Definition fence : string := "```".

(** The text handed to the second [json.loads]. *)
Definition json_candidate (text : string) : string :=
  if str_contains fence_json text then
    let start := (str_find fence_json text 0 + 7)%Z in
    let end_ := str_find fence text start in
    strip (str_slice text start end_)
  else if str_contains fence text then
    let start := (str_find fence text 0 + 3)%Z in
    let end_ := str_find fence text start in
    strip (str_slice text start end_)
  else
    let start := str_find "{" text 0 in
    let end_ := (str_rfind "}" text + 1)%Z in
    if negb (start =? -1)%Z && negb (end_ =? 0)%Z
    then str_slice text start end_
    else text.

Definition parse_error (text : string) : pyobj :=
  PyDict [("violations", PyList []);
          ("overall_assessment", PyStr "Parse error");
          ("notes", PyStr (str_take text 200))].

Definition _extract_json (text : string) : pyobj :=
  match json_loads Rm text with
  | Some obj => obj
  | None =>
      match json_loads Rm (json_candidate text) with
      | Some obj => obj
      | None => parse_error text
      end
  end.

(** The request is made inside [try]; encoding the image is not. *)
Definition _claude_analyze (im : image) (prompt : string) : exc pyobj :=
  img_base64 <- _encode_image im ;;
  match messages_create Rm img_base64
          (SYSTEM_PROMPT Rm ++ String (ascii_of_nat 10) (String (ascii_of_nat 10) prompt))
  with
  | Ok response_text => Ok (_extract_json response_text)
  | Raise e =>
      Ok (PyDict [("violations", PyList []);
                  ("overall_assessment", PyStr "Error during analysis");
                  ("notes", PyStr e)])
  end.

Definition mock_violation (ty sev code descr rec : string) (conf : Q) : pyobj :=
  PyDict [("type", PyStr ty); ("severity", PyStr sev); ("ada_code", PyStr code);
          ("description", PyStr descr); ("recommendation", PyStr rec);
          ("confidence", PyFloat conf)].

Definition _mock_analyze (object_name : string) : pyobj :=
  if str_in object_name ["door"; "entrance"] then
    PyDict [("violations",
             PyList [mock_violation "Door Width" "Critical" "404.2.3"
                       "Door opening appears narrower than required 32-inch clear width"
                       "Widen door opening or replace with wider door unit" 0.7]);
            ("overall_assessment", PyStr "Potential door width violation");
            ("notes", PyStr "Mock analysis - requires verification")]
  else if str_in object_name ["car"; "truck"; "parking"] then
    PyDict [("violations",
             PyList [mock_violation "Signage" "Critical" "502.6"
                       "Missing or inadequate accessible parking signage"
                       "Install International Symbol of Accessibility sign at 60 inches minimum height" 0.8]);
            ("overall_assessment", PyStr "Missing parking signage");
            ("notes", PyStr "Mock analysis")]
  else if str_in object_name ["chair"; "couch"; "bench"; "potted_plant"] then
    PyDict [("violations",
             PyList [mock_violation "Obstruction" "Moderate" "403.5.1"
                       "Object may obstruct required 36-inch clear pathway width"
                       "Relocate object to maintain minimum clear pathway" 0.6]);
            ("overall_assessment", PyStr "Potential pathway obstruction");
            ("notes", PyStr "Mock analysis")]
  else
    PyDict [("violations", PyList []);
            ("overall_assessment", PyStr "No obvious violations in this view");
            ("notes", PyStr "Mock analysis")].

(** One entry of the response: a dict becomes a record, a missing key
    taking its default; any other object has no [get] and is dropped by
    the handler. *)
Definition parse_violation (v_dict : pyobj) : option ViolationResult :=
  match v_dict with
  | PyDict d =>
      Some {| type := dict_get d "type" (PyStr "Unknown");
              severity := dict_get d "severity" (PyStr "Minor");
              ada_code := dict_get d "ada_code" (PyStr "N/A");
              description := dict_get d "description" (PyStr EmptyString);
              recommendation := dict_get d "recommendation" (PyStr EmptyString);
              confidence := dict_get d "confidence" (PyFloat 0.5);
              detection_method := "claude_api";
              measurements := [] |}
  | _ => None
  end.

Fixpoint parse_violations (l : list pyobj) : list ViolationResult :=
  match l with
  | [] => []
  | v_dict :: rest =>
      match parse_violation v_dict with
      | Some v => v :: parse_violations rest
      | None => parse_violations rest
      end
  end.

(** A response that is not a dict has no [get]; a [violations] entry
    that is a string or a dict is iterated over strings, each dropped;
    one that is not iterable raises. *)
Definition _parse_response (response : pyobj) (object_name : string)
    : exc (list ViolationResult) :=
  match response with
  | PyDict d =>
      match dict_get d "violations" (PyList []) with
      | PyList violations_data => Ok (parse_violations violations_data)
      | PyStr _ | PyDict _ => Ok []
      | _ => Raise "TypeError: object is not iterable"
      end
  | _ => Raise "AttributeError: object has no attribute 'get'"
  end.

Definition analyze_detection (im : image) (detection : DetectionResult)
    : exc (list ViolationResult) :=
  let cropped := get_crop detection im in
  if (image_size cropped =? 0)%nat then Ok []
  else
    let prompt_text := get_prompt_for_object Rm (class_name detection) in
    response <- (if use_mock then Ok (_mock_analyze (class_name detection))
                 else _claude_analyze cropped prompt_text) ;;
    _parse_response response (class_name detection).

End WithRemote.
End ClaudeAPIAnalyzer.

(* ================================================================== *)
(** * 16. The aggregator ([BaseAnalyzer.analyze_all_detections]) *)
(* ================================================================== *)

(** One value of the result dictionary.  [v.to_dict()] copies the eight
    fields of a record into a dictionary with the same keys, which the
    record stands for. *)
Record result_entry : Type := mk_result_entry {
  object : string;
  entry_bbox : list Z;
  violations : list ViolationResult;
  analyzer_type : string;
  detection_index : nat
}.

Module BaseAnalyzer.
Section WithAnalyzer.
(** The abstract method and the analyzer's name. *)
Variable analyze_detection : image -> DetectionResult -> exc (list ViolationResult).
Variable name : string.
Local Open Scope string_scope.

(** [f"detection_{i}"]. *)
Definition detection_key (i : nat) : string := "detection_" ++ str_of_nat i.

(** [list(detection.bbox)]. *)
Definition bbox_list (d : DetectionResult) : list Z :=
  let '(x, y, w, h) := bbox d in [x; y; w; h].

(** The loop over [enumerate(detections)], from index [i], with the
    dictionary built so far and the counter [self.analysis_count]. *)
Fixpoint analyze_loop (im : image) (detections : list DetectionResult) (i : nat)
    (results : list (string * result_entry)) (analysis_count : nat)
    : exc (list (string * result_entry) * nat) :=
  match detections with
  | [] => Ok (results, analysis_count)
  | detection :: rest =>
      vs <- analyze_detection im detection ;;
      let results :=
        dict_set results (detection_key i)
          {| object := class_name detection;
             entry_bbox := bbox_list detection;
             violations := vs;
             analyzer_type := name;
             detection_index := i |} in
      analyze_loop im rest (S i) results (S analysis_count)
  end.

(** The result dictionary and the updated counter. *)
Definition analyze_all_detections (im : image) (detections : list DetectionResult)
    (analysis_count : nat) : exc (list (string * result_entry) * nat) :=
  analyze_loop im detections 0 [] analysis_count.

End WithAnalyzer.
End BaseAnalyzer.

(* ================================================================== *)
(** * 17. Test doubles and sample inputs *)
(* ================================================================== *)

(** An OpenCV in which every call raises. *)
Definition failing_env : Env :=
  {| cvtColor_BGR2GRAY := fun _ => Raise "cv2.error";
     cvtColor_BGR2HSV := fun _ => Raise "cv2.error";
     cvtColor_BGR2LAB := fun _ => Raise "cv2.error";
     Canny := fun _ _ _ => Raise "cv2.error";
     HoughLinesP := fun _ _ _ _ => Raise "cv2.error";
     findContours := fun _ => Raise "cv2.error";
     contourArea := fun _ => 0%Q;
     boundingRect := fun _ => (0, 0, 0, 0)%Z;
     np_std := fun _ => 0%Q;
     format_fixed := fun _ _ => EmptyString;
     format_percent := fun _ _ => EmptyString;
     format_fixed_R := fun _ _ => EmptyString;
     title := fun s => s |}.

(** An OpenCV that takes the image as already converted, finds the given
    line segments and no contour. *)
Definition env_with_lines (lines : option (list segment)) : Env :=
  {| cvtColor_BGR2GRAY := fun im => Ok (channel0 im);
     cvtColor_BGR2HSV := fun im => Ok im;
     cvtColor_BGR2LAB := fun im => Ok im;
     Canny := fun g _ _ => Ok g;
     HoughLinesP := fun _ _ _ _ => Ok lines;
     findContours := fun _ => Ok [];
     contourArea := fun _ => 0%Q;
     boundingRect := fun _ => (0, 0, 0, 0)%Z;
     np_std := fun _ => 0%Q;
     format_fixed := fun _ _ => EmptyString;
     format_percent := fun _ _ => EmptyString;
     format_fixed_R := fun _ _ => EmptyString;
     title := fun s => s |}.

Definition test_env : Env := env_with_lines None.

(** An image of one colour. *)
Definition uniform_image (h w : nat) (p : pixel) : image :=
  {| shape0 := h; shape1 := w; at_ := fun _ _ => p |}.

Definition mid_gray : pixel := (128, 128, 128)%Z.

(** A detection with the given label and box. *)
Definition detection_of (label : string) (box : Z * Z * Z * Z) : DetectionResult :=
  {| class_id := 0; class_name := label; det_confidence := 0.85;
     bbox := box; center := (0, 0)%Z |}.


(* ================================================================== *)
(** * 18. Quantities the statements speak of *)
(* ================================================================== *)

(** The height-to-width ratio of a region. *)
Definition aspect_ratio_of (im : image) : Q :=
  (inject_Z (Z.of_nat (shape0 im)) / inject_Z (Z.of_nat (shape1 im)))%Q.

(** The invariant of the data model on a finding still held as a
    dictionary. *)
Definition finding_ok (v : violation) : bool :=
  str_in (v_severity v) [SEVERITY_CRITICAL; SEVERITY_MODERATE; SEVERITY_MINOR]
  && (Qle_bool 0 (v_confidence v) && Qle_bool (v_confidence v) 1).

(** A finding of the given type and severity is among [vs]. *)
Definition reports (vs : list violation) (ty sev : string) : Prop :=
  exists v, In v vs /\ v_type v = ty /\ v_severity v = sev.

(** No finding of the given type is among [vs]. *)
Definition silent_on (vs : list violation) (ty : string) : Prop :=
  forall v, In v vs -> v_type v <> ty.

(** A 10 by 10 region, gray but for one blue-range pixel (in HSV) in the
    first column of its last row. *)
Definition low_sign_image : image :=
  {| shape0 := 10; shape1 := 10;
     at_ := fun y x =>
              if ((y =? 9) && (x =? 0))%nat then (110, 200, 200)%Z else (0, 0, 128)%Z |}.

(** A 10 by 10 region, blue-range (in HSV) but for a white-range first
    row. *)
Definition signed_image : image :=
  {| shape0 := 10; shape1 := 10;
     at_ := fun y x => if (y =? 0)%nat then (0, 0, 255)%Z else (110, 200, 200)%Z |}.

(** A 10 by 10 region, blue-range (in HSV) throughout. *)
Definition blue_image : image := uniform_image 10 10 (110, 200, 200)%Z.




(** A string between double quotes. *)
Definition quoted (s : string) : string := (dquote ++ s ++ dquote)%string.



(** A remote model that always answers [text], with a JSON parser that
    knows the one document [doc] and its value [obj]. *)
Definition canned_remote (text doc : string) (obj : pyobj) : Remote :=
  {| json_loads := fun s => if String.eqb s doc then Some obj else None;
     imencode_jpg := fun _ => Ok (true, "jpeg"%string);
     b64encode := fun s => s;
     messages_create := fun _ _ => Ok text;
     get_prompt_for_object := fun _ => "prompt"%string;
     SYSTEM_PROMPT := "system"%string |}.




(** The line of the analyzer's own test,
    [cv2.line(test_image, (100, 400), (500, 100), ...)]: rise 300 over
    run 400, about 36.9 degrees. *)
Definition test_line : segment := (100, 400, 500, 100)%Z.


(** Rise 80 over run 1000, about 4.57 degrees. *)
Definition shallow_line : segment := (0, 100, 1000, 20)%Z.

Definition black : pixel := (0, 0, 0)%Z.

(** [sub] does not occur in [s] at any offset below [n]. *)
Fixpoint no_occurrence_before (sub s : string) (n : nat) {struct n} : bool :=
  match n with
  | O => true
  | S n' =>
      negb (prefix sub s)
      && match s with
         | EmptyString => true
         | String _ s' => no_occurrence_before sub s' n'
         end
  end.


(** A response with its payload between [```json] fences, the payload
    and its value. *)
Definition empty_report_text : string :=
  ("{" ++ quoted "violations" ++ ": []}")%string.

Definition empty_report : pyobj := PyDict [("violations"%string, PyList [])].




(** A response with prose between fences and a JSON object after
    them. *)
Definition prose_fenced_response : string :=
  ("```" ++ "not json" ++ "```" ++ " " ++ empty_report_text)%string.

From Stdlib Require Import Permutation.

(* ================================================================== *)
(** * 19. Further sample inputs *)
(* ================================================================== *)

(** A 480 by 640 frame whose pixel at row [y], column [x] is
    [(y, x, 0)]. *)
Definition coordinate_image : image :=
  {| shape0 := 480; shape1 := 640;
     at_ := fun y x => (Z.of_nat y, Z.of_nat x, 0%Z) |}.

(** A box is inside an array of [rows] by [cols] elements. *)
Definition box_inside (box : Z * Z * Z * Z) (rows cols : nat) : Prop :=
  let '(x, y, w, h) := box in
  (0 <= x /\ 0 <= y /\ 0 <= w /\ 0 <= h
   /\ x + w <= Z.of_nat cols /\ y + h <= Z.of_nat rows)%Z.



(** A segment given from its other end, and a segment mirrored top to
    bottom. *)
Definition reverse_segment (l : segment) : segment :=
  let '(x1, y1, x2, y2) := l in (x2, y2, x1, y1).

Definition mirror_segment (l : segment) : segment :=
  let '(x1, y1, x2, y2) := l in (x1, y2, x2, y1).

(** A horizontal or vertical segment. *)
Definition axis_aligned (l : segment) : Prop :=
  let '(x1, y1, x2, y2) := l in x1 = x2 \/ y1 = y2.

(** [isinstance(o, dict)]. *)
Definition is_dict (o : pyobj) : bool :=
  match o with
  | PyDict _ => true
  | _ => false
  end.

(** The text sent with the image: the system prompt, an empty line, the
    prompt of the object. *)
Definition request_text (Rm : Remote) (label : string) : string :=
  (SYSTEM_PROMPT Rm
   ++ String (ascii_of_nat 10)
        (String (ascii_of_nat 10) (get_prompt_for_object Rm label)))%string.

(** A remote model that cannot be reached. *)
Definition offline_remote : Remote :=
  {| json_loads := fun _ => None;
     imencode_jpg := fun _ => Ok (true, "jpeg"%string);
     b64encode := fun s => s;
     messages_create := fun _ _ => Raise "APIConnectionError"%string;
     get_prompt_for_object := fun _ => "prompt"%string;
     SYSTEM_PROMPT := "system"%string |}.

(* ================================================================== *)
(** * 20. The object detector ([ada_compliance_system/object_detector.py]) *)
(* ================================================================== *)

Module ObjectDetector.
Section WithEnv.
Variable E : Env.
Local Open Scope string_scope.

(** [config.YOLO_CONFIDENCE_THRESHOLD] and [config.RELEVANT_CLASSES]. *)
Definition confidence_threshold : Q := 0.5.

Definition RELEVANT_CLASSES : list (Z * string) :=
  [(0, "person"); (2, "car"); (7, "truck"); (13, "stop_sign");
   (14, "parking_meter"); (56, "chair"); (57, "couch"); (58, "potted_plant");
   (60, "dining_table"); (61, "toilet"); (62, "tv"); (64, "mouse");
   (73, "book")]%Z.

(** The class guessed from the bounding box: id, name, confidence. *)
Definition classify (height width : nat) (box : Z * Z * Z * Z) : Z * string * Q :=
  let '(x, y, w, h) := box in
  let aspect_ratio := if (0 <? h)%Z then (inject_Z w / inject_Z h)%Q else 0%Q in
  if Qltb 0.3 aspect_ratio && Qltb aspect_ratio 0.7
     && Qltb (inject_Z (Z.of_nat height) * 0.3) (inject_Z y) then
    (0%Z, "door", 0.75)
  else if Qltb 1.5 aspect_ratio
          && Qltb (inject_Z (Z.of_nat width) * 0.2) (inject_Z w) then
    (2%Z, "car", 0.65)
  else if Qltb (inject_Z w) (inject_Z (Z.of_nat width) * 0.3)
          && Qltb (inject_Z h) (inject_Z (Z.of_nat height) * 0.3) then
    (14%Z, "sign", 0.60)
  else
    (99%Z, "object", 0.50).

(** One turn of the loop over the contours: [None] stands for
    [continue] and for a detection below the threshold. *)
Definition detect_contour (height width : nat) (c : contour) : option DetectionResult :=
  let '(x, y, w, h) := boundingRect E c in
  let area := (w * h)%Z in
  if (area <? 1000)%Z
     || Qltb (inject_Z (Z.of_nat width * Z.of_nat height) * 0.5) (inject_Z area)
  then None
  else
    let '(cid, cname, confidence) := classify height width (x, y, w, h) in
    if Qle_bool confidence_threshold confidence then
      Some {| class_id := cid;
              class_name := cname;
              det_confidence := confidence;
              bbox := (x, y, w, h);
              center := (x + w / 2, y + h / 2)%Z |}
    else None.

Fixpoint detect_loop (height width : nat) (contours : list contour)
    (detections : list DetectionResult) : list DetectionResult :=
  match contours with
  | [] => detections
  | c :: rest =>
      detect_loop height width rest
        (append_if detections (detect_contour height width c))
  end.

Definition _mock_detect (im : image) : exc (list DetectionResult) :=
  let height := shape0 im in
  let width := shape1 im in
  let detections : list DetectionResult := [] in
  gray_im <- cvtColor_BGR2GRAY E im ;;
  edges <- Canny E gray_im 50 150 ;;
  contours <- findContours E edges ;;
  Ok (detect_loop height width contours detections).

(** [detection.class_id in config.RELEVANT_CLASSES]. *)
Definition is_relevant (d : DetectionResult) : bool :=
  existsb (fun entry => (fst entry =? class_id d)%Z) RELEVANT_CLASSES.

Fixpoint filter_relevant_objects (detections : list DetectionResult)
    : list DetectionResult :=
  match detections with
  | [] => []
  | detection :: rest =>
      if is_relevant detection then detection :: filter_relevant_objects rest
      else filter_relevant_objects rest
  end.

End WithEnv.
End ObjectDetector.

(** A bounding box whose area is at least 1000 and at most half of the
    image. *)
Definition box_size_ok (height width : nat) (box : Z * Z * Z * Z) : bool :=
  let '(_, _, w, h) := box in
  ((1000 <=? w * h) && (2 * (w * h) <=? Z.of_nat width * Z.of_nat height))%Z.

(** An OpenCV that finds the given contours, each a list of one point
    [(w, h)] standing for a box of that size at (40, 200). *)
Definition env_with_contours (contours : list contour) : Env :=
  {| cvtColor_BGR2GRAY := fun im => Ok (channel0 im);
     cvtColor_BGR2HSV := fun im => Ok im;
     cvtColor_BGR2LAB := fun im => Ok im;
     Canny := fun g _ _ => Ok g;
     HoughLinesP := fun _ _ _ _ => Ok None;
     findContours := fun _ => Ok contours;
     contourArea := fun _ => 0%Q;
     boundingRect := fun c =>
       match c with
       | (w, h) :: _ => (40, 200, w, h)%Z
       | [] => (0, 0, 0, 0)%Z
       end;
     np_std := fun _ => 0%Q;
     format_fixed := fun _ _ => EmptyString;
     format_percent := fun _ _ => EmptyString;
     format_fixed_R := fun _ _ => EmptyString;
     title := fun s => s |}.

(** Two contours, the first with a door-sized box, the second too small
    to count, and the detection the mock detector makes of the first. *)
Definition sample_contours : list contour := [[(50, 100)%Z]; [(10, 10)%Z]].

Definition sample_door_detection : DetectionResult :=
  {| class_id := 0; class_name := "door"; det_confidence := 0.75;
     bbox := (40, 200, 50, 100)%Z; center := (65, 250)%Z |}.

(* ================================================================== *)
(** * 21. The code table ([ada_code_references.py]) *)
(* ================================================================== *)

Module AdaCodeReferences.
Local Open Scope string_scope.

(** [ADA_CODES]: code to a dictionary of texts, in the order of the
    source. *)
Definition ADA_CODES : list (string * list (string * string)) :=
  [("404.2.3",
     [("title", "Clear Width");
      ("requirement", "Door openings shall provide a clear width of 32 inches (815 mm) minimum");
      ("measurement", "32 inches minimum");
      ("section", "404.2.3 - Doors, Doorways, and Gates");
      ("source", "2010 ADA Standards Section 404.2.3");
      ("url", "https://www.ada.gov/law-and-regs/design-standards/2010-stds/#section-404")]);
   ("404.2.5",
     [("title", "Thresholds");
      ("requirement", "Thresholds, if provided at doorways, shall be 1/2 inch (13 mm) high maximum");
      ("measurement", "0.5 inches maximum");
      ("section", "404.2.5 - Doors, Doorways, and Gates");
      ("source", "2010 ADA Standards Section 404.2.5");
      ("url", "https://www.ada.gov/law-and-regs/design-standards/2010-stds/#section-404")]);
   ("404.2.7",
     [("title", "Door Hardware");
      ("requirement", "Handles, pulls, latches, locks, and other operable parts shall be operable with one hand and shall not require tight grasping, pinching, or twisting of the wrist");
      ("measurement", "Operable with closed fist");
      ("section", "404.2.7 - Doors, Doorways, and Gates");
      ("source", "2010 ADA Standards Section 404.2.7");
      ("url", "https://www.ada.gov/law-and-regs/design-standards/2010-stds/#section-404")]);
   ("502.2",
     [("title", "Vehicle Spaces");
      ("requirement", "Car parking spaces shall be 96 inches (2440 mm) wide minimum");
      ("measurement", "96 inches (8 feet) minimum width");
      ("section", "502.2 - Parking Spaces");
      ("source", "2010 ADA Standards Section 502.2");
      ("url", "https://www.ada.gov/law-and-regs/design-standards/2010-stds/#section-502")]);
   ("502.3",
     [("title", "Access Aisle");
      ("requirement", "Access aisles serving parking spaces shall be 60 inches (1525 mm) wide minimum");
      ("measurement", "60 inches (5 feet) minimum width");
      ("section", "502.3 - Parking Spaces");
      ("source", "2010 ADA Standards Section 502.3");
      ("url", "https://www.ada.gov/law-and-regs/design-standards/2010-stds/#section-502")]);
   ("502.4",
     [("title", "Floor and Ground Surfaces");
      ("requirement", "Parking spaces and access aisles shall comply with Section 302 (stable, firm, and slip resistant)");
      ("measurement", "Level surface, max slope 1:48");
      ("section", "502.4 - Parking Spaces");
      ("source", "2010 ADA Standards Section 502.4");
      ("url", "https://www.ada.gov/law-and-regs/design-standards/2010-stds/#section-502")]);
   ("502.6",
     [("title", "Identification (Signage)");
      ("requirement", "Parking space identification signs shall include the International Symbol of Accessibility and shall be 60 inches (1525 mm) minimum above the finish floor or ground surface");
      ("measurement", "Sign at 60 inches minimum height");
      ("section", "502.6 - Parking Spaces");
      ("source", "2010 ADA Standards Section 502.6");
      ("url", "https://www.ada.gov/law-and-regs/design-standards/2010-stds/#section-502")]);
   ("403.5.1",
     [("title", "Clear Width");
      ("requirement", "The clear width of walking surfaces shall be 36 inches (915 mm) minimum");
      ("measurement", "36 inches minimum continuous width");
      ("section", "403.5.1 - Walking Surfaces");
      ("source", "2010 ADA Standards Section 403.5.1");
      ("url", "https://www.ada.gov/law-and-regs/design-standards/2010-stds/#section-403")]);
   ("307",
     [("title", "Protruding Objects");
      ("requirement", "Objects with leading edges more than 27 inches and not more than 80 inches above the floor shall protrude 4 inches maximum into the circulation path");
      ("measurement", "4 inches maximum protrusion");
      ("section", "307 - Protruding Objects");
      ("source", "2010 ADA Standards Section 307");
      ("url", "https://www.ada.gov/law-and-regs/design-standards/2010-stds/#section-307")]);
   ("302",
     [("title", "Floor or Ground Surfaces");
      ("requirement", "Floor and ground surfaces shall be stable, firm, and slip resistant");
      ("measurement", "Stable, firm, slip-resistant");
      ("section", "302 - Floor or Ground Surfaces");
      ("source", "2010 ADA Standards Section 302");
      ("url", "https://www.ada.gov/law-and-regs/design-standards/2010-stds/#section-302")]);
   ("303",
     [("title", "Changes in Level");
      ("requirement", "Changes in level up to 1/4 inch may be vertical. Changes between 1/4 inch and 1/2 inch shall be beveled");
      ("measurement", "0.25 inch max vertical, 0.5 inch max with bevel");
      ("section", "303 - Changes in Level");
      ("source", "2010 ADA Standards Section 303");
      ("url", "https://www.ada.gov/law-and-regs/design-standards/2010-stds/#section-303")]);
   ("405.2",
     [("title", "Slope");
      ("requirement", "Ramp runs shall have a running slope not steeper than 1:12");
      ("measurement", "1:12 ratio maximum (8.33%)");
      ("section", "405.2 - Ramps");
      ("source", "2010 ADA Standards Section 405.2");
      ("url", "https://www.ada.gov/law-and-regs/design-standards/2010-stds/#section-405")]);
   ("405.5",
     [("title", "Clear Width");
      ("requirement", "The clear width of a ramp run shall be 36 inches (915 mm) minimum");
      ("measurement", "36 inches minimum");
      ("section", "405.5 - Ramps");
      ("source", "2010 ADA Standards Section 405.5");
      ("url", "https://www.ada.gov/law-and-regs/design-standards/2010-stds/#section-405")]);
   ("405.7",
     [("title", "Landings");
      ("requirement", "Ramps shall have landings at the top and bottom of each ramp run. Landings shall be 60 inches minimum in length");
      ("measurement", "60 inches minimum landing length");
      ("section", "405.7 - Ramps");
      ("source", "2010 ADA Standards Section 405.7");
      ("url", "https://www.ada.gov/law-and-regs/design-standards/2010-stds/#section-405")]);
   ("405.8",
     [("title", "Handrails");
      ("requirement", "Ramp runs with a rise greater than 6 inches shall have handrails complying with Section 505");
      ("measurement", "Required if rise > 6 inches");
      ("section", "405.8 - Ramps");
      ("source", "2010 ADA Standards Section 405.8");
      ("url", "https://www.ada.gov/law-and-regs/design-standards/2010-stds/#section-405")]);
   ("405.9",
     [("title", "Edge Protection");
      ("requirement", "Edge protection shall be provided on each side of ramp runs and at each side of ramp landings");
      ("measurement", "Curb or barrier required");
      ("section", "405.9 - Ramps");
      ("source", "2010 ADA Standards Section 405.9");
      ("url", "https://www.ada.gov/law-and-regs/design-standards/2010-stds/#section-405")]);
   ("703.2",
     [("title", "Raised Characters");
      ("requirement", "Raised characters shall be 5/8 inch (16 mm) minimum in height and 2 inches (51 mm) maximum in height");
      ("measurement", "0.625 - 2 inches height");
      ("section", "703.2 - Signs");
      ("source", "2010 ADA Standards Section 703.2");
      ("url", "https://www.ada.gov/law-and-regs/design-standards/2010-stds/#section-703")]);
   ("703.4",
     [("title", "Installation Height");
      ("requirement", "Signs shall be located 48 inches minimum above the finish floor measured to the baseline of the lowest character");
      ("measurement", "48-60 inches above floor");
      ("section", "703.4 - Signs");
      ("source", "2010 ADA Standards Section 703.4");
      ("url", "https://www.ada.gov/law-and-regs/design-standards/2010-stds/#section-703")]);
   ("703.5",
     [("title", "Visual Characters");
      ("requirement", "Characters and their background shall have a non-glare finish and contrast with light characters on dark background or vice versa");
      ("measurement", "High contrast required");
      ("section", "703.5 - Signs");
      ("source", "2010 ADA Standards Section 703.5");
      ("url", "https://www.ada.gov/law-and-regs/design-standards/2010-stds/#section-703")])].

(** [ADA_CODES.get(code)]. *)
Definition get_ada_code (code : string) : option (list (string * string)) :=
  dict_lookup ADA_CODES code.

(** [list(ADA_CODES.keys())]. *)
Definition get_all_codes : list string := map fst ADA_CODES.

End AdaCodeReferences.

(** The code each kind of finding of the rule-based analyzers cites. *)
Definition finding_codes : list (string * string) :=
  [("Door Width", "404.2.3"); ("Door Threshold", "404.2.5");
   ("Door Hardware", "404.2.7"); ("Parking Signage", "502.6");
   ("Wheelchair Symbol", "502.6"); ("Sign Height", "502.6");
   ("Pathway Obstruction", "403.5.1"); ("Ramp Slope", "405.2");
   ("Ramp Handrails", "405.8"); ("Sign Contrast", "703.5");
   ("Tactile Features", "703.2")]%string.

Definition cites_its_code (v : violation) : Prop :=
  In (v_type v, v_ada_code v) finding_codes.
(* ================================================================== *)
(** * 18. Basic facts *)
(* ================================================================== *)

Lemma Qltb_lt (a b : Q) : Qltb a b = true <-> (a < b)%Q.
Proof.
  unfold Qltb. rewrite negb_true_iff.
  split; intro H.
  - apply Qnot_le_lt. intro Hle. apply Qle_bool_iff in Hle. congruence.
  - destruct (Qle_bool b a) eqn:Hb; [|reflexivity].
    apply Qle_bool_iff in Hb. exfalso. apply (Qlt_not_le _ _ H Hb).
Qed.

Lemma Qltb_ge (a b : Q) : Qltb a b = false <-> (b <= a)%Q.
Proof.
  unfold Qltb. rewrite negb_false_iff. apply Qle_bool_iff.
Qed.

Lemma Qle_bool_false (a b : Q) : Qle_bool a b = false <-> (b < a)%Q.
Proof.
  split; intro H.
  - apply Qnot_le_lt. intro Hle. apply Qle_bool_iff in Hle. congruence.
  - destruct (Qle_bool a b) eqn:Hb; [|reflexivity].
    apply Qle_bool_iff in Hb. exfalso. apply (Qlt_not_le _ _ H Hb).
Qed.

Lemma image_size_zero (im : image) :
  image_size im = 0%nat <-> shape0 im = 0%nat \/ shape1 im = 0%nat.
Proof. unfold image_size. nia. Qed.

Lemma in_append_if {A : Type} (l : list A) (o : option A) (x : A) :
  In x (append_if l o) <-> In x l \/ o = Some x.
Proof.
  destruct o as [v|]; simpl.
  - rewrite in_app_iff. simpl. intuition congruence.
  - intuition congruence.
Qed.

(* ================================================================== *)
(** * 19. Empty regions *)
(* ================================================================== *)

(** C2.  For each of the five category analyzers, a region of zero width
    or zero height yields the empty list of findings, and the analyzer
    returns rather than raises, whatever OpenCV would do on such a
    region. *)
Theorem C2_empty_region_yields_no_violation :
  forall (E : Env) (im : image) (detection : DetectionResult),
    shape0 im = 0%nat \/ shape1 im = 0%nat ->
    DoorAnalyzer.analyze E im detection = Ok []
    /\ ParkingAnalyzer.analyze E im detection = Ok []
    /\ PathwayAnalyzer.analyze E im detection = []
    /\ RampAnalyzer.analyze E im detection = Ok []
    /\ SignageAnalyzer.analyze E im detection = Ok [].
Proof.
  intros E im detection Hempty.
  apply image_size_zero in Hempty.
  unfold DoorAnalyzer.analyze, ParkingAnalyzer.analyze, PathwayAnalyzer.analyze,
    RampAnalyzer.analyze, SignageAnalyzer.analyze.
  rewrite Hempty. simpl. repeat split; reflexivity.
Qed.

(** A region of height 0 and width 640, under an OpenCV that raises on
    every call. *)
Lemma C2_empty_region_witness :
  let im := uniform_image 0 640 mid_gray in
  let d := detection_of "door" (0, 0, 640, 0)%Z in
  DoorAnalyzer.analyze failing_env im d = Ok []
  /\ ParkingAnalyzer.analyze failing_env im d = Ok []
  /\ PathwayAnalyzer.analyze failing_env im d = []
  /\ RampAnalyzer.analyze failing_env im d = Ok []
  /\ SignageAnalyzer.analyze failing_env im d = Ok [].
Proof.
  intros im d.
  apply (C2_empty_region_yields_no_violation failing_env im d).
  left. reflexivity.
Defined.

(** Case analysis on the calls sequenced in a hypothesis. *)
Ltac exc_cases H :=
  repeat match type of H with
         | context [exc_bind ?c _] =>
             let r := fresh "r" in
             let Hr := fresh "Hr" in
             destruct c as [r|r] eqn:Hr; simpl exc_bind in H; try discriminate H
         end.

(* ================================================================== *)
(** * 20. Door analyzer *)
(* ================================================================== *)

Section DoorFacts.
Variable E : Env.
Local Open Scope string_scope.


Lemma door_threshold_finding (im : image) (h w : nat) (v : violation) :
  DoorAnalyzer._check_threshold E im h w = Ok (Some v) ->
  v_type v = "Door Threshold" /\ v_severity v = "Moderate" /\ finding_ok v = true.
Proof.
  unfold DoorAnalyzer._check_threshold. intro H. exc_cases H.
  match type of H with
  | context [Qltb 0.3 ?d] => destruct (Qltb 0.3 d) eqn:Hd; [|discriminate H];
                              set (density := d) in *
  end.
  apply Qltb_lt in Hd.
  inversion H; subst; clear H. repeat split.
  unfold finding_ok. simpl.
  apply andb_true_intro; split; apply Qle_bool_iff.
  - apply Q.min_glb; lra.
  - apply Qle_trans with (y := 0.75%Q); [apply Q.le_min_r | lra].
Qed.

Lemma door_hardware_finding (im : image) (h w : nat) (v : violation) :
  DoorAnalyzer._check_hardware E im h w = Ok (Some v) ->
  v_type v = "Door Hardware" /\ v_severity v = "Minor" /\ finding_ok v = true.
Proof.
  unfold DoorAnalyzer._check_hardware. intro H. exc_cases H.
  match type of H with
  | context [if ?b then _ else _] => destruct b; [|discriminate H]
  end.
  inversion H; subst; clear H. repeat split; reflexivity.
Qed.

(** What [analyze] returns on a non-empty region, when it returns. *)
Lemma door_analyze_inv (im : image) (d : DetectionResult) (vs : list violation) :
  image_size im <> 0%nat ->
  DoorAnalyzer.analyze E im d = Ok vs ->
  exists t hw,
    DoorAnalyzer._check_threshold E im (shape0 im) (shape1 im) = Ok t
    /\ DoorAnalyzer._check_hardware E im (shape0 im) (shape1 im) = Ok hw
    /\ vs = append_if
              (append_if
                 (append_if [] (DoorAnalyzer._check_width E im (shape0 im) (shape1 im)))
                 t) hw.
Proof.
  intros Hne H. unfold DoorAnalyzer.analyze in H.
  apply Nat.eqb_neq in Hne. rewrite Hne in H.
  exc_cases H. inversion H; subst. eauto.
Qed.

End DoorFacts.

(** C6.  On a non-empty region, the width check of the door analyzer
    gives a Critical "Door Width" finding when the height-to-width ratio
    exceeds 3.0, and none when the ratio is at most 2.5; the list
    [analyze] returns contains, respectively lacks, such a finding. *)
Theorem C6_door_width_by_aspect_ratio :
  forall (E : Env) (im : image) (detection : DetectionResult),
    (0 < shape0 im)%nat -> (0 < shape1 im)%nat ->
    ((3 < aspect_ratio_of im)%Q ->
       reports (append_if [] (DoorAnalyzer._check_width E im (shape0 im) (shape1 im)))
               "Door Width" "Critical"
       /\ forall vs, DoorAnalyzer.analyze E im detection = Ok vs ->
                     reports vs "Door Width" "Critical")
    /\ ((aspect_ratio_of im <= 2.5)%Q ->
          DoorAnalyzer._check_width E im (shape0 im) (shape1 im) = None
          /\ forall vs, DoorAnalyzer.analyze E im detection = Ok vs ->
                        silent_on vs "Door Width").
Proof.
  intros E im detection Hh Hw.
  assert (Hne : image_size im <> 0%nat) by (unfold image_size; nia).
  assert (Hwb : (0 <? shape1 im)%nat = true) by (apply Nat.ltb_lt; exact Hw).
  split; intro Hr.
  - assert (Hcw : exists v,
               DoorAnalyzer._check_width E im (shape0 im) (shape1 im) = Some v
               /\ v_type v = "Door Width"%string /\ v_severity v = "Critical"%string).
    { unfold DoorAnalyzer._check_width. rewrite Hwb.
      fold (aspect_ratio_of im).
      assert (Hb : Qltb DoorAnalyzer.very_narrow_ratio (aspect_ratio_of im) = true).
      { apply Qltb_lt. unfold DoorAnalyzer.very_narrow_ratio. lra. }
      rewrite Hb. eexists. repeat split. }
    destruct Hcw as [v [Hv [Hty Hsev]]].
    split.
    + exists v. rewrite Hv. simpl. auto.
    + intros vs Hvs.
      destruct (door_analyze_inv E im detection Hne Hvs) as [t [hw [_ [_ ->]]]].
      exists v. rewrite Hv. repeat split; try assumption.
      apply in_append_if. left. apply in_append_if. left. simpl. auto.
  - assert (Hcw : DoorAnalyzer._check_width E im (shape0 im) (shape1 im) = None).
    { unfold DoorAnalyzer._check_width. rewrite Hwb.
      fold (aspect_ratio_of im).
      assert (Hb1 : Qltb DoorAnalyzer.very_narrow_ratio (aspect_ratio_of im) = false).
      { apply Qltb_ge. unfold DoorAnalyzer.very_narrow_ratio. lra. }
      assert (Hb2 : Qltb DoorAnalyzer.narrow_door_ratio (aspect_ratio_of im) = false).
      { apply Qltb_ge. unfold DoorAnalyzer.narrow_door_ratio. lra. }
      rewrite Hb1, Hb2. reflexivity. }
    split; [exact Hcw|].
    intros vs Hvs v Hin.
    destruct (door_analyze_inv E im detection Hne Hvs) as [t [hw [Ht [Hhw ->]]]].
    rewrite Hcw in Hin. simpl in Hin.
    apply in_append_if in Hin. destruct Hin as [Hin | Hin].
    + apply in_append_if in Hin. destruct Hin as [[] | Hin].
      subst t. apply door_threshold_finding in Ht. destruct Ht as [-> _]. discriminate.
    + subst hw. apply door_hardware_finding in Hhw. destruct Hhw as [-> _]. discriminate.
Qed.

(** The analyzer's own test region, 800 by 250 (ratio 3.2), and a 500 by
    250 region (ratio 2.0). *)
Lemma C6_door_width_witness :
  (reports (append_if [] (DoorAnalyzer._check_width test_env
                            (uniform_image 800 250 mid_gray) 800 250))
           "Door Width" "Critical"
   /\ forall vs,
        DoorAnalyzer.analyze test_env (uniform_image 800 250 mid_gray)
          (detection_of "door" (0, 0, 250, 800)%Z) = Ok vs ->
        reports vs "Door Width" "Critical")
  /\ (DoorAnalyzer._check_width test_env (uniform_image 500 250 mid_gray) 500 250 = None
      /\ forall vs,
           DoorAnalyzer.analyze test_env (uniform_image 500 250 mid_gray)
             (detection_of "door" (0, 0, 250, 500)%Z) = Ok vs ->
           silent_on vs "Door Width").
Proof.
  split.
  - apply (C6_door_width_by_aspect_ratio test_env (uniform_image 800 250 mid_gray)
             (detection_of "door" (0, 0, 250, 800)%Z)); simpl; try lia.
    reflexivity.
  - apply (C6_door_width_by_aspect_ratio test_env (uniform_image 500 250 mid_gray)
             (detection_of "door" (0, 0, 250, 500)%Z)); simpl; try lia.
    unfold aspect_ratio_of, Qle; simpl. lia.
Defined.

(* ================================================================== *)
(** * 21. Parking analyzer *)
(* ================================================================== *)

Section ParkingFacts.
Variable E : Env.
Local Open Scope string_scope.

Lemma parking_signage_finding (im : image) (h w : nat) (v : violation) :
  ParkingAnalyzer._check_signage E im h w = Ok (Some v) ->
  (v_type v = "Parking Signage" \/ v_type v = "Wheelchair Symbol")
  /\ v_severity v = "Critical" /\ finding_ok v = true.
Proof.
  unfold ParkingAnalyzer._check_signage. intro H. exc_cases H.
  destruct (negb _) in H.
  - inversion H; subst; clear H. repeat split; auto.
  - destruct (_ && _) in H; [|discriminate H].
    inversion H; subst; clear H. repeat split; auto.
Qed.

Lemma parking_position_finding (im : image) (h w : nat) (v : violation) :
  ParkingAnalyzer._check_sign_position E im h w = Ok (Some v) ->
  v_type v = "Sign Height" /\ v_severity v = "Moderate" /\ finding_ok v = true.
Proof.
  unfold ParkingAnalyzer._check_sign_position. intro H. exc_cases H.
  destruct (0 <? _)%nat in H; [|discriminate H].
  destruct (Qltb _ _) in H; [|discriminate H].
  inversion H; subst; clear H. repeat split; auto.
Qed.

Lemma parking_analyze_inv (im : image) (d : DetectionResult) (vs : list violation) :
  image_size im <> 0%nat ->
  ParkingAnalyzer.analyze E im d = Ok vs ->
  exists s p,
    ParkingAnalyzer._check_signage E im (shape0 im) (shape1 im) = Ok s
    /\ ParkingAnalyzer._check_sign_position E im (shape0 im) (shape1 im) = Ok p
    /\ vs = append_if (append_if [] s) p.
Proof.
  intros Hne H. unfold ParkingAnalyzer.analyze in H.
  apply Nat.eqb_neq in Hne. rewrite Hne in H.
  exc_cases H. inversion H; subst. eauto.
Qed.

(** Below the blue threshold the signage check reports missing
    signage. *)
Lemma parking_signage_low_blue (im hsv : image) (h w : nat) :
  cvtColor_BGR2HSV E im = Ok hsv ->
  (ParkingAnalyzer.blue_percentage_of hsv < 0.05)%Q ->
  exists v, ParkingAnalyzer._check_signage E im h w = Ok (Some v)
            /\ v_type v = "Parking Signage" /\ v_severity v = "Critical".
Proof.
  intros Hhsv Hb. unfold ParkingAnalyzer._check_signage.
  rewrite Hhsv. simpl exc_bind.
  apply Qle_bool_false in Hb. unfold ParkingAnalyzer.min_blue_percentage.
  rewrite Hb. simpl negb. cbv iota. eexists. repeat split.
Qed.

End ParkingFacts.

(** The row indices [np.where] lists are as many as the positive
    elements [np.sum] counts. *)
Lemma np_where_rows_length (m : gray) :
  List.length (np_where_rows m) = np_sum_positive m.
Proof.
  unfold np_where_rows, np_sum_positive, elems, count_positive.
  induction (seq 0 (shape0 m)) as [|y ys IH]; simpl.
  - reflexivity.
  - rewrite length_app, repeat_length, filter_app, length_app, IH.
    reflexivity.
Qed.

(** C7.  On a non-empty region whose HSV conversion is [hsv], the
    signage check of the parking analyzer gives a Critical "Parking
    Signage" finding exactly when the blue fraction is below 5% (so in
    particular when no pixel is blue); a Critical "Wheelchair Symbol"
    finding when the blue fraction is at least 5% and the white fraction
    below 2%; and no finding when both fractions reach their
    thresholds. *)
Theorem C7_parking_signage_by_colour :
  forall (E : Env) (im hsv : image),
    image_size im <> 0%nat ->
    cvtColor_BGR2HSV E im = Ok hsv ->
    let check := ParkingAnalyzer._check_signage E im (shape0 im) (shape1 im) in
    let blue := ParkingAnalyzer.blue_percentage_of hsv in
    let white := ParkingAnalyzer.white_percentage_of hsv in
    ((exists v, check = Ok (Some v)
                /\ v_type v = "Parking Signage"%string
                /\ v_severity v = "Critical"%string)
     <-> (blue < 0.05)%Q)
    /\ (np_sum_positive
          (inRange hsv ParkingAnalyzer.blue_lower ParkingAnalyzer.blue_upper) = 0%nat ->
        exists v, check = Ok (Some v)
                  /\ v_type v = "Parking Signage"%string
                  /\ v_severity v = "Critical"%string)
    /\ ((0.05 <= blue)%Q -> (white < 0.02)%Q ->
        exists v, check = Ok (Some v)
                  /\ v_type v = "Wheelchair Symbol"%string
                  /\ v_severity v = "Critical"%string)
    /\ ((0.05 <= blue)%Q -> (0.02 <= white)%Q -> check = Ok None).
Proof.
  intros E im hsv _ Hhsv check blue white.
  assert (Hlow := parking_signage_low_blue E im (shape0 im) (shape1 im) Hhsv).
  fold blue check in Hlow.
  repeat split.
  - intros [v [Hv [Hty _]]].
    destruct (Qlt_le_dec blue 0.05) as [Hb | Hb]; [exact Hb|].
    exfalso. unfold check, ParkingAnalyzer._check_signage in Hv.
    rewrite Hhsv in Hv. simpl exc_bind in Hv. fold blue white in Hv.
    apply Qle_bool_iff in Hb. unfold ParkingAnalyzer.min_blue_percentage in Hv.
    rewrite Hb in Hv. simpl in Hv.
    destruct (negb _) in Hv; inversion Hv; subst; discriminate Hty.
  - exact Hlow.
  - intro Hzero. apply Hlow.
    unfold blue, ParkingAnalyzer.blue_percentage_of, ParkingAnalyzer.mask_fraction.
    rewrite Hzero. unfold Qdiv. rewrite Qmult_0_l. reflexivity.
  - intros Hb Hwh. unfold check, ParkingAnalyzer._check_signage.
    rewrite Hhsv. simpl exc_bind. fold blue white.
    apply Qle_bool_iff in Hb. apply Qle_bool_false in Hwh.
    unfold ParkingAnalyzer.min_blue_percentage, ParkingAnalyzer.min_white_percentage.
    rewrite Hb, Hwh. simpl. eexists. repeat split.
  - intros Hb Hwh. unfold check, ParkingAnalyzer._check_signage.
    rewrite Hhsv. simpl exc_bind. fold blue white.
    apply Qle_bool_iff in Hb. apply Qle_bool_iff in Hwh.
    unfold ParkingAnalyzer.min_blue_percentage, ParkingAnalyzer.min_white_percentage.
    rewrite Hb, Hwh. reflexivity.
Qed.

(** Three regions: gray with no blue pixel (the source's first test),
    blue throughout, and blue with a white first row. *)
Lemma C7_parking_signage_witness :
  (exists v, ParkingAnalyzer._check_signage test_env
               (uniform_image 10 10 (0, 0, 128)%Z) 10 10 = Ok (Some v)
             /\ v_type v = "Parking Signage"%string
             /\ v_severity v = "Critical"%string)
  /\ (exists v, ParkingAnalyzer._check_signage test_env blue_image 10 10 = Ok (Some v)
                /\ v_type v = "Wheelchair Symbol"%string
                /\ v_severity v = "Critical"%string)
  /\ ParkingAnalyzer._check_signage test_env signed_image 10 10 = Ok None.
Proof.
  split; [|split].
  - apply (C7_parking_signage_by_colour test_env
             (uniform_image 10 10 (0, 0, 128)%Z)
             (hsv := uniform_image 10 10 (0, 0, 128)%Z)).
    + discriminate.
    + reflexivity.
    + reflexivity.
  - apply (C7_parking_signage_by_colour test_env blue_image (hsv := blue_image)).
    + discriminate.
    + reflexivity.
    + vm_compute. discriminate.
    + vm_compute. reflexivity.
  - apply (C7_parking_signage_by_colour test_env signed_image (hsv := signed_image)).
    + discriminate.
    + reflexivity.
    + vm_compute. discriminate.
    + vm_compute. discriminate.
Defined.

(** C10.  The position check of the parking analyzer does not consult
    the 5% blue threshold: on a non-empty region with at least one blue
    pixel whose blue pixels lie, on average, more than 60% of the way
    down, [analyze] returns a Moderate "Sign Height" finding; when the
    blue fraction is also below 5% the same list holds a Critical
    "Parking Signage" finding as well, and nothing else. *)
Theorem C10_sign_height_independent_of_blue_threshold :
  forall (E : Env) (im hsv : image) (detection : DetectionResult),
    image_size im <> 0%nat ->
    cvtColor_BGR2HSV E im = Ok hsv ->
    (0 < np_sum_positive
           (inRange hsv ParkingAnalyzer.blue_lower ParkingAnalyzer.blue_upper))%nat ->
    (0.6 < ParkingAnalyzer.relative_position_of hsv (shape0 im))%Q ->
    exists vs,
      ParkingAnalyzer.analyze E im detection = Ok vs
      /\ reports vs "Sign Height" "Moderate"
      /\ ((ParkingAnalyzer.blue_percentage_of hsv < 0.05)%Q ->
          reports vs "Parking Signage" "Critical" /\ List.length vs = 2%nat).
Proof.
  intros E im hsv detection Hne Hhsv Hblue Hpos.
  assert (Hp : exists v,
             ParkingAnalyzer._check_sign_position E im (shape0 im) (shape1 im)
             = Ok (Some v)
             /\ v_type v = "Sign Height"%string /\ v_severity v = "Moderate"%string).
  { unfold ParkingAnalyzer._check_sign_position. rewrite Hhsv. simpl exc_bind.
    rewrite np_where_rows_length.
    apply Nat.ltb_lt in Hblue. rewrite Hblue.
    fold (ParkingAnalyzer.relative_position_of hsv (shape0 im)).
    apply Qltb_lt in Hpos. rewrite Hpos. eexists. repeat split. }
  destruct Hp as [p [Hp [Hpty Hpsev]]].
  destruct (ParkingAnalyzer._check_signage E im (shape0 im) (shape1 im))
    as [s|e] eqn:Hs.
  2:{ unfold ParkingAnalyzer._check_signage in Hs. rewrite Hhsv in Hs.
      simpl exc_bind in Hs.
      destruct (negb _) in Hs; [discriminate Hs|].
      destruct (_ && _) in Hs; discriminate Hs. }
  exists (append_if (append_if [] s) (Some p)).
  split; [|split].
  - unfold ParkingAnalyzer.analyze. apply Nat.eqb_neq in Hne. rewrite Hne.
    rewrite Hs. simpl exc_bind. rewrite Hp. reflexivity.
  - exists p. repeat split; try assumption.
    apply in_append_if. right. reflexivity.
  - intro Hlow.
    destruct (parking_signage_low_blue E im (shape0 im) (shape1 im) Hhsv Hlow)
      as [v [Hv [Hty Hsev]]].
    rewrite Hs in Hv. inversion Hv; subst s. split.
    + exists v. repeat split; try assumption.
      apply in_append_if. left. simpl. auto.
    + reflexivity.
Qed.

(** One blue pixel in the last row of a 10 by 10 region: 1% blue, at
    relative height 0.9. *)
Lemma C10_sign_height_witness :
  exists vs,
    ParkingAnalyzer.analyze test_env low_sign_image
      (detection_of "car" (0, 0, 10, 10)%Z) = Ok vs
    /\ reports vs "Sign Height" "Moderate"
    /\ reports vs "Parking Signage" "Critical"
    /\ List.length vs = 2%nat.
Proof.
  destruct (C10_sign_height_independent_of_blue_threshold test_env low_sign_image
              (hsv := low_sign_image) (detection_of "car" (0, 0, 10, 10)%Z))
    as [vs [Hvs [Hheight Hboth]]].
  - discriminate.
  - reflexivity.
  - vm_compute. lia.
  - vm_compute. reflexivity.
  - exists vs. split; [exact Hvs|]. split; [exact Hheight|].
    apply Hboth. vm_compute. reflexivity.
Defined.

(* ================================================================== *)
(** * 22. Pathway analyzer *)
(* ================================================================== *)

Section PathwayFacts.
Variable E : Env.
Local Open Scope string_scope.

(** The second branch of the size test is never taken: a size above 0.5
    is above 0.3 and is caught by the first. *)
Lemma size_assessment_moderate (relative_size : Q) :
  fst (PathwayAnalyzer.size_assessment relative_size) = "Moderate".
Proof.
  unfold PathwayAnalyzer.size_assessment.
  destruct (Qltb 0.3 relative_size) eqn:H3; [reflexivity|].
  destruct (Qltb 0.5 relative_size) eqn:H5; [|reflexivity].
  apply Qltb_ge in H3. apply Qltb_lt in H5. lra.
Qed.

Lemma size_assessment_cases (relative_size : Q) :
  PathwayAnalyzer.size_assessment relative_size = ("Moderate", 0.65%Q)
  \/ PathwayAnalyzer.size_assessment relative_size = ("Moderate", 0.60%Q).
Proof.
  unfold PathwayAnalyzer.size_assessment.
  destruct (Qltb 0.3 relative_size) eqn:H3; [left; reflexivity|].
  destruct (Qltb 0.5 relative_size) eqn:H5; [|right; reflexivity].
  apply Qltb_ge in H3. apply Qltb_lt in H5. lra.
Qed.

Lemma pathway_finding (im : image) (d : DetectionResult) :
  let v := PathwayAnalyzer._check_obstruction E im d in
  v_type v = "Pathway Obstruction" /\ v_severity v = "Moderate"
  /\ finding_ok v = true.
Proof.
  unfold PathwayAnalyzer._check_obstruction.
  destruct (size_assessment_cases (PathwayAnalyzer.relative_size_of im d)) as [-> | ->];
    destruct (str_in (lower (class_name d)) PathwayAnalyzer.high_risk_objects);
    repeat split; reflexivity.
Qed.

(** A high-risk label adds 0.05 to the confidence of the size test. *)
Lemma pathway_high_risk_nudge (im : image) (d : DetectionResult) :
  str_in (lower (class_name d)) PathwayAnalyzer.high_risk_objects = true ->
  (v_confidence (PathwayAnalyzer._check_obstruction E im d)
   == snd (PathwayAnalyzer.size_assessment (PathwayAnalyzer.relative_size_of im d))
      + 0.05)%Q.
Proof.
  intro Hrisk. unfold PathwayAnalyzer._check_obstruction. rewrite Hrisk.
  destruct (size_assessment_cases (PathwayAnalyzer.relative_size_of im d)) as [-> | ->];
    reflexivity.
Qed.

Lemma pathway_analyze_inv (im : image) (d : DetectionResult) (v : violation) :
  In v (PathwayAnalyzer.analyze E im d) ->
  v = PathwayAnalyzer._check_obstruction E im d.
Proof.
  unfold PathwayAnalyzer.analyze.
  destruct (image_size im =? 0)%nat; [intros []|].
  destruct (negb _); [intros []|].
  simpl. intros [H | []]. symmetry. exact H.
Qed.

End PathwayFacts.

(** C4.  The obstruction check of the pathway analyzer never raises the
    severity: whatever the label, the box and the region, and so also
    when the area fraction exceeds 0.5, the finding is "Moderate". *)
Theorem C4_pathway_severity_stays_moderate :
  forall (E : Env) (im : image) (detection : DetectionResult),
    v_severity (PathwayAnalyzer._check_obstruction E im detection) = "Moderate"%string
    /\ forall v, In v (PathwayAnalyzer.analyze E im detection) ->
                 v_severity v = "Moderate"%string.
Proof.
  intros E im detection. split.
  - apply (pathway_finding E im detection).
  - intros v Hin. apply pathway_analyze_inv in Hin. subst v.
    apply (pathway_finding E im detection).
Qed.

(** A chair whose box covers the whole 100 by 100 region: the area
    fraction is 1, above 0.5, and the finding is Moderate with
    confidence 0.70. *)
Example pathway_full_region_chair :
  let im := uniform_image 100 100 mid_gray in
  let d := detection_of "chair" (0, 0, 100, 100)%Z in
  (0.5 < PathwayAnalyzer.relative_size_of im d)%Q
  /\ exists v, PathwayAnalyzer.analyze test_env im d = [v]
               /\ v_severity v = "Moderate"%string
               /\ (v_confidence v == 0.70)%Q.
Proof.
  intros im d. split.
  - vm_compute. reflexivity.
  - eexists. split; [reflexivity|]. split; reflexivity.
Qed.

(* ================================================================== *)
(** * 23. Aggregator *)
(* ================================================================== *)



Section DictFacts.
Variable V : Type.
Implicit Types (d : list (string * V)) (k : string) (v : V).



End DictFacts.

Section AggregatorFacts.
Variable analyze_detection : image -> DetectionResult -> exc (list ViolationResult).
Variable name : string.
Variable im : image.




(** One analysis that raises aborts the whole run. *)
Lemma analyze_loop_aborts (ds : list DetectionResult) :
  forall (i : nat) (results : list (string * result_entry)) (count : nat),
    (exists d, In d ds /\ raises (analyze_detection im d) = true) ->
    raises (BaseAnalyzer.analyze_loop analyze_detection name im ds i results count) = true.
Proof.
  induction ds as [|d ds IH]; intros i results count [d' [Hin Hr]].
  - destruct Hin.
  - simpl. destruct (analyze_detection im d) as [vs|e] eqn:Hd; [|reflexivity].
    simpl exc_bind. apply IH. destruct Hin as [-> | Hin].
    + rewrite Hd in Hr. discriminate Hr.
    + exists d'. auto.
Qed.

End AggregatorFacts.




(* ================================================================== *)
(** * 24. Ramp analyzer *)
(* ================================================================== *)

Section RampFacts.
Variable E : Env.
Local Open Scope string_scope.

(** Every angle kept by the band filter lies strictly between 10 and 80
    degrees. *)
Lemma qualifying_angles_band (lines : list segment) (a : R) :
  In a (RampAnalyzer.qualifying_angles lines) -> (10 < a < 80)%R.
Proof.
  induction lines as [|l rest IH]; simpl; [intros []|].
  destruct (RampAnalyzer.line_angle l) as [angle|]; [|exact IH].
  destruct (Rlt_dec 10 angle) as [Hlo|]; [|exact IH].
  destruct (Rlt_dec angle 80) as [Hhi|]; [|exact IH].
  intros [<- | Hin]; [split; assumption | exact (IH Hin)].
Qed.

(** [max] returns one of the angles, and none is larger. *)
Lemma max_angle_in (angles : list R) :
  forall a, In (RampAnalyzer.max_angle a angles) (a :: angles).
Proof.
  unfold RampAnalyzer.max_angle.
  induction angles as [|b angles IH]; intro a; simpl.
  - left. reflexivity.
  - destruct (IH (Rmax a b)) as [H | H].
    + rewrite <- H. unfold Rmax. destruct (Rle_dec a b); auto.
    + right. right. exact H.
Qed.

Lemma max_angle_ge (angles : list R) :
  forall a x, In x (a :: angles) -> (x <= RampAnalyzer.max_angle a angles)%R.
Proof.
  unfold RampAnalyzer.max_angle.
  induction angles as [|b angles IH]; intros a x Hin; simpl.
  - destruct Hin as [<- | []]. apply Rle_refl.
  - destruct Hin as [<- | [<- | Hin]].
    + apply Rle_trans with (r2 := Rmax a b); [apply Rmax_l|].
      apply IH. left. reflexivity.
    + apply Rle_trans with (r2 := Rmax a b); [apply Rmax_r|].
      apply IH. left. reflexivity.
    + apply IH. right. exact Hin.
Qed.

(** The steepest qualifying angle lies in the band. *)
Lemma steepest_in_band (lines : list segment) (a : R) (angles : list R) :
  RampAnalyzer.qualifying_angles lines = a :: angles ->
  (10 < RampAnalyzer.max_angle a angles < 80)%R.
Proof.
  intro Hq. apply (qualifying_angles_band lines).
  rewrite Hq. apply max_angle_in.
Qed.

(** What the slope assessment returns: nothing when no angle qualifies,
    else a Critical finding carrying the steepest qualifying angle,
    rounded to one decimal. *)
Lemma assess_slope_cases (lines : option (list segment)) :
  match lines with
  | None => RampAnalyzer.assess_slope E lines = None
  | Some ls =>
      match RampAnalyzer.qualifying_angles ls with
      | [] => RampAnalyzer.assess_slope E lines = None
      | a :: angles =>
          exists v,
            RampAnalyzer.assess_slope E lines = Some v
            /\ v_type v = "Ramp Slope" /\ v_severity v = "Critical"
            /\ (v_confidence v == 0.60)%Q
            /\ dict_lookup (v_measurements v) "detected_angle_degrees"
               = Some (MReal (py_round1_R (RampAnalyzer.max_angle a angles)))
      end
  end.
Proof.
  destruct lines as [ls|]; [|reflexivity].
  destruct (RampAnalyzer.qualifying_angles ls) as [|a angles] eqn:Hq.
  - unfold RampAnalyzer.assess_slope. destruct ls; [reflexivity|].
    rewrite Hq. reflexivity.
  - pose proof (steepest_in_band ls Hq) as [Hlo Hhi].
    unfold RampAnalyzer.assess_slope.
    destruct ls as [|l ls']; [discriminate Hq|].
    rewrite Hq.
    destruct (Rlt_dec RampAnalyzer.max_slope_degrees (RampAnalyzer.max_angle a angles))
      as [_ | Hn].
    + eexists. repeat split.
    + exfalso. apply Hn. unfold RampAnalyzer.max_slope_degrees. lra.
Qed.

Lemma ramp_slope_finding (lines : option (list segment)) (v : violation) :
  RampAnalyzer.assess_slope E lines = Some v ->
  v_type v = "Ramp Slope" /\ v_severity v = "Critical" /\ finding_ok v = true.
Proof.
  intro H. pose proof (assess_slope_cases lines) as Hc.
  destruct lines as [ls|]; [|rewrite Hc in H; discriminate H].
  destruct (RampAnalyzer.qualifying_angles ls) as [|a angles];
    [rewrite Hc in H; discriminate H|].
  destruct Hc as [v' [Hv' [Hty [Hsev [Hconf _]]]]].
  rewrite Hv' in H. inversion H; subst v'. repeat split; try assumption.
  unfold finding_ok. rewrite Hsev. simpl.
  apply andb_true_intro; split; apply Qle_bool_iff; rewrite Hconf; lra.
Qed.

Lemma ramp_check_slope_finding (im : image) (h w : nat) (v : violation) :
  RampAnalyzer._check_slope E im h w = Ok (Some v) ->
  v_type v = "Ramp Slope" /\ v_severity v = "Critical" /\ finding_ok v = true.
Proof.
  unfold RampAnalyzer._check_slope. intro H. exc_cases H.
  inversion H as [Hv]. apply (ramp_slope_finding _ Hv).
Qed.


Lemma ramp_analyze_inv (im : image) (d : DetectionResult) (vs : list violation) :
  image_size im <> 0%nat ->
  RampAnalyzer.analyze E im d = Ok vs ->
  exists s hr,
    RampAnalyzer._check_slope E im (shape0 im) (shape1 im) = Ok s
    /\ RampAnalyzer._check_handrails E im (shape0 im) (shape1 im) = Ok hr
    /\ vs = append_if (append_if [] s) hr.
Proof.
  intros Hne H. unfold RampAnalyzer.analyze in H.
  apply Nat.eqb_neq in Hne. rewrite Hne in H.
  exc_cases H. inversion H; subst. eauto.
Qed.

End RampFacts.

(* ================================================================== *)
(** * 25. Signage analyzer *)
(* ================================================================== *)

Section SignageFacts.
Variable E : Env.
Local Open Scope string_scope.



Lemma signage_analyze_inv (im : image) (d : DetectionResult) (vs : list violation) :
  image_size im <> 0%nat ->
  SignageAnalyzer.analyze E im d = Ok vs ->
  exists c t,
    SignageAnalyzer._check_contrast E im (shape0 im) (shape1 im) = Ok c
    /\ SignageAnalyzer._check_tactile_features E im (shape0 im) (shape1 im) = Ok t
    /\ vs = append_if (append_if [] c) t.
Proof.
  intros Hne H. unfold SignageAnalyzer.analyze in H.
  apply Nat.eqb_neq in Hne. rewrite Hne in H.
  exc_cases H. inversion H; subst. eauto.
Qed.

End SignageFacts.

(* ================================================================== *)
(** * 26. The invariant of the findings *)
(* ================================================================== *)

Section InvariantFacts.
Variable E : Env.











End InvariantFacts.

Section ModelBackedFacts.
Variable Rm : Remote.
Local Open Scope string_scope.


(** A record built from a response entry carries the entry's severity
    and confidence, or the defaults when the keys are missing. *)
Lemma parse_violation_fields (d : list (string * pyobj)) :
  exists v,
    ClaudeAPIAnalyzer.parse_violation (PyDict d) = Some v
    /\ severity v = dict_get d "severity" (PyStr "Minor")
    /\ confidence v = dict_get d "confidence" (PyFloat 0.5)
    /\ detection_method v = "claude_api".
Proof. eexists. repeat split. Qed.


End ModelBackedFacts.




(* ================================================================== *)
(** * 27. Angles *)
(* ================================================================== *)

Section Angles.
Local Open Scope R_scope.

Lemma sin_lb_value (y : R) :
  sin_lb y = y - y ^ 3 / 6 + y ^ 5 / 120 - y ^ 7 / 5040.
Proof.
  unfold sin_lb, sin_approx, sin_term, sum_f_R0.
  rewrite !INR_IZR_INZ.
  replace (Z.of_nat (fact (2 * 3 + 1))) with 5040%Z by (vm_compute; reflexivity).
  replace (Z.of_nat (fact (2 * 2 + 1))) with 120%Z by (vm_compute; reflexivity).
  replace (Z.of_nat (fact (2 * 1 + 1))) with 6%Z by (vm_compute; reflexivity).
  replace (Z.of_nat (fact (2 * 0 + 1))) with 1%Z by (vm_compute; reflexivity).
  simpl. field.
Qed.

Lemma cos_lb_value (y : R) :
  cos_lb y = 1 - y ^ 2 / 2 + y ^ 4 / 24 - y ^ 6 / 720.
Proof.
  unfold cos_lb, cos_approx, cos_term, sum_f_R0.
  rewrite !INR_IZR_INZ.
  replace (Z.of_nat (fact (2 * 3))) with 720%Z by (vm_compute; reflexivity).
  replace (Z.of_nat (fact (2 * 2))) with 24%Z by (vm_compute; reflexivity).
  replace (Z.of_nat (fact (2 * 1))) with 2%Z by (vm_compute; reflexivity).
  replace (Z.of_nat (fact (2 * 0))) with 1%Z by (vm_compute; reflexivity).
  simpl. field.
Qed.

Lemma PI_gt_3 : 3 < PI.
Proof. pose proof PI2_3_2. lra. Qed.

Lemma PI_lt_7_2 : PI < 7 / 2.
Proof.
  pose proof (PI_ineq 1) as [_ H].
  unfold tg_alt, PI_tg in H. simpl in H. lra.
Qed.

(** An upper bound on [atan x] from a lower bound on the sine. *)
Lemma atan_lt_from_sin (x y : R) :
  0 < y <= 1 -> x < sin_lb y -> atan x < y.
Proof.
  intros [Hy0 Hy1] Hx.
  pose proof PI_gt_3 as Hpi.
  assert (Hy2 : y < PI / 2) by lra.
  assert (Hsin : sin_lb y <= sin y) by (apply SIN; lra).
  assert (Hcos : 0 < cos y) by (apply cos_gt_0; lra).
  assert (Hcos1 : cos y <= 1) by apply COS_bound.
  assert (Hsin0 : 0 < sin y) by (apply sin_gt_0; lra).
  assert (Htan : x < tan y).
  { unfold tan. apply Rlt_le_trans with (r2 := sin y); [lra|].
    apply Rle_trans with (r2 := sin y / 1); [lra|].
    unfold Rdiv. apply Rmult_le_compat_l; [lra|].
    apply Rinv_le_contravar; lra. }
  rewrite <- (atan_tan y) by lra.
  apply atan_increasing. exact Htan.
Qed.

(** A lower bound on [atan x] from a lower bound on the cosine. *)
Lemma atan_gt_from_cos (x y : R) :
  0 < y <= 1 -> 0 < cos_lb y -> y < x * cos_lb y -> y < atan x.
Proof.
  intros [Hy0 Hy1] Hc Hx.
  pose proof PI_gt_3 as Hpi.
  assert (Hcos : cos_lb y <= cos y) by (apply COS; lra).
  assert (Hsin : sin y < y) by (apply sin_lt_x; lra).
  assert (Hx0 : 0 < x) by nra.
  assert (Htan : tan y < x).
  { unfold tan. apply Rmult_lt_reg_r with (r := cos y); [lra|].
    unfold Rdiv. rewrite Rmult_assoc, Rinv_l by lra. nra. }
  rewrite <- (atan_tan y) at 1 by lra.
  apply atan_increasing. exact Htan.
Qed.


Lemma np_degrees_pos (x : R) : 0 < x -> 0 < np_degrees x.
Proof.
  intro Hx. unfold np_degrees. pose proof PI_gt_3.
  apply Rmult_lt_0_compat; [exact Hx|].
  apply Rdiv_lt_0_compat; lra.
Qed.

(** The angle of a segment depends on the absolute slope only. *)
Lemma abs_degrees_atan (s : R) :
  Rabs (np_degrees (atan s)) = np_degrees (atan (Rabs s)).
Proof.
  unfold Rabs at 2. destruct (Rcase_abs s) as [Hneg | Hpos].
  - rewrite atan_opp. unfold np_degrees.
    assert (H : 0 < np_degrees (atan (- s))).
    { apply np_degrees_pos. rewrite <- atan_0. apply atan_increasing. lra. }
    rewrite atan_opp in H. unfold np_degrees in H.
    rewrite Rabs_left by lra. lra.
  - destruct (Req_dec s 0) as [-> | Hne].
    + rewrite atan_0. unfold np_degrees. rewrite Rmult_0_l. apply Rabs_R0.
    + apply Rabs_right. apply Rle_ge. apply Rlt_le. apply np_degrees_pos.
      rewrite <- atan_0. apply atan_increasing. lra.
Qed.

(** The angle in degrees lies between the bounds a bracket of the
    arctangent gives. *)
Lemma degrees_bracket (x lo hi : R) :
  lo < x < hi -> 0 <= lo ->
  lo * (180 / (7 / 2)) < np_degrees x < hi * (180 / 3).
Proof.
  intros [Hlo Hhi] H0. unfold np_degrees.
  pose proof PI_gt_3. pose proof PI_lt_7_2.
  assert (Hinv1 : 180 / (7 / 2) < 180 / PI).
  { unfold Rdiv. apply Rmult_lt_compat_l; [lra|].
    apply Rinv_lt_contravar; [nra | lra]. }
  assert (Hinv2 : 180 / PI < 180 / 3).
  { unfold Rdiv. apply Rmult_lt_compat_l; [lra|].
    apply Rinv_lt_contravar; [nra | lra]. }
  assert (Hp : 0 < 180 / PI) by (apply Rdiv_lt_0_compat; lra).
  split.
  - apply Rle_lt_trans with (r2 := lo * (180 / PI)).
    + apply Rmult_le_compat_l; lra.
    + apply Rmult_lt_compat_r; lra.
  - apply Rlt_trans with (r2 := hi * (180 / PI)).
    + apply Rmult_lt_compat_r; lra.
    + apply Rmult_lt_compat_l; lra.
Qed.

(** The three sample segments. *)
Lemma test_line_angle :
  exists theta, RampAnalyzer.line_angle test_line = Some theta /\ 10 < theta < 80.
Proof.
  eexists. split; [reflexivity|].
  replace (IZR (100 - 400) / IZR (500 - 100)) with (- (3 / 4)) by (simpl; lra).
  rewrite abs_degrees_atan. rewrite Rabs_left by lra. rewrite Ropp_involutive.
  assert (Hlo : / 4 < atan (3 / 4)).
  { apply atan_gt_from_cos; rewrite ?cos_lb_value; simpl; lra. }
  assert (Hhi : atan (3 / 4) < 1).
  { apply atan_lt_from_sin; rewrite ?sin_lb_value; simpl; lra. }
  pose proof (@degrees_bracket (atan (3 / 4)) (/ 4) 1 (conj Hlo Hhi)).
  lra.
Qed.


Lemma shallow_line_angle :
  exists theta,
    RampAnalyzer.line_angle shallow_line = Some theta /\ 4 < theta < 5.
Proof.
  eexists. split; [reflexivity|].
  replace (IZR (20 - 100) / IZR (1000 - 0)) with (- (2 / 25)) by (simpl; lra).
  rewrite abs_degrees_atan. rewrite Rabs_left by lra. rewrite Ropp_involutive.
  assert (Hlo : 39 / 500 < atan (2 / 25)).
  { apply atan_gt_from_cos; rewrite ?cos_lb_value; simpl; lra. }
  assert (Hhi : atan (2 / 25) < / 12).
  { apply atan_lt_from_sin; rewrite ?sin_lb_value; simpl; lra. }
  pose proof (@degrees_bracket (atan (2 / 25)) (39 / 500) (/ 12) (conj Hlo Hhi)).
  lra.
Qed.


End Angles.

(* ================================================================== *)
(** * 28. The slope check on one detected line *)
(* ================================================================== *)

Section SingleLine.
Variable E : Env.
Local Open Scope string_scope.

Lemma qualifying_single_in_band (l : segment) (theta : R) :
  RampAnalyzer.line_angle l = Some theta -> (10 < theta < 80)%R ->
  RampAnalyzer.qualifying_angles [l] = [theta].
Proof.
  intros Hl [Hlo Hhi]. simpl. rewrite Hl.
  destruct (Rlt_dec 10 theta); [|contradiction].
  destruct (Rlt_dec theta 80); [reflexivity | contradiction].
Qed.

Lemma qualifying_single_out_of_band (l : segment) (theta : R) :
  RampAnalyzer.line_angle l = Some theta -> (theta <= 10 \/ 80 <= theta)%R ->
  RampAnalyzer.qualifying_angles [l] = [].
Proof.
  intros Hl Hout. simpl. rewrite Hl.
  destruct (Rlt_dec 10 theta); [|reflexivity].
  destruct (Rlt_dec theta 80); [|reflexivity].
  exfalso. lra.
Qed.

Lemma assess_single_in_band (l : segment) (theta : R) :
  RampAnalyzer.line_angle l = Some theta -> (10 < theta < 80)%R ->
  exists v,
    RampAnalyzer.assess_slope E (Some [l]) = Some v
    /\ v_type v = "Ramp Slope" /\ v_severity v = "Critical"
    /\ dict_lookup (v_measurements v) "detected_angle_degrees"
       = Some (MReal (py_round1_R theta)).
Proof.
  intros Hl Hband.
  pose proof (assess_slope_cases E (Some [l])) as Hc. cbv beta iota in Hc.
  rewrite (qualifying_single_in_band l Hl Hband) in Hc.
  destruct Hc as [v [Hv [Hty [Hsev [_ Hm]]]]].
  exists v. repeat split; assumption.
Qed.

Lemma assess_single_out_of_band (l : segment) (theta : R) :
  RampAnalyzer.line_angle l = Some theta -> (theta <= 10 \/ 80 <= theta)%R ->
  RampAnalyzer.assess_slope E (Some [l]) = None.
Proof.
  intros Hl Hout.
  pose proof (assess_slope_cases E (Some [l])) as Hc. cbv beta iota in Hc.
  rewrite (qualifying_single_out_of_band l Hl Hout) in Hc. exact Hc.
Qed.

End SingleLine.

(** The slope check under an OpenCV that reports the given lines. *)
Lemma check_slope_with_lines (lines : option (list segment)) (im : image) (h w : nat) :
  RampAnalyzer._check_slope (env_with_lines lines) im h w
  = Ok (RampAnalyzer.assess_slope (env_with_lines lines) lines).
Proof. reflexivity. Qed.




(** C5.  Whatever the region, a finding of the slope check is Critical:
    every angle that passes the band filter exceeds 10 degrees and
    therefore the maximum of 5, so the comparison with the warning
    threshold of 4 is never reached and no Moderate "Ramp Slope" finding
    is ever produced. *)
Theorem C5_ramp_slope_never_moderate :
  forall (E : Env) (im : image) (h w : nat) (v : violation),
    RampAnalyzer._check_slope E im h w = Ok (Some v) ->
    v_type v = "Ramp Slope"%string
    /\ v_severity v = "Critical"%string
    /\ v_severity v <> "Moderate"%string.
Proof.
  intros E im h w v Hv.
  destruct (ramp_check_slope_finding E im h w Hv) as [Hty [Hsev _]].
  repeat split; try assumption. rewrite Hsev. discriminate.
Qed.

(** The line of the analyzer's own test gives a Critical finding. *)
Lemma C5_ramp_slope_witness :
  exists v,
    RampAnalyzer._check_slope (env_with_lines (Some [test_line]))
      (uniform_image 480 640 black) 480 640 = Ok (Some v)
    /\ v_type v = "Ramp Slope"%string
    /\ v_severity v = "Critical"%string
    /\ v_severity v <> "Moderate"%string.
Proof.
  destruct test_line_angle as [theta [Hangle Hband]].
  destruct (assess_single_in_band (env_with_lines (Some [test_line])) test_line
              Hangle Hband) as [v [Hv _]].
  exists v.
  assert (Hcheck : RampAnalyzer._check_slope (env_with_lines (Some [test_line]))
                     (uniform_image 480 640 black) 480 640 = Ok (Some v)).
  { rewrite check_slope_with_lines, Hv. reflexivity. }
  split; [exact Hcheck|].
  exact (C5_ramp_slope_never_moderate _ _ _ _ Hcheck).
Defined.

(** A single line at about 4.57 degrees, between the warning threshold
    of 4 and the maximum of 5: the band filter drops it and the check
    reports nothing. *)
Lemma ramp_shallow_line_not_reported :
  exists theta,
    RampAnalyzer.line_angle shallow_line = Some theta
    /\ (RampAnalyzer.warning_slope_degrees < theta < RampAnalyzer.max_slope_degrees)%R
    /\ RampAnalyzer._check_slope (env_with_lines (Some [shallow_line]))
         (uniform_image 101 1001 black) 101 1001 = Ok None.
Proof.
  destruct shallow_line_angle as [theta [Hangle [Hlo Hhi]]].
  exists theta. split; [exact Hangle|].
  unfold RampAnalyzer.warning_slope_degrees, RampAnalyzer.max_slope_degrees.
  split; [lra|].
  rewrite check_slope_with_lines.
  rewrite (assess_single_out_of_band _ shallow_line Hangle); [reflexivity|].
  left. lra.
Qed.

(* ================================================================== *)
(** * 29. Strings *)
(* ================================================================== *)

Section StringFacts.
Local Open Scope string_scope.

Lemma length_app (a b : string) :
  String.length (a ++ b) = (String.length a + String.length b)%nat.
Proof. induction a as [|c a IH]; simpl; [reflexivity | rewrite IH; reflexivity]. Qed.

Lemma drop_app (a b : string) : drop (String.length a) (a ++ b) = b.
Proof. induction a as [|c a IH]; simpl; [reflexivity | exact IH]. Qed.

Lemma drop_0 (s : string) : drop 0 s = s.
Proof. destruct s; reflexivity. Qed.

Lemma prefix_app (a b : string) : prefix a (a ++ b) = true.
Proof.
  induction a as [|c a IH]; simpl; [destruct b; reflexivity|].
  destruct (ascii_dec c c) as [_ | Hne]; [exact IH | contradiction].
Qed.

Lemma substring_0_app (b c : string) : substring 0 (String.length b) (b ++ c) = b.
Proof.
  induction b as [|x b IH]; simpl.
  - destruct c; reflexivity.
  - rewrite IH. reflexivity.
Qed.

Lemma substring_app (a b c : string) :
  substring (String.length a) (String.length b) (a ++ b ++ c) = b.
Proof.
  induction a as [|x a IH]; simpl; [apply substring_0_app | exact IH].
Qed.

(** The first occurrence is where the string occurs with no occurrence
    before. *)
Lemma find_first_at (sub : string) :
  forall (n : nat) (s : string),
    no_occurrence_before sub s n = true ->
    prefix sub (drop n s) = true ->
    find_first sub s = Some n.
Proof.
  induction n as [|n IH]; intros s Hno Hat.
  - rewrite drop_0 in Hat. destruct s; simpl in *; rewrite Hat; reflexivity.
  - simpl in Hno. apply andb_prop in Hno. destruct Hno as [Hhere Hrest].
    apply negb_true_iff in Hhere.
    destruct s as [|c s].
    + simpl in Hat, Hhere. congruence.
    + unfold find_first. fold find_first. rewrite Hhere.
      simpl in Hat. rewrite (IH s Hrest Hat). reflexivity.
Qed.

Lemma find_first_none_empty (sub : string) :
  sub <> EmptyString -> find_first sub EmptyString = None.
Proof. destruct sub; [contradiction | reflexivity]. Qed.

Lemma prefix_app_l (a b : string) :
  forall s, prefix (a ++ b) s = true -> prefix a s = true.
Proof.
  induction a as [|x a IH]; intros s H.
  - destruct s; reflexivity.
  - destruct s as [|y s]; simpl in *; [discriminate H|].
    destruct (ascii_dec x y); [apply IH; exact H | discriminate H].
Qed.

(** A text that holds the opening fence holds a fence. *)
Lemma contains_fence_json (s : string) :
  str_contains ClaudeAPIAnalyzer.fence_json s = true ->
  str_contains ClaudeAPIAnalyzer.fence s = true.
Proof.
  unfold str_contains.
  induction s as [|c s IH].
  - simpl. discriminate.
  - unfold find_first. fold find_first.
    destruct (prefix ClaudeAPIAnalyzer.fence (String c s)) eqn:Hp; [reflexivity|].
    destruct (prefix ClaudeAPIAnalyzer.fence_json (String c s)) eqn:Hj.
    + apply (prefix_app_l ClaudeAPIAnalyzer.fence "json") in Hj. congruence.
    + destruct (find_first ClaudeAPIAnalyzer.fence_json s); [|discriminate].
      intros _. specialize (IH eq_refl).
      destruct (find_first ClaudeAPIAnalyzer.fence s); [reflexivity | discriminate IH].
Qed.

Lemma norm_index_inside (len i : Z) : (0 <= i <= len)%Z -> norm_index len i = i.
Proof.
  intros [H0 H1]. unfold norm_index.
  destruct (i <? 0)%Z eqn:Hi; [apply Z.ltb_lt in Hi; lia | lia].
Qed.

Lemma str_find_from (sub s : string) (a n : nat) :
  (a <= String.length s)%nat ->
  find_first sub (drop a s) = Some n ->
  str_find sub s (Z.of_nat a) = Z.of_nat (a + n).
Proof.
  intros Ha Hf. unfold str_find.
  destruct (Z.of_nat (String.length s) <? Z.of_nat a)%Z eqn:Hlt;
    [apply Z.ltb_lt in Hlt; lia|].
  rewrite norm_index_inside by lia. rewrite Nat2Z.id, Hf. reflexivity.
Qed.

Lemma str_slice_app (a b c : string) :
  str_slice (a ++ b ++ c) (Z.of_nat (String.length a))
            (Z.of_nat (String.length a + String.length b)) = b.
Proof.
  unfold str_slice. rewrite !length_app.
  rewrite !norm_index_inside by lia.
  rewrite Nat2Z.id.
  replace (Z.to_nat (Z.of_nat (String.length a + String.length b)
                     - Z.of_nat (String.length a)))
    with (String.length b) by lia.
  apply substring_app.
Qed.


End StringFacts.

(* ================================================================== *)
(** * 30. JSON extraction *)
(* ================================================================== *)

Section ExtractJson.
Variable Rm : Remote.
Local Open Scope string_scope.

Lemma string_app_assoc (a b c : string) : (a ++ b) ++ c = a ++ b ++ c.
Proof. induction a as [|x a IH]; simpl; [reflexivity | rewrite IH; reflexivity]. Qed.





(** Without a fence the candidate is the span from the first opening
    brace to the last closing one, or the text itself when either is
    missing. *)
Lemma json_candidate_no_fence (text : string) :
  str_contains ClaudeAPIAnalyzer.fence text = false ->
  ClaudeAPIAnalyzer.json_candidate text
  = if negb (str_find "{" text 0 =? -1)%Z && negb (str_rfind "}" text + 1 =? 0)%Z
    then str_slice text (str_find "{" text 0) (str_rfind "}" text + 1)
    else text.
Proof.
  intro Hno. unfold ClaudeAPIAnalyzer.json_candidate.
  destruct (str_contains ClaudeAPIAnalyzer.fence_json text) eqn:Hj.
  - apply contains_fence_json in Hj. congruence.
  - rewrite Hno. reflexivity.
Qed.


End ExtractJson.




(** A fence whose content does not parse is not followed by an attempt
    on the brace span: the object after the fences is not found. *)
Example fenced_prose_then_object :
  let Rm := canned_remote prose_fenced_response empty_report_text empty_report in
  str_slice prose_fenced_response (str_find "{" prose_fenced_response 0)
            (str_rfind "}" prose_fenced_response + 1) = empty_report_text
  /\ ClaudeAPIAnalyzer.json_candidate prose_fenced_response = "not json"%string
  /\ ClaudeAPIAnalyzer._extract_json Rm prose_fenced_response
     = ClaudeAPIAnalyzer.parse_error prose_fenced_response.
Proof. vm_compute. repeat split. Qed.

Unset Implicit Arguments.

(* ================================================================== *)
(** * 31. Crops *)
(* ================================================================== *)

Lemma norm_index_range (len i : Z) :
  (0 <= len)%Z -> (0 <= norm_index len i <= len)%Z.
Proof.
  intro Hlen. unfold norm_index.
  destruct (i <? 0)%Z eqn:Hi; [apply Z.ltb_lt in Hi | apply Z.ltb_ge in Hi]; lia.
Qed.

Lemma slice_bounds_inside (len : nat) (s n : Z) :
  (0 <= s)%Z -> (0 <= n)%Z -> (s + n <= Z.of_nat len)%Z ->
  slice_bounds len s (s + n) = (Z.to_nat s, Z.to_nat (s + n)).
Proof.
  intros Hs Hn Hlen. unfold slice_bounds.
  rewrite !norm_index_inside by lia.
  rewrite Z.max_r by lia. reflexivity.
Qed.

Lemma slice_bounds_length (len : nat) (s t : Z) :
  (snd (slice_bounds len s t) - fst (slice_bounds len s t) <= len)%nat.
Proof.
  unfold slice_bounds. simpl.
  pose proof (@norm_index_range (Z.of_nat len) s).
  pose proof (@norm_index_range (Z.of_nat len) t). lia.
Qed.

Lemma slice_bounds_empty (len : nat) (s : Z) :
  (snd (slice_bounds len s (s + 0)) - fst (slice_bounds len s (s + 0)) = 0)%nat.
Proof.
  unfold slice_bounds. simpl. rewrite Z.add_0_r, Z.max_id. lia.
Qed.

Lemma py_slice2_shape {A : Type} (a : ndarray A) (y0 y1 x0 x1 : Z) :
  shape0 (py_slice2 a y0 y1 x0 x1)
  = (snd (slice_bounds (shape0 a) y0 y1) - fst (slice_bounds (shape0 a) y0 y1))%nat
  /\ shape1 (py_slice2 a y0 y1 x0 x1)
     = (snd (slice_bounds (shape1 a) x0 x1) - fst (slice_bounds (shape1 a) x0 x1))%nat.
Proof.
  unfold py_slice2.
  destruct (slice_bounds (shape0 a) y0 y1) as [r0 r1].
  destruct (slice_bounds (shape1 a) x0 x1) as [c0 c1].
  split; reflexivity.
Qed.

Lemma get_crop_shape_inside (im : image) (d : DetectionResult) (x y w h : Z) :
  bbox d = (x, y, w, h) ->
  box_inside (bbox d) (shape0 im) (shape1 im) ->
  shape0 (get_crop d im) = Z.to_nat h /\ shape1 (get_crop d im) = Z.to_nat w.
Proof.
  intros Hb Hin. rewrite Hb in Hin.
  destruct Hin as (Hx & Hy & Hw & Hh & Hxw & Hyh).
  unfold get_crop. rewrite Hb. unfold py_slice2.
  rewrite !slice_bounds_inside by assumption.
  simpl. split; lia.
Qed.

(** X1.  [get_crop] of a box inside the frame is the box: its shape is the
    height and width of the box and its element at [(i, j)] is the
    frame's at [(y + i, x + j)]. *)
Theorem get_crop_inside :
  forall (im : image) (d : DetectionResult) (x y w h : Z),
    bbox d = (x, y, w, h) ->
    box_inside (bbox d) (shape0 im) (shape1 im) ->
    shape0 (get_crop d im) = Z.to_nat h
    /\ shape1 (get_crop d im) = Z.to_nat w
    /\ forall i j, at_ (get_crop d im) i j = at_ im (Z.to_nat y + i) (Z.to_nat x + j).
Proof.
  intros im d x y w h Hb Hin. rewrite Hb in Hin.
  destruct Hin as (Hx & Hy & Hw & Hh & Hxw & Hyh).
  unfold get_crop. rewrite Hb. unfold py_slice2.
  rewrite !slice_bounds_inside by assumption.
  simpl. repeat split; lia.
Qed.

Lemma get_crop_inside_witness :
  let d := detection_of "door" (100, 100, 80, 300)%Z in
  shape0 (get_crop d coordinate_image) = 300%nat
  /\ shape1 (get_crop d coordinate_image) = 80%nat
  /\ forall i j, at_ (get_crop d coordinate_image) i j
                 = at_ coordinate_image (100 + i) (100 + j).
Proof.
  intro d.
  apply (@get_crop_inside coordinate_image d 100 100 80 300).
  - reflexivity.
  - simpl. lia.
Defined.

Lemma get_crop_zero_area (im : image) (d : DetectionResult) (x y w h : Z) :
  bbox d = (x, y, w, h) -> (w = 0 \/ h = 0)%Z ->
  image_size (get_crop d im) = 0%nat.
Proof.
  intros Hb Hz. unfold get_crop. rewrite Hb.
  destruct (py_slice2_shape im y (y + h) x (x + w)) as [H0 H1].
  unfold image_size. rewrite H0, H1.
  destruct Hz as [-> | ->]; rewrite slice_bounds_empty; lia.
Qed.

(** X2.  [get_crop] never returns more rows or columns than the frame has,
    whatever the box; a box of zero width or zero height gives an empty
    crop. *)
Theorem get_crop_clipped :
  forall (im : image) (d : DetectionResult),
    (shape0 (get_crop d im) <= shape0 im)%nat
    /\ (shape1 (get_crop d im) <= shape1 im)%nat
    /\ (forall x y w h, bbox d = (x, y, w, h) -> (w = 0 \/ h = 0)%Z ->
                        image_size (get_crop d im) = 0%nat).
Proof.
  intros im d. split; [|split].
  1,2: unfold get_crop; destruct (bbox d) as [[[x y] w] h];
    destruct (py_slice2_shape im y (y + h) x (x + w)) as [H0 H1].
  - rewrite H0. apply slice_bounds_length.
  - rewrite H1. apply slice_bounds_length.
  - intros x' y' w' h' Heq Hz.
    apply (@get_crop_zero_area im d x' y' w' h' Heq Hz).
Qed.

Lemma get_crop_clipped_witness :
  image_size (get_crop (detection_of "door" (100, 100, 0, 300)%Z) coordinate_image)
  = 0%nat.
Proof.
  destruct (get_crop_clipped coordinate_image
              (detection_of "door" (100, 100, 0, 300)%Z)) as [_ [_ Hzero]].
  apply (Hzero 100 100 0 300)%Z; [reflexivity | left; reflexivity].
Defined.

(* ================================================================== *)
(** * 32. The router *)
(* ================================================================== *)

Lemma str_in_In (s : string) (l : list string) : str_in s l = true -> In s l.
Proof.
  induction l as [|x l IH]; simpl; [discriminate|].
  intro H. apply orb_prop in H. destruct H as [H | H].
  - left. apply String.eqb_eq in H. symmetry. exact H.
  - right. exact (IH H).
Qed.

(** Case analysis on the members of a list of literals. *)
Ltac each_member H :=
  apply str_in_In in H; simpl in H;
  repeat (destruct H as [H | H]; [subst|]); try contradiction.

Section RouterFacts.
Variable E : Env.

Lemma analyzers_empty (im : image) (d : DetectionResult) :
  image_size im = 0%nat ->
  DoorAnalyzer.analyze E im d = Ok []
  /\ ParkingAnalyzer.analyze E im d = Ok []
  /\ PathwayAnalyzer.analyze E im d = []
  /\ RampAnalyzer.analyze E im d = Ok []
  /\ SignageAnalyzer.analyze E im d = Ok [].
Proof.
  intro Hz.
  unfold DoorAnalyzer.analyze, ParkingAnalyzer.analyze, PathwayAnalyzer.analyze,
    RampAnalyzer.analyze, SignageAnalyzer.analyze.
  rewrite Hz. simpl. repeat split; reflexivity.
Qed.

Lemma route_empty_crop (im : image) (d : DetectionResult) :
  image_size (get_crop d im) = 0%nat -> RuleBasedAnalyzer.route E im d = Ok [].
Proof.
  intro Hz.
  destruct (analyzers_empty (get_crop d im) d Hz) as (Hd & Hp & Hw & Hr & Hs).
  unfold RuleBasedAnalyzer.route.
  destruct (str_in _ RuleBasedAnalyzer.door_objects); [exact Hd|].
  destruct (str_in _ RuleBasedAnalyzer.parking_objects); [exact Hp|].
  destruct (str_in _ RuleBasedAnalyzer.ramp_objects); [exact Hr|].
  destruct (str_in _ RuleBasedAnalyzer.sign_objects); [exact Hs|].
  rewrite Hw. reflexivity.
Qed.

Lemma parking_not_door (s : string) :
  str_in s RuleBasedAnalyzer.parking_objects = true ->
  str_in s RuleBasedAnalyzer.door_objects = false.
Proof. intro H. each_member H; reflexivity. Qed.

Lemma ramp_not_earlier (s : string) :
  str_in s RuleBasedAnalyzer.ramp_objects = true ->
  str_in s RuleBasedAnalyzer.door_objects = false
  /\ str_in s RuleBasedAnalyzer.parking_objects = false.
Proof. intro H. each_member H; split; reflexivity. Qed.

Lemma sign_not_earlier (s : string) :
  str_in s RuleBasedAnalyzer.sign_objects = true ->
  str_in s RuleBasedAnalyzer.door_objects = false
  /\ str_in s RuleBasedAnalyzer.parking_objects = false
  /\ str_in s RuleBasedAnalyzer.ramp_objects = false.
Proof. intro H. each_member H; repeat split; reflexivity. Qed.

Lemma obstruction_not_routed (s : string) :
  str_in s PathwayAnalyzer.obstruction_objects = true ->
  str_in s RuleBasedAnalyzer.door_objects = false
  /\ str_in s RuleBasedAnalyzer.parking_objects = false
  /\ str_in s RuleBasedAnalyzer.ramp_objects = false
  /\ str_in s RuleBasedAnalyzer.sign_objects = false.
Proof. intro H. each_member H; repeat split; reflexivity. Qed.

Lemma route_door (im : image) (d : DetectionResult) :
  str_in (lower (class_name d)) RuleBasedAnalyzer.door_objects = true ->
  RuleBasedAnalyzer.route E im d = DoorAnalyzer.analyze E (get_crop d im) d.
Proof. intro H. unfold RuleBasedAnalyzer.route. rewrite H. reflexivity. Qed.

Lemma route_parking (im : image) (d : DetectionResult) :
  str_in (lower (class_name d)) RuleBasedAnalyzer.parking_objects = true ->
  RuleBasedAnalyzer.route E im d = ParkingAnalyzer.analyze E (get_crop d im) d.
Proof.
  intro H. unfold RuleBasedAnalyzer.route.
  rewrite (parking_not_door _ H), H. reflexivity.
Qed.

Lemma route_ramp (im : image) (d : DetectionResult) :
  str_in (lower (class_name d)) RuleBasedAnalyzer.ramp_objects = true ->
  RuleBasedAnalyzer.route E im d = RampAnalyzer.analyze E (get_crop d im) d.
Proof.
  intro H. unfold RuleBasedAnalyzer.route.
  destruct (ramp_not_earlier _ H) as [-> ->]. rewrite H. reflexivity.
Qed.

Lemma route_sign (im : image) (d : DetectionResult) :
  str_in (lower (class_name d)) RuleBasedAnalyzer.sign_objects = true ->
  RuleBasedAnalyzer.route E im d = SignageAnalyzer.analyze E (get_crop d im) d.
Proof.
  intro H. unfold RuleBasedAnalyzer.route.
  destruct (sign_not_earlier _ H) as (-> & -> & ->). rewrite H. reflexivity.
Qed.

Lemma route_obstruction (im : image) (d : DetectionResult) :
  str_in (lower (class_name d)) PathwayAnalyzer.obstruction_objects = true ->
  RuleBasedAnalyzer.route E im d = Ok (PathwayAnalyzer.analyze E (get_crop d im) d).
Proof.
  intro H. unfold RuleBasedAnalyzer.route.
  destruct (obstruction_not_routed _ H) as (-> & -> & -> & ->). reflexivity.
Qed.

Lemma pathway_at_most_one (im : image) (d : DetectionResult) :
  (List.length (PathwayAnalyzer.analyze E im d) <= 1)%nat.
Proof.
  unfold PathwayAnalyzer.analyze.
  destruct (image_size im =? 0)%nat; [simpl; lia|].
  destruct (negb _); simpl; lia.
Qed.

End RouterFacts.

(** X3.  The router dispatches on the lower-cased label.  The label lists of
    the four specialised analyzers are pairwise disjoint, so a label in
    one of them reaches that analyzer whatever the order of the tests;
    a label in none of them is handled by the pathway analyzer, which
    calls nothing that can raise, and yields at most one record. *)
Theorem router_dispatch :
  forall (E : Env) (im : image) (d : DetectionResult),
    let label := lower (class_name d) in
    let crop := get_crop d im in
    (str_in label RuleBasedAnalyzer.door_objects = true ->
       RuleBasedAnalyzer.route E im d = DoorAnalyzer.analyze E crop d)
    /\ (str_in label RuleBasedAnalyzer.parking_objects = true ->
          RuleBasedAnalyzer.route E im d = ParkingAnalyzer.analyze E crop d)
    /\ (str_in label RuleBasedAnalyzer.ramp_objects = true ->
          RuleBasedAnalyzer.route E im d = RampAnalyzer.analyze E crop d)
    /\ (str_in label RuleBasedAnalyzer.sign_objects = true ->
          RuleBasedAnalyzer.route E im d = SignageAnalyzer.analyze E crop d)
    /\ (str_in label (RuleBasedAnalyzer.door_objects ++ RuleBasedAnalyzer.parking_objects
                      ++ RuleBasedAnalyzer.ramp_objects ++ RuleBasedAnalyzer.sign_objects)
        = false ->
        RuleBasedAnalyzer.analyze_detection E im d
        = Ok (map RuleBasedAnalyzer.to_result (PathwayAnalyzer.analyze E crop d))
        /\ (List.length (PathwayAnalyzer.analyze E crop d) <= 1)%nat).
Proof.
  intros E im d label crop. repeat split.
  - apply route_door.
  - apply route_parking.
  - apply route_ramp.
  - apply route_sign.
  - unfold RuleBasedAnalyzer.analyze_detection, RuleBasedAnalyzer.route.
    fold label crop.
    simpl app in H. simpl str_in in H.
    simpl str_in.
    repeat (apply orb_false_elim in H; destruct H as [? H]).
    repeat match goal with
           | Hx : String.eqb _ _ = false |- _ => rewrite Hx; clear Hx
           end.
    reflexivity.
  - apply pathway_at_most_one.
Qed.

(** The labels "DOOR" and "Umbrella". *)
Lemma router_dispatch_witness :
  RuleBasedAnalyzer.route test_env coordinate_image
    (detection_of "DOOR" (100, 100, 80, 300)%Z)
  = DoorAnalyzer.analyze test_env
      (get_crop (detection_of "DOOR" (100, 100, 80, 300)%Z) coordinate_image)
      (detection_of "DOOR" (100, 100, 80, 300)%Z)
  /\ RuleBasedAnalyzer.analyze_detection failing_env coordinate_image
       (detection_of "Umbrella" (100, 100, 80, 300)%Z)
     = Ok (map RuleBasedAnalyzer.to_result
             (PathwayAnalyzer.analyze failing_env
                (get_crop (detection_of "Umbrella" (100, 100, 80, 300)%Z)
                   coordinate_image)
                (detection_of "Umbrella" (100, 100, 80, 300)%Z))).
Proof.
  split.
  - apply (router_dispatch test_env coordinate_image
             (detection_of "DOOR" (100, 100, 80, 300)%Z)).
    reflexivity.
  - apply (router_dispatch failing_env coordinate_image
             (detection_of "Umbrella" (100, 100, 80, 300)%Z)).
    reflexivity.
Defined.

(** X4.  A box of zero width or zero height yields no finding from either
    analyzer, and neither OpenCV nor the remote model is called: the
    result does not depend on them. *)
Theorem zero_area_box_no_findings :
  forall (E : Env) (Rm : Remote) (use_mock : bool) (im : image)
         (d : DetectionResult) (x y w h : Z),
    bbox d = (x, y, w, h) ->
    (w = 0 \/ h = 0)%Z ->
    RuleBasedAnalyzer.analyze_detection E im d = Ok []
    /\ ClaudeAPIAnalyzer.analyze_detection Rm use_mock im d = Ok [].
Proof.
  intros E Rm use_mock im d x y w h Hb Hz.
  pose proof (@get_crop_zero_area im d x y w h Hb Hz) as Hsize.
  split.
  - unfold RuleBasedAnalyzer.analyze_detection.
    rewrite (route_empty_crop E im d Hsize). reflexivity.
  - unfold ClaudeAPIAnalyzer.analyze_detection. rewrite Hsize. reflexivity.
Qed.

Lemma zero_area_box_witness :
  RuleBasedAnalyzer.analyze_detection failing_env coordinate_image
    (detection_of "door" (100, 100, 80, 0)%Z) = Ok []
  /\ ClaudeAPIAnalyzer.analyze_detection
       (canned_remote EmptyString empty_report_text empty_report) false
       coordinate_image (detection_of "door" (100, 100, 80, 0)%Z) = Ok [].
Proof.
  apply (@zero_area_box_no_findings failing_env _ false coordinate_image
           (detection_of "door" (100, 100, 80, 0)%Z) 100 100 80 0).
  - reflexivity.
  - right. reflexivity.
Defined.

(* ================================================================== *)
(** * 33. Obstructions through the router *)
(* ================================================================== *)

Section ObstructionFacts.
Variable E : Env.
Local Open Scope string_scope.

(** The crop of a box inside the frame has the area of the box, so the
    relative size the pathway analyzer computes is 1. *)
Lemma relative_size_of_crop (im : image) (d : DetectionResult) (x y w h : Z) :
  bbox d = (x, y, w, h) ->
  box_inside (bbox d) (shape0 im) (shape1 im) ->
  (0 < w)%Z -> (0 < h)%Z ->
  (PathwayAnalyzer.relative_size_of (get_crop d im) d == 1)%Q.
Proof.
  intros Hb Hin Hw Hh.
  destruct (@get_crop_shape_inside im d x y w h Hb Hin) as [H0 H1].
  unfold PathwayAnalyzer.relative_size_of. rewrite Hb, H0, H1.
  assert (Hpos : (0 <? Z.to_nat w * Z.to_nat h)%nat = true) by (apply Nat.ltb_lt; nia).
  rewrite Hpos.
  replace (Z.of_nat (Z.to_nat w * Z.to_nat h)) with (w * h)%Z by nia.
  unfold Qdiv. apply Qmult_inv_r. unfold Qeq. simpl. nia.
Qed.

Lemma size_assessment_of_one (relative_size : Q) :
  (relative_size == 1)%Q ->
  PathwayAnalyzer.size_assessment relative_size = ("Moderate", 0.65%Q).
Proof.
  intro H1. unfold PathwayAnalyzer.size_assessment.
  assert (Hb : Qltb 0.3 relative_size = true) by (apply Qltb_lt; rewrite H1; lra).
  rewrite Hb. reflexivity.
Qed.

End ObstructionFacts.

(** X5.  Through the router the size test of the pathway analyzer is
    constant.  For a box inside the frame, of positive width and height,
    whose lower-cased label is in the obstruction list, the rule-based
    analyzer returns exactly one record: a Moderate "Pathway
    Obstruction" whose confidence is 0.65, or 0.70 for chair, couch,
    bench and bicycle, and whose [object_type] is the label as
    detected. *)
Theorem obstruction_through_router :
  forall (E : Env) (im : image) (d : DetectionResult) (x y w h : Z),
    bbox d = (x, y, w, h) ->
    box_inside (bbox d) (shape0 im) (shape1 im) ->
    (0 < w)%Z -> (0 < h)%Z ->
    str_in (lower (class_name d)) PathwayAnalyzer.obstruction_objects = true ->
    exists r q,
      RuleBasedAnalyzer.analyze_detection E im d = Ok [r]
      /\ type r = PyStr "Pathway Obstruction"
      /\ severity r = PyStr "Moderate"
      /\ confidence r = PyFloat q
      /\ (q == if str_in (lower (class_name d)) PathwayAnalyzer.high_risk_objects
               then 0.70 else 0.65)%Q
      /\ dict_lookup (measurements r) "object_type" = Some (MStr (class_name d)).
Proof.
  intros E im d x y w h Hb Hin Hw Hh Hlabel.
  destruct (@get_crop_shape_inside im d x y w h Hb Hin) as [H0 H1].
  assert (Hne : (image_size (get_crop d im) =? 0)%nat = false).
  { apply Nat.eqb_neq. unfold image_size. rewrite H0, H1. nia. }
  pose proof (@relative_size_of_crop im d x y w h Hb Hin Hw Hh) as Hsize.
  pose proof (size_assessment_of_one _ Hsize) as Hassess.
  exists (RuleBasedAnalyzer.to_result
            (PathwayAnalyzer._check_obstruction E (get_crop d im) d)).
  eexists. split; [|split; [|split; [|split; [reflexivity|split]]]].
  - unfold RuleBasedAnalyzer.analyze_detection.
    rewrite (route_obstruction E im d Hlabel). cbn [exc_bind].
    unfold PathwayAnalyzer.analyze. rewrite Hne, Hlabel. reflexivity.
  - simpl. f_equal. apply (pathway_finding E (get_crop d im) d).
  - simpl. f_equal. apply (pathway_finding E (get_crop d im) d).
  - unfold RuleBasedAnalyzer.to_result, confidence.
    unfold PathwayAnalyzer._check_obstruction. rewrite Hassess.
    destruct (str_in (lower (class_name d)) PathwayAnalyzer.high_risk_objects);
      cbn [v_confidence]; vm_compute; reflexivity.
  - unfold RuleBasedAnalyzer.to_result, measurements.
    unfold PathwayAnalyzer._check_obstruction. rewrite Hassess.
    destruct (str_in (lower (class_name d)) PathwayAnalyzer.high_risk_objects);
      reflexivity.
Qed.

(** A "Chair" and a "potted_plant" in the source's test frame. *)
Lemma obstruction_through_router_witness :
  (exists r, RuleBasedAnalyzer.analyze_detection test_env coordinate_image
               (detection_of "Chair" (300, 300, 100, 100)%Z) = Ok [r]
             /\ severity r = PyStr "Moderate"
             /\ exists q, confidence r = PyFloat q /\ (q == 0.70)%Q)
  /\ (exists r, RuleBasedAnalyzer.analyze_detection test_env coordinate_image
                  (detection_of "potted_plant" (300, 300, 100, 100)%Z) = Ok [r]
                /\ severity r = PyStr "Moderate"
                /\ exists q, confidence r = PyFloat q /\ (q == 0.65)%Q).
Proof.
  split.
  - destruct (@obstruction_through_router test_env coordinate_image
                (detection_of "Chair" (300, 300, 100, 100)%Z) 300 300 100 100)
      as [r [q (Hr & _ & Hsev & Hc & Hq & _)]];
      [reflexivity | simpl; lia | lia | lia | reflexivity |].
    exists r. split; [exact Hr|]. split; [exact Hsev|]. exists q. split; assumption.
  - destruct (@obstruction_through_router test_env coordinate_image
                (detection_of "potted_plant" (300, 300, 100, 100)%Z) 300 300 100 100)
      as [r [q (Hr & _ & Hsev & Hc & Hq & _)]];
      [reflexivity | simpl; lia | lia | lia | reflexivity |].
    exists r. split; [exact Hr|]. split; [exact Hsev|]. exists q. split; assumption.
Defined.

(* ================================================================== *)
(** * 34. Door checks *)
(* ================================================================== *)

(** X6.  The two bands of the width check.  Above a ratio of 3.0 the finding
    has confidence 0.70 and an estimated width of 28 inches; in the band
    above 2.5 and up to 3.0 it is Critical as well, with confidence 0.60
    and an estimated width of 30 inches. *)
Theorem door_width_bands :
  forall (E : Env) (im : image) (h w : nat),
    (0 < w)%nat ->
    let ratio := (inject_Z (Z.of_nat h) / inject_Z (Z.of_nat w))%Q in
    ((3 < ratio)%Q ->
       exists v, DoorAnalyzer._check_width E im h w = Some v
                 /\ v_severity v = "Critical"%string
                 /\ (v_confidence v == 0.70)%Q
                 /\ dict_lookup (v_measurements v) "estimated_width_inches"
                    = Some (MInt 28))
    /\ ((2.5 < ratio)%Q -> (ratio <= 3)%Q ->
          exists v, DoorAnalyzer._check_width E im h w = Some v
                    /\ v_severity v = "Critical"%string
                    /\ (v_confidence v == 0.60)%Q
                    /\ dict_lookup (v_measurements v) "estimated_width_inches"
                       = Some (MInt 30)).
Proof.
  intros E im h w Hw ratio.
  apply Nat.ltb_lt in Hw.
  split.
  - intro H3. unfold DoorAnalyzer._check_width. rewrite Hw. fold ratio.
    assert (Hb : Qltb DoorAnalyzer.very_narrow_ratio ratio = true).
    { apply Qltb_lt. unfold DoorAnalyzer.very_narrow_ratio. lra. }
    rewrite Hb. eexists. repeat split.
  - intros H25 H3. unfold DoorAnalyzer._check_width. rewrite Hw. fold ratio.
    assert (Hb1 : Qltb DoorAnalyzer.very_narrow_ratio ratio = false).
    { apply Qltb_ge. unfold DoorAnalyzer.very_narrow_ratio. lra. }
    assert (Hb2 : Qltb DoorAnalyzer.narrow_door_ratio ratio = true).
    { apply Qltb_lt. unfold DoorAnalyzer.narrow_door_ratio. lra. }
    rewrite Hb1, Hb2. eexists. repeat split.
Qed.

(** Regions of 800 by 250 (ratio 3.2) and 700 by 250 (ratio 2.8). *)
Lemma door_width_bands_witness :
  (exists v, DoorAnalyzer._check_width test_env (uniform_image 800 250 mid_gray) 800 250
             = Some v
             /\ v_severity v = "Critical"%string /\ (v_confidence v == 0.70)%Q
             /\ dict_lookup (v_measurements v) "estimated_width_inches" = Some (MInt 28))
  /\ (exists v, DoorAnalyzer._check_width test_env (uniform_image 700 250 mid_gray) 700 250
                = Some v
                /\ v_severity v = "Critical"%string /\ (v_confidence v == 0.60)%Q
                /\ dict_lookup (v_measurements v) "estimated_width_inches"
                   = Some (MInt 30)).
Proof.
  split.
  - apply (door_width_bands test_env (uniform_image 800 250 mid_gray) 800 250);
      [lia | vm_compute; reflexivity].
  - apply (door_width_bands test_env (uniform_image 700 250 mid_gray) 700 250);
      [lia | vm_compute; reflexivity | vm_compute; discriminate].
Defined.





(* ================================================================== *)
(** * 35. Errors inside the category analyzers *)
(* ================================================================== *)

(** X8.  No category analyzer catches an OpenCV error.  On a non-empty region
    an analyzer raises exactly when one of its checks raises, findings
    of the other checks being lost; in particular it raises the error of
    its first colour conversion. *)
Theorem analyzers_all_or_nothing :
  forall (E : Env) (im : image) (d : DetectionResult),
    image_size im <> 0%nat ->
    let h := shape0 im in
    let w := shape1 im in
    raises (DoorAnalyzer.analyze E im d)
    = raises (DoorAnalyzer._check_threshold E im h w)
      || raises (DoorAnalyzer._check_hardware E im h w)
    /\ raises (ParkingAnalyzer.analyze E im d)
       = raises (ParkingAnalyzer._check_signage E im h w)
         || raises (ParkingAnalyzer._check_sign_position E im h w)
    /\ raises (RampAnalyzer.analyze E im d)
       = raises (RampAnalyzer._check_slope E im h w)
         || raises (RampAnalyzer._check_handrails E im h w)
    /\ raises (SignageAnalyzer.analyze E im d)
       = raises (SignageAnalyzer._check_contrast E im h w)
         || raises (SignageAnalyzer._check_tactile_features E im h w)
    /\ (forall e, cvtColor_BGR2GRAY E im = Raise e ->
                  DoorAnalyzer.analyze E im d = Raise e
                  /\ RampAnalyzer.analyze E im d = Raise e)
    /\ (forall e, cvtColor_BGR2HSV E im = Raise e ->
                  ParkingAnalyzer.analyze E im d = Raise e)
    /\ (forall e, cvtColor_BGR2LAB E im = Raise e ->
                  SignageAnalyzer.analyze E im d = Raise e).
Proof.
  intros E im d Hne h w. subst h w.
  apply Nat.eqb_neq in Hne.
  unfold DoorAnalyzer.analyze, ParkingAnalyzer.analyze, RampAnalyzer.analyze,
    SignageAnalyzer.analyze.
  rewrite Hne.
  split; [|split; [|split; [|split; [|split; [|split]]]]].
  5: intros e H; split.
  7,8: intros e H.
  - destruct (DoorAnalyzer._check_threshold E im (shape0 im) (shape1 im));
      [|reflexivity].
    cbn [exc_bind].
    destruct (DoorAnalyzer._check_hardware E im (shape0 im) (shape1 im)); reflexivity.
  - destruct (ParkingAnalyzer._check_signage E im (shape0 im) (shape1 im));
      [|reflexivity].
    cbn [exc_bind].
    destruct (ParkingAnalyzer._check_sign_position E im (shape0 im) (shape1 im));
      reflexivity.
  - destruct (RampAnalyzer._check_slope E im (shape0 im) (shape1 im)); [|reflexivity].
    cbn [exc_bind].
    destruct (RampAnalyzer._check_handrails E im (shape0 im) (shape1 im)); reflexivity.
  - destruct (SignageAnalyzer._check_contrast E im (shape0 im) (shape1 im));
      [|reflexivity].
    cbn [exc_bind].
    destruct (SignageAnalyzer._check_tactile_features E im (shape0 im) (shape1 im));
      reflexivity.
  - unfold DoorAnalyzer._check_threshold. rewrite H. reflexivity.
  - unfold RampAnalyzer._check_slope. rewrite H. reflexivity.
  - unfold ParkingAnalyzer._check_signage. rewrite H. reflexivity.
  - unfold SignageAnalyzer._check_contrast. rewrite H. reflexivity.
Qed.

(** A gray 800 by 250 door region, which the width check alone would
    flag, under an OpenCV that raises. *)
Lemma analyzers_all_or_nothing_witness :
  let im := uniform_image 800 250 mid_gray in
  let d := detection_of "door" (0, 0, 250, 800)%Z in
  DoorAnalyzer._check_width failing_env im 800 250 <> None
  /\ DoorAnalyzer.analyze failing_env im d = Raise "cv2.error"
  /\ RampAnalyzer.analyze failing_env im d = Raise "cv2.error"
  /\ ParkingAnalyzer.analyze failing_env im d = Raise "cv2.error"
  /\ SignageAnalyzer.analyze failing_env im d = Raise "cv2.error".
Proof.
  intros im d.
  assert (Hne : image_size im <> 0%nat) by discriminate.
  destruct (analyzers_all_or_nothing failing_env im d Hne)
    as (_ & _ & _ & _ & Hgray & Hhsv & Hlab).
  split; [discriminate|].
  destruct (Hgray "cv2.error"%string eq_refl) as [Hdoor Hramp].
  split; [exact Hdoor|]. split; [exact Hramp|].
  split; [exact (Hhsv "cv2.error"%string eq_refl)|].
  exact (Hlab "cv2.error"%string eq_refl).
Defined.

(* ================================================================== *)
(** * 36. Errors inside the aggregator *)
(* ================================================================== *)

Lemma analyze_loop_first_error
    (analyze_detection : image -> DetectionResult -> exc (list ViolationResult))
    (name : string) (im : image) (before : list DetectionResult) :
  forall (d : DetectionResult) (after : list DetectionResult) (e : string)
         (i : nat) (results : list (string * result_entry)) (count : nat),
    (forall d', In d' before -> raises (analyze_detection im d') = false) ->
    analyze_detection im d = Raise e ->
    BaseAnalyzer.analyze_loop analyze_detection name im (before ++ d :: after)
      i results count = Raise e.
Proof.
  induction before as [|b before IH]; intros d after e i results count Hok Hd; simpl.
  - rewrite Hd. reflexivity.
  - destruct (analyze_detection im b) as [vs|e'] eqn:Hb.
    + cbn [exc_bind]. apply IH; [|exact Hd].
      intros d' Hin. apply Hok. right. exact Hin.
    + specialize (Hok b (or_introl eq_refl)). rewrite Hb in Hok. discriminate Hok.
Qed.

(** X9.  The aggregator has no handler around the analysis of a detection:
    when the analysis of one detection raises, the whole run raises that
    error, and the entries of the detections analysed before it are
    lost. *)
Theorem aggregator_aborts_on_first_error :
  forall (analyze_detection : image -> DetectionResult -> exc (list ViolationResult))
         (name : string) (im : image) (before after : list DetectionResult)
         (d : DetectionResult) (e : string) (analysis_count : nat),
    (forall d', In d' before -> raises (analyze_detection im d') = false) ->
    analyze_detection im d = Raise e ->
    BaseAnalyzer.analyze_all_detections analyze_detection name im
      (before ++ d :: after) analysis_count = Raise e.
Proof.
  intros analyze_detection name im before after d e analysis_count Hok Hd.
  unfold BaseAnalyzer.analyze_all_detections.
  apply analyze_loop_first_error; assumption.
Qed.

(** A chair, then a door on which OpenCV raises, then a car. *)
Lemma aggregator_aborts_witness :
  BaseAnalyzer.analyze_all_detections
    (RuleBasedAnalyzer.analyze_detection failing_env) RuleBasedAnalyzer.name
    coordinate_image
    ([detection_of "chair" (300, 300, 100, 100)%Z]
     ++ detection_of "door" (100, 100, 80, 300)%Z
        :: [detection_of "car" (200, 200, 150, 100)%Z]) 0
  = Raise "cv2.error".
Proof.
  apply aggregator_aborts_on_first_error.
  - intros d' [<- | []]. reflexivity.
  - reflexivity.
Defined.

(* ================================================================== *)
(** * 37. Parking checks *)
(* ================================================================== *)

Section MaskFacts.

Lemma flat_map_map {A B C : Type} (f : B -> C) (g : A -> list B) (l : list A) :
  flat_map (fun a => map f (g a)) l = map f (flat_map g l).
Proof.
  induction l as [|a l IH]; simpl; [reflexivity|].
  rewrite map_app, IH. reflexivity.
Qed.

(** The elements of an array computed pixel by pixel from another. *)
Lemma elems_pointwise {A B : Type} (f : A -> B) (a : ndarray A) :
  elems {| shape0 := shape0 a; shape1 := shape1 a;
           at_ := fun y x => f (at_ a y x) |}
  = map f (elems a).
Proof.
  unfold elems, row_elems. simpl.
  rewrite <- flat_map_map.
  apply flat_map_ext. intro y. rewrite map_map. reflexivity.
Qed.

Lemma elems_length {A : Type} (a : ndarray A) :
  List.length (elems a) = (shape0 a * shape1 a)%nat.
Proof.
  unfold elems, row_elems.
  assert (H : forall l : list nat,
             List.length (flat_map (fun y => map (at_ a y) (seq 0 (shape1 a))) l)
             = (List.length l * shape1 a)%nat).
  { induction l as [|y l IH]; simpl; [reflexivity|].
    rewrite List.length_app, length_map, length_seq, IH. reflexivity. }
  rewrite H, length_seq. reflexivity.
Qed.

Lemma count_positive_mask {A : Type} (b : A -> bool) (l : list A) :
  count_positive (map (fun p => if b p then 255%Z else 0%Z) l)
  = List.length (filter b l).
Proof.
  unfold count_positive.
  induction l as [|p l IH]; simpl; [reflexivity|].
  destruct (b p); simpl; rewrite IH; reflexivity.
Qed.

(** The number of pixels [cv2.inRange] marks. *)
Lemma np_sum_positive_inRange (im : image) (lo hi : pixel) :
  np_sum_positive (inRange im lo hi)
  = List.length (filter (fun p => in_range p lo hi) (elems im)).
Proof.
  unfold np_sum_positive, inRange.
  rewrite (elems_pointwise (fun p => if in_range p lo hi then 255%Z else 0%Z) im).
  apply count_positive_mask.
Qed.

Lemma disjoint_filters_length {A : Type} (f g : A -> bool) (l : list A) :
  (forall x, f x = true -> g x = false) ->
  (List.length (filter f l) + List.length (filter g l) <= List.length l)%nat.
Proof.
  intro Hdis. induction l as [|x l IH]; simpl; [lia|].
  destruct (f x) eqn:Hf.
  - rewrite (Hdis x Hf). simpl. lia.
  - destruct (g x); simpl; lia.
Qed.

End MaskFacts.

(** X10.  No pixel is both blue and white for the parking analyzer (blue asks
    for a saturation of at least 80, white for at most 50), so the blue
    and the white pixels of a region together are at most its
    pixels. *)
Theorem parking_blue_and_white_disjoint :
  (forall p : pixel,
      in_range p ParkingAnalyzer.blue_lower ParkingAnalyzer.blue_upper = true ->
      in_range p ParkingAnalyzer.white_lower ParkingAnalyzer.white_upper = false)
  /\ (forall hsv : image,
        (np_sum_positive
           (inRange hsv ParkingAnalyzer.blue_lower ParkingAnalyzer.blue_upper)
         + np_sum_positive
             (inRange hsv ParkingAnalyzer.white_lower ParkingAnalyzer.white_upper)
         <= mask_size (inRange hsv ParkingAnalyzer.blue_lower
                         ParkingAnalyzer.blue_upper))%nat).
Proof.
  assert (Hdis : forall p : pixel,
             in_range p ParkingAnalyzer.blue_lower ParkingAnalyzer.blue_upper = true ->
             in_range p ParkingAnalyzer.white_lower ParkingAnalyzer.white_upper = false).
  { intros [[p0 p1] p2].
    unfold in_range, ParkingAnalyzer.blue_lower, ParkingAnalyzer.blue_upper,
      ParkingAnalyzer.white_lower, ParkingAnalyzer.white_upper.
    intro H. repeat (apply andb_prop in H; destruct H as [H ?]).
    apply Bool.not_true_is_false. intro Hw.
    repeat (apply andb_prop in Hw; destruct Hw as [Hw ?]).
    repeat match goal with
           | Hx : (_ <=? _)%Z = true |- _ => apply Z.leb_le in Hx
           end.
    lia. }
  split; [exact Hdis|].
  intro hsv. rewrite !np_sum_positive_inRange.
  unfold mask_size, inRange. simpl. rewrite <- elems_length.
  apply disjoint_filters_length. exact Hdis.
Qed.

Section ParkingMoreFacts.
Variable E : Env.
Local Open Scope string_scope.

Lemma count_positive_exists (l : list Z) :
  (0 < count_positive l)%nat -> exists v, In v l /\ (0 < v)%Z.
Proof.
  unfold count_positive. induction l as [|v l IH]; simpl; [lia|].
  destruct (0 <? v)%Z eqn:Hv.
  - intros _. exists v. split; [left; reflexivity | apply Z.ltb_lt; exact Hv].
  - intro H. destruct (IH H) as [v' [Hin Hpos]]. exists v'. auto.
Qed.

(** Each row index [np.where] lists is a row that holds a marked
    pixel. *)
Lemma np_where_rows_in (m : gray) (y : nat) :
  In y (np_where_rows m) ->
  (y < shape0 m)%nat /\ exists x, (x < shape1 m)%nat /\ (0 < at_ m y x)%Z.
Proof.
  unfold np_where_rows. intro H.
  apply in_flat_map in H. destruct H as [y' [Hy' Hrep]].
  apply repeat_spec in Hrep as Heq. subst y'.
  apply in_seq in Hy'. split; [lia|].
  assert (Hpos : (0 < count_positive (row_elems m y))%nat).
  { destruct (count_positive (row_elems m y)); [destruct Hrep | lia]. }
  destruct (count_positive_exists _ Hpos) as [v [Hin Hv]].
  unfold row_elems in Hin. apply in_map_iff in Hin.
  destruct Hin as [x [<- Hx]]. apply in_seq in Hx.
  exists x. split; [lia | exact Hv].
Qed.

Lemma sum_bounded (l : list nat) (num den : nat) :
  (forall y, In y l -> den * y <= num)%nat ->
  (den * fold_right Nat.add 0 l <= num * List.length l)%nat.
Proof.
  induction l as [|y l IH]; intro Hb; simpl; [lia|].
  assert (Hy : (den * y <= num)%nat) by (apply Hb; left; reflexivity).
  assert (Hl : (den * fold_right Nat.add 0 l <= num * List.length l)%nat).
  { apply IH. intros y' Hin. apply Hb. right. exact Hin. }
  lia.
Qed.

End ParkingMoreFacts.

Section ParkingExtra.
Variable E : Env.
Local Open Scope string_scope.

Lemma inRange_at_positive (hsv : image) (lo hi : pixel) (y x : nat) :
  (0 < at_ (inRange hsv lo hi) y x)%Z -> in_range (at_ hsv y x) lo hi = true.
Proof.
  unfold inRange. simpl. destruct (in_range _ _ _); [reflexivity | lia].
Qed.

Lemma sign_position_without_blue (im hsv : image) (h w : nat) :
  cvtColor_BGR2HSV E im = Ok hsv ->
  np_sum_positive
    (inRange hsv ParkingAnalyzer.blue_lower ParkingAnalyzer.blue_upper) = 0%nat ->
  ParkingAnalyzer._check_sign_position E im h w = Ok None.
Proof.
  intros Hhsv Hblue. unfold ParkingAnalyzer._check_sign_position.
  rewrite Hhsv. cbn [exc_bind].
  rewrite np_where_rows_length, Hblue. reflexivity.
Qed.

(** X11.  A region without a single blue pixel gets exactly one finding from
    the parking analyzer: the Critical "Parking Signage" one, with
    confidence 0.80 and a measured blue percentage of 0; the height of
    the sign is not judged. *)
Theorem parking_without_blue
    (im hsv : image) (d : DetectionResult) :
  image_size im <> 0%nat ->
  cvtColor_BGR2HSV E im = Ok hsv ->
  np_sum_positive
    (inRange hsv ParkingAnalyzer.blue_lower ParkingAnalyzer.blue_upper) = 0%nat ->
  exists v,
    ParkingAnalyzer.analyze E im d = Ok [v]
    /\ v_type v = "Parking Signage"
    /\ v_severity v = "Critical"
    /\ v_ada_code v = "502.6"
    /\ (v_confidence v == 0.80)%Q
    /\ In ("blue_percentage", MFloat (py_round 0 1)) (v_measurements v).
Proof.
  intros Hne Hhsv Hblue.
  assert (Hfrac : (ParkingAnalyzer.blue_percentage_of hsv == 0)%Q).
  { unfold ParkingAnalyzer.blue_percentage_of, ParkingAnalyzer.mask_fraction.
    rewrite Hblue. simpl Z.of_nat. unfold Qdiv. ring. }
  unfold ParkingAnalyzer.analyze.
  apply Nat.eqb_neq in Hne. rewrite Hne.
  rewrite (sign_position_without_blue im hsv _ _ Hhsv Hblue).
  unfold ParkingAnalyzer._check_signage. rewrite Hhsv. cbn [exc_bind].
  assert (Hb : Qle_bool ParkingAnalyzer.min_blue_percentage
                 (ParkingAnalyzer.blue_percentage_of hsv) = false).
  { apply Qle_bool_false. rewrite Hfrac.
    unfold ParkingAnalyzer.min_blue_percentage. reflexivity. }
  rewrite Hb. cbn [negb append_if app exc_bind].
  eexists. split; [reflexivity|].
  cbn [v_type v_severity v_ada_code v_confidence v_measurements].
  repeat (split; [reflexivity|]).
  left. f_equal. f_equal.
  unfold ParkingAnalyzer.blue_percentage_of, ParkingAnalyzer.mask_fraction.
  rewrite Hblue. reflexivity.
Qed.

(** X12.  The parking analyzer reports at most two findings and in a fixed
    order: at most one about the signage ("Parking Signage" or
    "Wheelchair Symbol", never both), then at most one "Sign Height". *)
Theorem parking_findings_shape
    (im : image) (d : DetectionResult) (vs : list violation) :
  ParkingAnalyzer.analyze E im d = Ok vs ->
  vs = []
  \/ (exists s, vs = [s]
        /\ (v_type s = "Parking Signage" \/ v_type s = "Wheelchair Symbol"))
  \/ (exists p, vs = [p] /\ v_type p = "Sign Height")
  \/ (exists s p, vs = [s; p]
        /\ (v_type s = "Parking Signage" \/ v_type s = "Wheelchair Symbol")
        /\ v_type p = "Sign Height").
Proof.
  intro H. destruct (Nat.eq_dec (image_size im) 0) as [Hz | Hne].
  - unfold ParkingAnalyzer.analyze in H. rewrite Hz in H. simpl in H.
    inversion H. left. reflexivity.
  - destruct (@parking_analyze_inv E im d vs Hne H) as [s [p [Hs [Hp ->]]]].
    destruct s as [s|], p as [p|]; simpl.
    + right; right; right. exists s, p. split; [reflexivity|]. split.
      * apply (@parking_signage_finding E _ _ _ _ Hs).
      * apply (@parking_position_finding E _ _ _ _ Hp).
    + right; left. exists s. split; [reflexivity|].
      apply (@parking_signage_finding E _ _ _ _ Hs).
    + right; right; left. exists p. split; [reflexivity|].
      apply (@parking_position_finding E _ _ _ _ Hp).
    + left. reflexivity.
Qed.

(** X13.  When every blue pixel of the region lies in its upper 60% (row
    index at most 0.6 times the height), the parking analyzer reports no
    "Sign Height" finding. *)
Theorem parking_sign_in_upper_part
    (im hsv : image) (height width : nat) :
  cvtColor_BGR2HSV E im = Ok hsv ->
  (0 < height)%nat ->
  (forall y x,
      (y < shape0 hsv)%nat -> (x < shape1 hsv)%nat ->
      in_range (at_ hsv y x)
        ParkingAnalyzer.blue_lower ParkingAnalyzer.blue_upper = true ->
      (10 * y <= 6 * height)%nat) ->
  ParkingAnalyzer._check_sign_position E im height width = Ok None.
Proof.
  intros Hhsv Hh Hupper. unfold ParkingAnalyzer._check_sign_position.
  rewrite Hhsv. cbn [exc_bind].
  set (rows := np_where_rows
                 (inRange hsv ParkingAnalyzer.blue_lower ParkingAnalyzer.blue_upper)).
  destruct (0 <? List.length rows)%nat eqn:Hlen; [|reflexivity].
  apply Nat.ltb_lt in Hlen.
  assert (Hrows : forall y, In y rows -> (10 * y <= 6 * height)%nat).
  { intros y Hy. apply np_where_rows_in in Hy.
    destruct Hy as [Hy [x [Hx Hpos]]].
    apply inRange_at_positive in Hpos.
    apply (Hupper y x); [exact Hy | exact Hx | exact Hpos]. }
  apply sum_bounded in Hrows.
  assert (Hle : (0.6 < np_mean_nat rows / inject_Z (Z.of_nat height))%Q -> False).
  { intro Hlt. revert Hlt. apply Qle_not_lt.
    unfold np_mean_nat.
    set (S := fold_right Nat.add 0%nat rows) in *.
    set (L := List.length rows) in *.
    assert (HqL : (0 < inject_Z (Z.of_nat L))%Q).
    { change 0%Q with (inject_Z 0). rewrite <- Zlt_Qlt. lia. }
    assert (HqH : (0 < inject_Z (Z.of_nat height))%Q).
    { change 0%Q with (inject_Z 0). rewrite <- Zlt_Qlt. lia. }
    apply Qle_shift_div_r; [exact HqH|].
    apply Qle_shift_div_r; [exact HqL|].
    assert (Hz : (inject_Z (10 * Z.of_nat S)
                  <= inject_Z (6 * (Z.of_nat height * Z.of_nat L)))%Q).
    { rewrite <- Zle_Qle. lia. }
    rewrite !inject_Z_mult in Hz.
    set (p := (inject_Z (Z.of_nat height) * inject_Z (Z.of_nat L))%Q) in *.
    setoid_replace (0.6 * inject_Z (Z.of_nat height) * inject_Z (Z.of_nat L))%Q
      with (0.6 * p)%Q by (unfold p; ring).
    change (inject_Z 10) with 10%Q in Hz. change (inject_Z 6) with 6%Q in Hz.
    lra. }
  destruct (Qltb 0.6 (np_mean_nat rows / inject_Z (Z.of_nat height))) eqn:Hq;
    [|reflexivity].
  apply Qltb_lt in Hq. destruct (Hle Hq).
Qed.

End ParkingExtra.

Lemma parking_without_blue_witness :
  exists v,
    ParkingAnalyzer.analyze test_env (uniform_image 4 4 black)
      (detection_of "car"%string (0, 0, 4, 4)%Z) = Ok [v]
    /\ v_type v = "Parking Signage"%string
    /\ v_severity v = "Critical"%string
    /\ v_ada_code v = "502.6"%string
    /\ (v_confidence v == 0.80)%Q
    /\ In ("blue_percentage"%string, MFloat (py_round 0 1)) (v_measurements v).
Proof.
  apply (parking_without_blue test_env (uniform_image 4 4 black)
           (uniform_image 4 4 black)).
  - vm_compute. discriminate.
  - reflexivity.
  - vm_compute. reflexivity.
Defined.

Lemma parking_findings_shape_witness :
  exists vs,
    ParkingAnalyzer.analyze test_env (uniform_image 4 4 mid_gray)
      (detection_of "car"%string (0, 0, 4, 4)%Z) = Ok vs
    /\ (vs = []
        \/ (exists s, vs = [s]
              /\ (v_type s = "Parking Signage"%string \/ v_type s = "Wheelchair Symbol"%string))
        \/ (exists p, vs = [p] /\ v_type p = "Sign Height"%string)
        \/ (exists s p, vs = [s; p]
              /\ (v_type s = "Parking Signage"%string \/ v_type s = "Wheelchair Symbol"%string)
              /\ v_type p = "Sign Height"%string)).
Proof.
  eexists. split; [reflexivity|].
  apply (parking_findings_shape test_env (uniform_image 4 4 mid_gray)
           (detection_of "car"%string (0, 0, 4, 4)%Z)).
  reflexivity.
Defined.

Lemma parking_sign_in_upper_part_witness :
  ParkingAnalyzer._check_sign_position test_env
    (uniform_image 10 4 (100, 200, 200)%Z) 20 4 = Ok None.
Proof.
  apply (parking_sign_in_upper_part test_env
           (uniform_image 10 4 (100, 200, 200)%Z)
           (uniform_image 10 4 (100, 200, 200)%Z)).
  - reflexivity.
  - lia.
  - simpl. intros y x Hy _ _. lia.
Defined.

(* ================================================================== *)
(** * 38. Ramp checks *)
(* ================================================================== *)





Section RampExtra.
Variable E : Env.
Local Open Scope string_scope.


Lemma line_angle_reverse (l : segment) :
  RampAnalyzer.line_angle (reverse_segment l) = RampAnalyzer.line_angle l.
Proof.
  destruct l as [[[x1 y1] x2] y2]. unfold reverse_segment, RampAnalyzer.line_angle.
  destruct (x2 - x1 =? 0)%Z eqn:Hx.
  - apply Z.eqb_eq in Hx.
    assert (H : (x1 - x2 =? 0)%Z = true) by (apply Z.eqb_eq; lia).
    rewrite H. reflexivity.
  - apply Z.eqb_neq in Hx.
    assert (H : (x1 - x2 =? 0)%Z = false) by (apply Z.eqb_neq; lia).
    rewrite H. f_equal. f_equal. f_equal. f_equal.
    replace (y1 - y2)%Z with (- (y2 - y1))%Z by lia.
    replace (x1 - x2)%Z with (- (x2 - x1))%Z by lia.
    rewrite !opp_IZR.
    assert (Hne : IZR (x2 - x1) <> 0%R).
    { intro H0. apply eq_IZR_R0 in H0. lia. }
    field. exact Hne.
Qed.

Lemma line_angle_mirror (l : segment) :
  RampAnalyzer.line_angle (mirror_segment l) = RampAnalyzer.line_angle l.
Proof.
  destruct l as [[[x1 y1] x2] y2]. unfold mirror_segment, RampAnalyzer.line_angle.
  destruct (x2 - x1 =? 0)%Z eqn:Hx; [reflexivity|].
  apply Z.eqb_neq in Hx. f_equal.
  replace (y1 - y2)%Z with (- (y2 - y1))%Z by lia.
  rewrite opp_IZR.
  replace (- IZR (y2 - y1) / IZR (x2 - x1))%R
    with (- (IZR (y2 - y1) / IZR (x2 - x1)))%R
    by (unfold Rdiv; ring).
  rewrite atan_opp. unfold np_degrees.
  replace (- atan (IZR (y2 - y1) / IZR (x2 - x1)) * (180 / PI))%R
    with (- (atan (IZR (y2 - y1) / IZR (x2 - x1)) * (180 / PI)))%R by ring.
  apply Rabs_Ropp.
Qed.

Lemma qualifying_angles_map (f : segment -> segment) (ls : list segment) :
  (forall l, RampAnalyzer.line_angle (f l) = RampAnalyzer.line_angle l) ->
  RampAnalyzer.qualifying_angles (map f ls) = RampAnalyzer.qualifying_angles ls.
Proof.
  intro Hf. induction ls as [|l ls IH]; simpl; [reflexivity|].
  rewrite Hf, IH. reflexivity.
Qed.

Lemma assess_slope_map (f : segment -> segment) (lines : option (list segment)) :
  (forall l, RampAnalyzer.line_angle (f l) = RampAnalyzer.line_angle l) ->
  RampAnalyzer.assess_slope E (option_map (map f) lines)
  = RampAnalyzer.assess_slope E lines.
Proof.
  intro Hf. destruct lines as [[|l ls]|]; try reflexivity.
  unfold option_map. change (map f (l :: ls)) with (f l :: map f ls).
  unfold RampAnalyzer.assess_slope.
  change (f l :: map f ls) with (map f (l :: ls)).
  rewrite (qualifying_angles_map f (l :: ls) Hf). reflexivity.
Qed.

(** X15.  The slope verdict of the ramp analyzer does not depend on the
    direction in which a detected segment is given, nor on whether it
    rises to the left or to the right: giving every segment from its
    other end, or mirroring every segment top to bottom, leaves the
    verdict unchanged. *)
Theorem ramp_slope_orientation_independent (lines : option (list segment)) :
  RampAnalyzer.assess_slope E (option_map (map reverse_segment) lines)
  = RampAnalyzer.assess_slope E lines
  /\ RampAnalyzer.assess_slope E (option_map (map mirror_segment) lines)
     = RampAnalyzer.assess_slope E lines.
Proof.
  split; apply assess_slope_map; [apply line_angle_reverse | apply line_angle_mirror].
Qed.

Lemma line_angle_axis_aligned (l : segment) :
  axis_aligned l ->
  RampAnalyzer.line_angle l = None \/ RampAnalyzer.line_angle l = Some 0%R.
Proof.
  destruct l as [[[x1 y1] x2] y2]. unfold axis_aligned, RampAnalyzer.line_angle.
  intro H. destruct (x2 - x1 =? 0)%Z eqn:Hx; [left; reflexivity|].
  apply Z.eqb_neq in Hx. destruct H as [H | H]; [lia|].
  right. f_equal. subst y2. rewrite Z.sub_diag.
  unfold Rdiv. rewrite Rmult_0_l, atan_0. unfold np_degrees.
  rewrite Rmult_0_l. apply Rabs_R0.
Qed.

(** X16.  Horizontal and vertical segments never count as a slope: when every
    detected segment is horizontal or vertical, the slope check reports
    nothing (a vertical segment is skipped before the division). *)
Theorem ramp_axis_aligned_lines_ignored (ls : list segment) :
  (forall l, In l ls -> axis_aligned l) ->
  RampAnalyzer.assess_slope E (Some ls) = None.
Proof.
  intro Hall.
  assert (Hq : RampAnalyzer.qualifying_angles ls = []).
  { induction ls as [|l ls IH]; simpl; [reflexivity|].
    assert (Hl : axis_aligned l) by (apply Hall; left; reflexivity).
    assert (Hrest : RampAnalyzer.qualifying_angles ls = [])
      by (apply IH; intros l' Hin; apply Hall; right; exact Hin).
    destruct (line_angle_axis_aligned l Hl) as [-> | ->]; [exact Hrest|].
    destruct (Rlt_dec 10 0) as [Hlt | _]; [lra | exact Hrest]. }
  unfold RampAnalyzer.assess_slope. rewrite Hq.
  destruct ls; reflexivity.
Qed.

Lemma qualifying_angles_perm (ls ls' : list segment) :
  Permutation ls ls' ->
  Permutation (RampAnalyzer.qualifying_angles ls) (RampAnalyzer.qualifying_angles ls').
Proof.
  induction 1 as [|x l l' _ IH|x y l|l l' l'' _ IH1 _ IH2]; simpl.
  - apply perm_nil.
  - destruct (RampAnalyzer.line_angle x) as [a|]; [|exact IH].
    destruct (Rlt_dec 10 a); [|exact IH].
    destruct (Rlt_dec a 80); [apply perm_skip; exact IH | exact IH].
  - destruct (RampAnalyzer.line_angle y) as [b|],
             (RampAnalyzer.line_angle x) as [a|];
      repeat match goal with
             | |- context [Rlt_dec ?u ?v] => destruct (Rlt_dec u v)
             end;
      try apply Permutation_refl.
    apply perm_swap.
  - exact (Permutation_trans IH1 IH2).
Qed.

Lemma max_angle_perm (a b : R) (l l' : list R) :
  Permutation (a :: l) (b :: l') ->
  RampAnalyzer.max_angle a l = RampAnalyzer.max_angle b l'.
Proof.
  intro Hp. apply Rle_antisym.
  - apply (@max_angle_ge l' b). apply (Permutation_in _ Hp).
    apply (@max_angle_in l a).
  - apply (@max_angle_ge l a). apply (Permutation_in _ (Permutation_sym Hp)).
    apply (@max_angle_in l' b).
Qed.

(** X17.  The slope verdict of the ramp analyzer does not depend on the order
    in which the line detector returns the segments. *)
Theorem ramp_slope_order_independent (ls ls' : list segment) :
  Permutation ls ls' ->
  RampAnalyzer.assess_slope E (Some ls) = RampAnalyzer.assess_slope E (Some ls').
Proof.
  intro Hp. pose proof (qualifying_angles_perm ls ls' Hp) as Hq.
  destruct ls as [|l ls], ls' as [|l' ls'].
  - reflexivity.
  - apply Permutation_nil_cons in Hp. destruct Hp.
  - apply Permutation_sym, Permutation_nil_cons in Hp. destruct Hp.
  - unfold RampAnalyzer.assess_slope.
    destruct (RampAnalyzer.qualifying_angles (l :: ls)) as [|a angles],
             (RampAnalyzer.qualifying_angles (l' :: ls')) as [|b angles'].
    + reflexivity.
    + apply Permutation_nil_cons in Hq. destruct Hq.
    + apply Permutation_sym, Permutation_nil_cons in Hq. destruct Hq.
    + rewrite (max_angle_perm a b angles angles' Hq). reflexivity.
Qed.

End RampExtra.


Lemma ramp_axis_aligned_lines_ignored_witness :
  RampAnalyzer.assess_slope test_env (Some [(0, 5, 40, 5); (7, 0, 7, 30)]%Z) = None.
Proof.
  apply (ramp_axis_aligned_lines_ignored test_env).
  intros l [<- | [<- | []]]; simpl; [right | left]; reflexivity.
Defined.

Lemma ramp_slope_order_independent_witness :
  RampAnalyzer.assess_slope test_env (Some [(0, 0, 10, 10); (0, 0, 10, 3)]%Z)
  = RampAnalyzer.assess_slope test_env (Some [(0, 0, 10, 3); (0, 0, 10, 10)]%Z).
Proof.
  apply (ramp_slope_order_independent test_env). apply perm_swap.
Defined.

(* ================================================================== *)
(** * 39. Signage checks *)
(* ================================================================== *)

Lemma elems_in {A : Type} (a : ndarray A) (v : A) :
  In v (elems a)
  <-> exists y x, (y < shape0 a)%nat /\ (x < shape1 a)%nat /\ v = at_ a y x.
Proof.
  unfold elems, row_elems. rewrite in_flat_map. split.
  - intros [y [Hy Hin]]. apply in_map_iff in Hin. destruct Hin as [x [<- Hx]].
    apply in_seq in Hy. apply in_seq in Hx.
    exists y, x. repeat split; lia.
  - intros [y [x [Hy [Hx ->]]]]. exists y. split; [apply in_seq; lia|].
    apply in_map_iff. exists x. split; [reflexivity | apply in_seq; lia].
Qed.

Lemma fold_left_Zmax_in (l : list Z) : forall v, In (fold_left Z.max l v) (v :: l).
Proof.
  induction l as [|b l IH]; intro v; simpl; [left; reflexivity|].
  destruct (IH (Z.max v b)) as [H | H]; [|right; right; exact H].
  rewrite <- H. destruct (Z.max_spec v b) as [[_ ->] | [_ ->]]; auto.
Qed.

Lemma fold_left_Zmin_in (l : list Z) : forall v, In (fold_left Z.min l v) (v :: l).
Proof.
  induction l as [|b l IH]; intro v; simpl; [left; reflexivity|].
  destruct (IH (Z.min v b)) as [H | H]; [|right; right; exact H].
  rewrite <- H. destruct (Z.min_spec v b) as [[_ ->] | [_ ->]]; auto.
Qed.

Lemma np_max_Z_in (l : list Z) (M : Z) : np_max_Z l = Ok M -> In M l.
Proof.
  destruct l as [|v l]; simpl; [discriminate|].
  intro H. inversion H. apply fold_left_Zmax_in.
Qed.

Lemma np_min_Z_in (l : list Z) (m : Z) : np_min_Z l = Ok m -> In m l.
Proof.
  destruct l as [|v l]; simpl; [discriminate|].
  intro H. inversion H. apply fold_left_Zmin_in.
Qed.

Lemma fold_left_Qmax_ge (l : list Q) :
  forall q x, In x (q :: l) -> (x <= fold_left Qmax l q)%Q.
Proof.
  induction l as [|b l IH]; intros q x Hin; simpl.
  - destruct Hin as [<- | []]. apply Qle_refl.
  - destruct Hin as [<- | [<- | Hin]].
    + apply Qle_trans with (y := Qmax q b); [apply Q.le_max_l|].
      apply IH. left. reflexivity.
    + apply Qle_trans with (y := Qmax q b); [apply Q.le_max_r|].
      apply IH. left. reflexivity.
    + apply IH. right. exact Hin.
Qed.

Lemma fold_left_Qmax_lt (l : list Q) (bound : Q) :
  forall q, (forall x, In x (q :: l) -> (x < bound)%Q) ->
            (fold_left Qmax l q < bound)%Q.
Proof.
  induction l as [|b l IH]; intros q Hall; simpl.
  - apply Hall. left. reflexivity.
  - apply IH. intros x [<- | Hin].
    + apply Q.max_lub_lt; apply Hall; [left | right; left]; reflexivity.
    + apply Hall. right. right. exact Hin.
Qed.

Lemma sum_below (l : list Q) (bound : Q) :
  (forall x, In x l -> (x < bound)%Q) ->
  (fold_right Qplus 0 l <= bound * inject_Z (Z.of_nat (List.length l)))%Q.
Proof.
  induction l as [|q l IH]; intro Hall.
  - simpl. rewrite Qmult_0_r. apply Qle_refl.
  - change (fold_right Qplus 0 (q :: l)) with (q + fold_right Qplus 0 l)%Q.
    change (List.length (q :: l)) with (S (List.length l)).
    rewrite Nat2Z.inj_succ. unfold Z.succ. rewrite inject_Z_plus.
    assert (Hq : (q < bound)%Q) by (apply Hall; left; reflexivity).
    assert (Hl : (fold_right Qplus 0 l
                  <= bound * inject_Z (Z.of_nat (List.length l)))%Q)
      by (apply IH; intros x Hin; apply Hall; right; exact Hin).
    change (inject_Z 1) with 1%Q.
    set (n := inject_Z (Z.of_nat (List.length l))) in *.
    set (s := fold_right Qplus 0 l) in *. clearbody n s.
    setoid_replace (bound * (n + 1))%Q with (bound * n + bound)%Q by ring.
    apply Qle_trans with (y := (bound + s)%Q).
    + apply Qplus_le_l. apply Qlt_le_weak. exact Hq.
    + rewrite (Qplus_comm bound s). apply Qplus_le_l. exact Hl.
Qed.

Lemma np_mean_below (l : list Q) (bound : Q) :
  l <> [] -> (forall x, In x l -> (x < bound)%Q) -> (np_mean l < bound)%Q.
Proof.
  intros Hne Hall. destruct l as [|q l]; [contradiction|].
  unfold np_mean.
  assert (Hpos : (0 < inject_Z (Z.of_nat (List.length (q :: l))))%Q).
  { change 0%Q with (inject_Z 0). rewrite <- Zlt_Qlt. simpl List.length. lia. }
  apply Qlt_shift_div_r; [exact Hpos|].
  change (fold_right Qplus 0 (q :: l)) with (q + fold_right Qplus 0 l)%Q.
  change (List.length (q :: l)) with (S (List.length l)).
  rewrite Nat2Z.inj_succ. unfold Z.succ. rewrite inject_Z_plus.
  change (inject_Z 1) with 1%Q.
  assert (Hq : (q < bound)%Q) by (apply Hall; left; reflexivity).
  assert (Hl : (fold_right Qplus 0 l
                <= bound * inject_Z (Z.of_nat (List.length l)))%Q)
    by (apply sum_below; intros x Hin; apply Hall; right; exact Hin).
  set (n := inject_Z (Z.of_nat (List.length l))) in *.
  set (s := fold_right Qplus 0 l) in *. clearbody n s.
  setoid_replace (bound * (n + 1))%Q with (bound + bound * n)%Q by ring.
  apply Qplus_lt_le_compat; assumption.
Qed.

Lemma py_range_length (n : nat) :
  List.length (SignageAnalyzer.py_range
                 (Z.of_nat n - Z.of_nat SignageAnalyzer.patch_size)
                 SignageAnalyzer.patch_size)
  = ((n - 1) / 20)%nat.
Proof.
  unfold SignageAnalyzer.py_range, SignageAnalyzer.patch_size.
  rewrite length_map, length_seq.
  destruct n as [|n]; [reflexivity|].
  rewrite <- (Nat2Z.id ((S n - 1) / 20)). f_equal.
  rewrite Nat2Z.inj_div. f_equal. lia.
Qed.

Lemma flat_map_const_length {A B : Type} (f : A -> list B) (l : list A) (k : nat) :
  (forall a, List.length (f a) = k) ->
  List.length (flat_map f l) = (List.length l * k)%nat.
Proof.
  intro Hf. induction l as [|a l IH]; simpl; [reflexivity|].
  rewrite List.length_app, Hf, IH. reflexivity.
Qed.

Lemma Qlt_div_iff (a b c : Q) :
  (0 < c)%Q -> ((a / c < b)%Q <-> (a < b * c)%Q).
Proof.
  intro Hc. split.
  - intro H. destruct (Qlt_le_dec a (b * c)) as [Hlt | Hge]; [exact Hlt|].
    apply Qle_shift_div_l in Hge; [|exact Hc].
    exfalso. apply (Qlt_not_le _ _ H Hge).
  - apply Qlt_shift_div_r. exact Hc.
Qed.

Section SignageExtra.
Variable E : Env.
Local Open Scope string_scope.

Lemma texture_scores_length (g : gray) (height width : nat) :
  List.length (SignageAnalyzer.texture_scores_of E g height width)
  = ((height - 1) / 20 * ((width - 1) / 20))%nat.
Proof.
  unfold SignageAnalyzer.texture_scores_of.
  rewrite (flat_map_const_length _ _ ((width - 1) / 20)).
  - rewrite py_range_length. reflexivity.
  - intro y. rewrite length_map. apply py_range_length.
Qed.

(** The contrast ratio of the signage analyzer, as a condition on the
    largest and smallest luminance [M] and [m] (0 to 255) of the
    region: nothing is reported exactly when [2 M >= 6 m + 51]; the
    finding is Critical with confidence 0.70 when [8 M < 20 m + 153],
    Moderate with confidence 0.65 in between; it records both
    luminances. *)
Lemma contrast_decision (im lab : image) (h w : nat) (M m : Z) :
  cvtColor_BGR2LAB E im = Ok lab ->
  np_max_Z (elems (channel0 lab)) = Ok M ->
  np_min_Z (elems (channel0 lab)) = Ok m ->
  (0 <= m)%Z ->
  ((6 * m + 51 <= 2 * M)%Z ->
   SignageAnalyzer._check_contrast E im h w = Ok None)
  /\ ((8 * M < 20 * m + 153)%Z ->
      exists v, SignageAnalyzer._check_contrast E im h w = Ok (Some v)
                /\ v_type v = "Sign Contrast" /\ v_severity v = "Critical"
                /\ (v_confidence v == 0.70)%Q
                /\ In ("max_luminance", MInt M) (v_measurements v)
                /\ In ("min_luminance", MInt m) (v_measurements v))
  /\ ((20 * m + 153 <= 8 * M)%Z -> (2 * M < 6 * m + 51)%Z ->
      exists v, SignageAnalyzer._check_contrast E im h w = Ok (Some v)
                /\ v_type v = "Sign Contrast" /\ v_severity v = "Moderate"
                /\ (v_confidence v == 0.65)%Q
                /\ In ("max_luminance", MInt M) (v_measurements v)
                /\ In ("min_luminance", MInt m) (v_measurements v)).
Proof.
  intros Hlab Hmax Hmin Hm.
  unfold SignageAnalyzer._check_contrast.
  rewrite Hlab. cbn [exc_bind]. rewrite Hmax. cbn [exc_bind].
  rewrite Hmin. cbn [exc_bind].
  set (ratio := ((inject_Z M / 255.0 + 0.05) / (inject_Z m / 255.0 + 0.05))%Q).
  assert (Hinv : forall q : Q, (q / 255.0 == q * (1 # 255))%Q).
  { intro q. unfold Qdiv. apply Qmult_comp; [reflexivity|].
    vm_compute. reflexivity. }
  assert (Hq0 : (0 <= inject_Z m)%Q)
    by (change 0%Q with (inject_Z 0); rewrite <- Zle_Qle; exact Hm).
  assert (Hden : (0 < inject_Z m / 255.0 + 0.05)%Q).
  { rewrite Hinv. set (qm := inject_Z m) in *. clearbody qm. lra. }
  assert (Hcrit : (ratio < 2.5)%Q <-> (8 * M < 20 * m + 153)%Z).
  { unfold ratio. split.
    - intro H. apply Qlt_div_iff in H; [|exact Hden].
      rewrite !Hinv in H. rewrite Zlt_Qlt.
      rewrite inject_Z_plus, !inject_Z_mult.
      change (inject_Z 8) with 8%Q. change (inject_Z 20) with 20%Q.
      change (inject_Z 153) with 153%Q.
      set (qm := inject_Z m) in *. set (qM := inject_Z M) in *.
      clearbody qm qM. lra.
    - intro H. apply Qlt_shift_div_r; [exact Hden|].
      rewrite !Hinv. rewrite Zlt_Qlt in H.
      rewrite inject_Z_plus, !inject_Z_mult in H.
      change (inject_Z 8) with 8%Q in H. change (inject_Z 20) with 20%Q in H.
      change (inject_Z 153) with 153%Q in H.
      set (qm := inject_Z m) in *. set (qM := inject_Z M) in *.
      clearbody qm qM. lra. }
  assert (Hmod : (ratio < 3.0)%Q <-> (2 * M < 6 * m + 51)%Z).
  { unfold ratio. split.
    - intro H. apply Qlt_div_iff in H; [|exact Hden].
      rewrite !Hinv in H. rewrite Zlt_Qlt.
      rewrite inject_Z_plus, !inject_Z_mult.
      change (inject_Z 2) with 2%Q. change (inject_Z 6) with 6%Q.
      change (inject_Z 51) with 51%Q.
      set (qm := inject_Z m) in *. set (qM := inject_Z M) in *.
      clearbody qm qM. lra.
    - intro H. apply Qlt_shift_div_r; [exact Hden|].
      rewrite !Hinv. rewrite Zlt_Qlt in H.
      rewrite inject_Z_plus, !inject_Z_mult in H.
      change (inject_Z 2) with 2%Q in H. change (inject_Z 6) with 6%Q in H.
      change (inject_Z 51) with 51%Q in H.
      set (qm := inject_Z m) in *. set (qM := inject_Z M) in *.
      clearbody qm qM. lra. }
  unfold SignageAnalyzer.low_contrast_ratio, SignageAnalyzer.min_contrast_ratio.
  split; [|split].
  - intro Hok.
    assert (H1 : Qltb ratio 2.5 = false).
    { apply Bool.not_true_is_false. intro H. apply Qltb_lt, Hcrit in H. lia. }
    assert (H2 : Qltb ratio 3.0 = false).
    { apply Bool.not_true_is_false. intro H. apply Qltb_lt, Hmod in H. lia. }
    rewrite H1, H2. reflexivity.
  - intro Hc.
    assert (H1 : Qltb ratio 2.5 = true) by (apply Qltb_lt, Hcrit; exact Hc).
    rewrite H1. eexists. split; [reflexivity|].
    unfold SignageAnalyzer.contrast_violation.
    cbn [v_type v_severity v_confidence v_measurements].
    repeat (split; [reflexivity|]).
    split; [right; right; left; reflexivity
           | right; right; right; left; reflexivity].
  - intros Hge Hlt.
    assert (H1 : Qltb ratio 2.5 = false).
    { apply Bool.not_true_is_false. intro H. apply Qltb_lt, Hcrit in H. lia. }
    assert (H2 : Qltb ratio 3.0 = true) by (apply Qltb_lt, Hmod; exact Hlt).
    rewrite H1, H2. eexists. split; [reflexivity|].
    unfold SignageAnalyzer.contrast_violation.
    cbn [v_type v_severity v_confidence v_measurements].
    repeat (split; [reflexivity|]).
    split; [right; right; left; reflexivity
           | right; right; right; left; reflexivity].
Qed.

(** X18.  The contrast check of the signage analyzer decides on the largest
    and the smallest luminance [M] and [m] of the region alone: it
    reports nothing when [2 M >= 6 m + 51], a Critical finding with
    confidence 0.70 when [8 M < 20 m + 153], and a Moderate one with
    confidence 0.65 in between; the finding records both luminances. *)
Theorem signage_contrast_thresholds (im lab : image) (h w : nat) (M m : Z) :
  cvtColor_BGR2LAB E im = Ok lab ->
  np_max_Z (elems (channel0 lab)) = Ok M ->
  np_min_Z (elems (channel0 lab)) = Ok m ->
  (0 <= m)%Z ->
  ((6 * m + 51 <= 2 * M)%Z ->
   SignageAnalyzer._check_contrast E im h w = Ok None)
  /\ ((8 * M < 20 * m + 153)%Z ->
      exists v, SignageAnalyzer._check_contrast E im h w = Ok (Some v)
                /\ v_type v = "Sign Contrast" /\ v_severity v = "Critical"
                /\ (v_confidence v == 0.70)%Q
                /\ In ("max_luminance", MInt M) (v_measurements v)
                /\ In ("min_luminance", MInt m) (v_measurements v))
  /\ ((20 * m + 153 <= 8 * M)%Z -> (2 * M < 6 * m + 51)%Z ->
      exists v, SignageAnalyzer._check_contrast E im h w = Ok (Some v)
                /\ v_type v = "Sign Contrast" /\ v_severity v = "Moderate"
                /\ (v_confidence v == 0.65)%Q
                /\ In ("max_luminance", MInt M) (v_measurements v)
                /\ In ("min_luminance", MInt m) (v_measurements v)).
Proof. exact (contrast_decision im lab h w M m). Qed.

(** X19.  A region whose darkest pixel has a luminance of 77 or more always
    gets a "Sign Contrast" finding, however light its lightest pixel:
    with luminances up to 255 the ratio cannot reach 3. *)
Theorem signage_light_region_always_flagged (im lab : image) (h w : nat) :
  cvtColor_BGR2LAB E im = Ok lab ->
  (0 < shape0 lab)%nat -> (0 < shape1 lab)%nat ->
  (forall y x, (y < shape0 lab)%nat -> (x < shape1 lab)%nat ->
               (77 <= fst (fst (at_ lab y x)) <= 255)%Z) ->
  exists v, SignageAnalyzer._check_contrast E im h w = Ok (Some v)
            /\ v_type v = "Sign Contrast".
Proof.
  intros Hlab Hrows Hcols Hpix.
  assert (Hbound : forall v, In v (elems (channel0 lab)) -> (77 <= v <= 255)%Z).
  { intros v Hin. apply elems_in in Hin. destruct Hin as [y [x [Hy [Hx ->]]]].
    simpl. apply Hpix; assumption. }
  assert (Hne : elems (channel0 lab) <> []).
  { intro Hnil. pose proof (elems_length (channel0 lab)) as Hlen.
    rewrite Hnil in Hlen. simpl in Hlen. nia. }
  destruct (np_max_Z (elems (channel0 lab))) as [M|e] eqn:Hmax;
    [|destruct (elems (channel0 lab)); [contradiction | discriminate Hmax]].
  destruct (np_min_Z (elems (channel0 lab))) as [m|e] eqn:Hmin;
    [|destruct (elems (channel0 lab)); [contradiction | discriminate Hmin]].
  pose proof (Hbound M (np_max_Z_in _ _ Hmax)) as HM.
  pose proof (Hbound m (np_min_Z_in _ _ Hmin)) as Hm.
  assert (Hm0 : (0 <= m)%Z) by lia.
  destruct (contrast_decision im lab h w M m Hlab Hmax Hmin Hm0)
    as [_ [Hcrit Hmod]].
  destruct (Z_lt_le_dec (8 * M) (20 * m + 153)) as [Hc | Hc].
  - destruct (Hcrit Hc) as [v [Hv [Hty _]]]. exists v. split; assumption.
  - assert (Hlt : (2 * M < 6 * m + 51)%Z) by lia.
    destruct (Hmod Hc Hlt) as [v [Hv [Hty _]]]. exists v. split; assumption.
Qed.

(** X20.  The tactile check of the signage analyzer looks at
    [(height - 1) / 20] rows of [(width - 1) / 20] patches (integer
    division); a region of height or width 20 or less has no patch and
    gets no "Tactile Features" finding. *)
Theorem signage_tactile_patches (im : image) (gray_im : gray)
    (height width : nat) :
  cvtColor_BGR2GRAY E im = Ok gray_im ->
  List.length (SignageAnalyzer.texture_scores_of E gray_im height width)
  = ((height - 1) / 20 * ((width - 1) / 20))%nat
  /\ ((height <= 20)%nat \/ (width <= 20)%nat ->
      SignageAnalyzer._check_tactile_features E im height width = Ok None).
Proof.
  intro Hgray. split; [apply texture_scores_length|].
  intro Hsmall. unfold SignageAnalyzer._check_tactile_features.
  rewrite Hgray. cbn [exc_bind].
  rewrite texture_scores_length.
  assert (Hz : ((height - 1) / 20 * ((width - 1) / 20) = 0)%nat).
  { destruct Hsmall as [H | H].
    - rewrite (Nat.div_small (height - 1) 20) by lia. reflexivity.
    - rewrite (Nat.div_small (width - 1) 20) by lia. lia. }
  rewrite Hz. reflexivity.
Qed.

(** X21.  The tactile check flags a region only when it is smooth everywhere:
    one patch with a standard deviation of 25 or more suppresses the
    finding, and when every patch is below 15 (and there is a patch) the
    Minor "Tactile Features" finding is reported with confidence
    0.55. *)
Theorem signage_tactile_decision (im : image) (gray_im : gray)
    (height width : nat) :
  cvtColor_BGR2GRAY E im = Ok gray_im ->
  ((exists s, In s (SignageAnalyzer.texture_scores_of E gray_im height width)
              /\ (25 <= s)%Q) ->
   SignageAnalyzer._check_tactile_features E im height width = Ok None)
  /\ (SignageAnalyzer.texture_scores_of E gray_im height width <> [] ->
      (forall s, In s (SignageAnalyzer.texture_scores_of E gray_im height width) ->
                 (s < 15)%Q) ->
      exists v,
        SignageAnalyzer._check_tactile_features E im height width = Ok (Some v)
        /\ v_type v = "Tactile Features" /\ v_severity v = "Minor"
        /\ v_ada_code v = "703.2" /\ (v_confidence v == 0.55)%Q).
Proof.
  intro Hgray. unfold SignageAnalyzer._check_tactile_features.
  rewrite Hgray. cbn [exc_bind].
  set (scores := SignageAnalyzer.texture_scores_of E gray_im height width).
  split.
  - intros [s [Hin Hs]].
    destruct scores as [|q l] eqn:Hsc; [destruct Hin|].
    cbn [List.length Nat.eqb].
    assert (Hmax : Qltb (np_max (q :: l)) 25.0 = false).
    { apply Qltb_ge. apply Qle_trans with (y := s).
      - assert (H25 : (25.0 == 25)%Q) by (vm_compute; reflexivity).
        rewrite H25. exact Hs.
      - unfold np_max. apply fold_left_Qmax_ge. exact Hin. }
    rewrite Hmax, andb_false_r. reflexivity.
  - intros Hne Hall.
    destruct scores as [|q l] eqn:Hsc; [contradiction|].
    cbn [List.length Nat.eqb].
    assert (Havg : Qltb (np_mean (q :: l)) SignageAnalyzer.min_texture_stddev = true).
    { apply Qltb_lt. unfold SignageAnalyzer.min_texture_stddev.
      apply np_mean_below; [discriminate|].
      intros x Hx.
      assert (H15 : (15.0 == 15)%Q) by (vm_compute; reflexivity).
      rewrite H15. apply Hall. exact Hx. }
    assert (Hmax : Qltb (np_max (q :: l)) 25.0 = true).
    { apply Qltb_lt. unfold np_max. apply fold_left_Qmax_lt.
      intros x Hx. apply Qlt_trans with (y := 15%Q); [apply Hall; exact Hx|].
      reflexivity. }
    rewrite Havg, Hmax. cbn [andb].
    eexists. split; [reflexivity|].
    cbn [v_type v_severity v_ada_code v_confidence].
    repeat split; reflexivity.
Qed.

End SignageExtra.

Lemma signage_contrast_thresholds_witness :
  ((6 * 128 + 51 <= 2 * 128)%Z ->
   SignageAnalyzer._check_contrast test_env (uniform_image 2 2 mid_gray) 2 2
   = Ok None)
  /\ ((8 * 128 < 20 * 128 + 153)%Z ->
      exists v, SignageAnalyzer._check_contrast test_env
                  (uniform_image 2 2 mid_gray) 2 2 = Ok (Some v)
                /\ v_type v = "Sign Contrast"%string
                /\ v_severity v = "Critical"%string
                /\ (v_confidence v == 0.70)%Q
                /\ In ("max_luminance"%string, MInt 128) (v_measurements v)
                /\ In ("min_luminance"%string, MInt 128) (v_measurements v))
  /\ ((20 * 128 + 153 <= 8 * 128)%Z -> (2 * 128 < 6 * 128 + 51)%Z ->
      exists v, SignageAnalyzer._check_contrast test_env
                  (uniform_image 2 2 mid_gray) 2 2 = Ok (Some v)
                /\ v_type v = "Sign Contrast"%string
                /\ v_severity v = "Moderate"%string
                /\ (v_confidence v == 0.65)%Q
                /\ In ("max_luminance"%string, MInt 128) (v_measurements v)
                /\ In ("min_luminance"%string, MInt 128) (v_measurements v)).
Proof.
  apply (signage_contrast_thresholds test_env (uniform_image 2 2 mid_gray)
           (uniform_image 2 2 mid_gray) 2 2 128 128).
  - reflexivity.
  - reflexivity.
  - reflexivity.
  - lia.
Defined.

Lemma signage_light_region_witness :
  exists v, SignageAnalyzer._check_contrast test_env
              (uniform_image 2 2 mid_gray) 2 2 = Ok (Some v)
            /\ v_type v = "Sign Contrast"%string.
Proof.
  apply (signage_light_region_always_flagged test_env
           (uniform_image 2 2 mid_gray) (uniform_image 2 2 mid_gray) 2 2).
  - reflexivity.
  - simpl. lia.
  - simpl. lia.
  - intros y x _ _. simpl. lia.
Defined.

Lemma signage_tactile_patches_witness :
  List.length (SignageAnalyzer.texture_scores_of test_env
                 (channel0 (uniform_image 20 50 mid_gray)) 20 50)
  = ((20 - 1) / 20 * ((50 - 1) / 20))%nat
  /\ ((20 <= 20)%nat \/ (50 <= 20)%nat ->
      SignageAnalyzer._check_tactile_features test_env
        (uniform_image 20 50 mid_gray) 20 50 = Ok None).
Proof.
  apply (signage_tactile_patches test_env (uniform_image 20 50 mid_gray)
           (channel0 (uniform_image 20 50 mid_gray)) 20 50).
  reflexivity.
Defined.

Lemma signage_tactile_decision_witness :
  ((exists s, In s (SignageAnalyzer.texture_scores_of test_env
                      (channel0 (uniform_image 50 50 mid_gray)) 50 50)
              /\ (25 <= s)%Q) ->
   SignageAnalyzer._check_tactile_features test_env
     (uniform_image 50 50 mid_gray) 50 50 = Ok None)
  /\ (SignageAnalyzer.texture_scores_of test_env
        (channel0 (uniform_image 50 50 mid_gray)) 50 50 <> [] ->
      (forall s, In s (SignageAnalyzer.texture_scores_of test_env
                         (channel0 (uniform_image 50 50 mid_gray)) 50 50) ->
                 (s < 15)%Q) ->
      exists v,
        SignageAnalyzer._check_tactile_features test_env
          (uniform_image 50 50 mid_gray) 50 50 = Ok (Some v)
        /\ v_type v = "Tactile Features"%string
        /\ v_severity v = "Minor"%string
        /\ v_ada_code v = "703.2"%string /\ (v_confidence v == 0.55)%Q).
Proof.
  apply (signage_tactile_decision test_env (uniform_image 50 50 mid_gray)
           (channel0 (uniform_image 50 50 mid_gray)) 50 50).
  reflexivity.
Defined.

(* ================================================================== *)
(** * 40. The model-backed analyzer: requests and replies *)
(* ================================================================== *)

Lemma dict_get_lookup (d : list (string * pyobj)) (key : string) (default : pyobj) :
  dict_get d key default
  = match dict_lookup d key with Some v => v | None => default end.
Proof.
  induction d as [|[k v] d IH]; simpl; [reflexivity|].
  destruct (String.eqb k key); [reflexivity | exact IH].
Qed.

Lemma parse_violations_length (l : list pyobj) :
  List.length (ClaudeAPIAnalyzer.parse_violations l)
  = List.length (filter is_dict l).
Proof.
  induction l as [|x l IH]; simpl; [reflexivity|].
  destruct x; simpl; rewrite ?IH; reflexivity.
Qed.

Lemma parse_violations_nth (l : list pyobj) :
  forall (i : nat) (e : list (string * pyobj)),
    nth_error (filter is_dict l) i = Some (PyDict e) ->
    nth_error (ClaudeAPIAnalyzer.parse_violations l) i
    = ClaudeAPIAnalyzer.parse_violation (PyDict e).
Proof.
  induction l as [|x l IH]; intros i e Hnth.
  - destruct i; discriminate Hnth.
  - destruct x; simpl in Hnth |- *; try (apply IH; exact Hnth).
    destruct i as [|i]; simpl in Hnth |- *.
    + inversion Hnth. reflexivity.
    + apply IH. exact Hnth.
Qed.

Section ClaudeExtra.
Variable Rm : Remote.
Local Open Scope string_scope.

(** X22.  What the model-backed analyzer does when the request goes wrong, on
    a non-empty region and outside mock mode: a failed JPEG encoding
    raises [ValueError]; an error of the API call is swallowed and gives
    no findings; so does a reply that cannot be parsed as JSON, neither
    as a whole nor after the extraction. *)
Theorem claude_request_failures (im : image) (d : DetectionResult) :
  image_size (get_crop d im) <> 0%nat ->
  (forall buf,
      imencode_jpg Rm (get_crop d im) = Ok (false, buf) ->
      ClaudeAPIAnalyzer.analyze_detection Rm false im d
      = Raise "ValueError: Failed to encode image")
  /\ (forall buf e,
         imencode_jpg Rm (get_crop d im) = Ok (true, buf) ->
         messages_create Rm (b64encode Rm buf) (request_text Rm (class_name d))
         = Raise e ->
         ClaudeAPIAnalyzer.analyze_detection Rm false im d = Ok [])
  /\ (forall buf text,
         imencode_jpg Rm (get_crop d im) = Ok (true, buf) ->
         messages_create Rm (b64encode Rm buf) (request_text Rm (class_name d))
         = Ok text ->
         json_loads Rm text = None ->
         json_loads Rm (ClaudeAPIAnalyzer.json_candidate text) = None ->
         ClaudeAPIAnalyzer.analyze_detection Rm false im d = Ok []).
Proof.
  intro Hne. apply Nat.eqb_neq in Hne.
  unfold ClaudeAPIAnalyzer.analyze_detection. rewrite Hne.
  unfold ClaudeAPIAnalyzer._claude_analyze, ClaudeAPIAnalyzer._encode_image.
  unfold request_text.
  split; [|split].
  - intros buf Henc. rewrite Henc. reflexivity.
  - intros buf e Henc Hcall. rewrite Henc. cbn [exc_bind negb].
    rewrite Hcall. reflexivity.
  - intros buf text Henc Hcall H1 H2. rewrite Henc. cbn [exc_bind negb].
    rewrite Hcall. cbn [exc_bind].
    unfold ClaudeAPIAnalyzer._extract_json. rewrite H1, H2. reflexivity.
Qed.

(** X23.  What the model-backed analyzer does with a reply that is valid
    JSON, on a non-empty region and outside mock mode: a reply that is
    not an object raises (nothing catches the missing [get]); an
    object without a "violations" key gives no findings; an object whose
    "violations" is a list gives one record for every entry of the list
    that is an object, the other entries being dropped. *)
Theorem claude_reply_shapes (im : image) (d : DetectionResult)
    (buf text : string) (obj : pyobj) :
  image_size (get_crop d im) <> 0%nat ->
  imencode_jpg Rm (get_crop d im) = Ok (true, buf) ->
  messages_create Rm (b64encode Rm buf) (request_text Rm (class_name d))
  = Ok text ->
  json_loads Rm text = Some obj ->
  (is_dict obj = false ->
   raises (ClaudeAPIAnalyzer.analyze_detection Rm false im d) = true)
  /\ (forall e,
         obj = PyDict e -> dict_lookup e "violations" = None ->
         ClaudeAPIAnalyzer.analyze_detection Rm false im d = Ok [])
  /\ (forall e l,
         obj = PyDict e -> dict_lookup e "violations" = Some (PyList l) ->
         exists rs,
           ClaudeAPIAnalyzer.analyze_detection Rm false im d = Ok rs
           /\ List.length rs = List.length (filter is_dict l)).
Proof.
  intros Hne Henc Hcall Hjson. apply Nat.eqb_neq in Hne.
  unfold ClaudeAPIAnalyzer.analyze_detection. rewrite Hne.
  unfold ClaudeAPIAnalyzer._claude_analyze, ClaudeAPIAnalyzer._encode_image.
  unfold request_text in Hcall.
  rewrite Henc. cbn [exc_bind negb]. rewrite Hcall. cbn [exc_bind].
  unfold ClaudeAPIAnalyzer._extract_json. rewrite Hjson.
  split; [|split].
  - intro Hnd. destruct obj; try reflexivity. discriminate Hnd.
  - intros e -> Hmiss. unfold ClaudeAPIAnalyzer._parse_response.
    rewrite dict_get_lookup, Hmiss. reflexivity.
  - intros e l -> Hl. unfold ClaudeAPIAnalyzer._parse_response.
    rewrite dict_get_lookup, Hl. eexists. split; [reflexivity|].
    apply parse_violations_length.
Qed.

(** X24.  The records built from a reply follow its entries in order: the
    i-th record comes from the i-th entry that is an object, and holds
    that entry's values, a missing key giving "Unknown", "Minor", "N/A",
    an empty text or 0.5; the analyzer marks each "claude_api" and
    attaches no measurements.  An entry that is a number, a string or a
    list is skipped. *)
Theorem claude_records_follow_entries
    (resp : list (string * pyobj)) (l : list pyobj) (object_name : string) :
  dict_lookup resp "violations" = Some (PyList l) ->
  exists rs,
    ClaudeAPIAnalyzer._parse_response (PyDict resp) object_name = Ok rs
    /\ List.length rs = List.length (filter is_dict l)
    /\ forall i e,
         nth_error (filter is_dict l) i = Some (PyDict e) ->
         exists r,
           nth_error rs i = Some r
           /\ type r = dict_get e "type" (PyStr "Unknown")
           /\ severity r = dict_get e "severity" (PyStr "Minor")
           /\ ada_code r = dict_get e "ada_code" (PyStr "N/A")
           /\ description r = dict_get e "description" (PyStr EmptyString)
           /\ recommendation r = dict_get e "recommendation" (PyStr EmptyString)
           /\ confidence r = dict_get e "confidence" (PyFloat 0.5)
           /\ detection_method r = "claude_api"
           /\ measurements r = [].
Proof.
  intro Hl. unfold ClaudeAPIAnalyzer._parse_response.
  rewrite dict_get_lookup, Hl.
  eexists. split; [reflexivity|]. split; [apply parse_violations_length|].
  intros i e Hnth. rewrite (parse_violations_nth l i e Hnth).
  eexists. split; [reflexivity|]. repeat split.
Qed.

End ClaudeExtra.

Lemma claude_request_failures_witness :
  ClaudeAPIAnalyzer.analyze_detection offline_remote false
    (uniform_image 4 4 mid_gray) (detection_of "door"%string (0, 0, 4, 4)%Z)
  = Ok [].
Proof.
  refine (proj1 (proj2 (claude_request_failures offline_remote
                          (uniform_image 4 4 mid_gray)
                          (detection_of "door"%string (0, 0, 4, 4)%Z) _))
            "jpeg"%string "APIConnectionError"%string eq_refl eq_refl).
  vm_compute. discriminate.
Defined.

Lemma claude_reply_shapes_witness :
  raises (ClaudeAPIAnalyzer.analyze_detection
            (canned_remote "[1, 2]"%string "[1, 2]"%string
               (PyList [PyInt 1; PyInt 2]))
            false (uniform_image 4 4 mid_gray)
            (detection_of "door"%string (0, 0, 4, 4)%Z)) = true.
Proof.
  refine (proj1 (claude_reply_shapes
                   (canned_remote "[1, 2]"%string "[1, 2]"%string
                      (PyList [PyInt 1; PyInt 2]))
                   (uniform_image 4 4 mid_gray)
                   (detection_of "door"%string (0, 0, 4, 4)%Z)
                   "jpeg"%string "[1, 2]"%string (PyList [PyInt 1; PyInt 2])
                   _ eq_refl eq_refl eq_refl) eq_refl).
  vm_compute. discriminate.
Defined.

Lemma claude_records_follow_entries_witness :
  exists rs,
    ClaudeAPIAnalyzer._parse_response
      (PyDict [("violations"%string,
                PyList [PyInt 7; PyDict [("type"%string, PyStr "Door Width"%string)]])])
      "door"%string = Ok rs
    /\ List.length rs = 1%nat.
Proof.
  destruct (claude_records_follow_entries
              [("violations"%string,
                PyList [PyInt 7; PyDict [("type"%string, PyStr "Door Width"%string)]])]
              [PyInt 7; PyDict [("type"%string, PyStr "Door Width"%string)]]
              "door"%string eq_refl) as [rs [Hrs [Hlen _]]].
  exists rs. split; [exact Hrs | exact Hlen].
Defined.

(* ================================================================== *)
(** * 41. Extraction of the JSON text *)
(* ================================================================== *)

Section JsonExtraction.
Local Open Scope string_scope.

Lemma find_first_none_last (sub s : string) :
  find_first sub s = None -> find_last sub s = None.
Proof.
  induction s as [|c s IH].
  - destruct sub; simpl; intro H; [discriminate H | reflexivity].
  - unfold find_first. fold find_first. unfold find_last. fold find_last.
    destruct (prefix sub (String c s)); [discriminate|].
    destruct (find_first sub s); [discriminate|].
    intros _. rewrite (IH eq_refl). reflexivity.
Qed.

Lemma find_last_app (sub a b : string) (i : nat) :
  find_last sub b = Some i ->
  find_last sub (a ++ b) = Some (String.length a + i)%nat.
Proof.
  intro Hb. induction a as [|c a IH]; [exact Hb|].
  change ((String c a ++ b)%string) with (String c (a ++ b)%string).
  unfold find_last. fold find_last. rewrite IH. reflexivity.
Qed.

Lemma str_find_none_from (sub s : string) (a : nat) :
  (a <= String.length s)%nat ->
  find_first sub (drop a s) = None ->
  str_find sub s (Z.of_nat a) = (-1)%Z.
Proof.
  intros Ha Hf. unfold str_find.
  destruct (Z.of_nat (String.length s) <? Z.of_nat a)%Z eqn:Hlt;
    [reflexivity|].
  rewrite norm_index_inside by lia. rewrite Nat2Z.id, Hf. reflexivity.
Qed.

Lemma str_slice_to_last (a b : string) (c : ascii) :
  str_slice (a ++ b ++ String c EmptyString)
    (Z.of_nat (String.length a)) (-1) = b.
Proof.
  unfold str_slice. rewrite !length_app.
  change (String.length (String c EmptyString)) with 1%nat.
  rewrite (@norm_index_inside _ (Z.of_nat (String.length a))) by lia.
  unfold norm_index. change (-1 <? 0)%Z with true. cbv iota.
  rewrite Nat2Z.id.
  replace (Z.to_nat
             (Z.max 0 (-1 + Z.of_nat (String.length a + (String.length b + 1)))
              - Z.of_nat (String.length a)))
    with (String.length b) by lia.
  apply substring_app.
Qed.

(** X25.  When the reply opens a [```json] fence and never closes it, the
    text handed to the JSON parser is the rest of the reply without its
    last character (the search for the closing fence gives -1, which the
    slice takes as "up to the last character"), stripped. *)
Theorem unclosed_fence_drops_last_character (pre body : string) (c : ascii) :
  no_occurrence_before ClaudeAPIAnalyzer.fence_json
    (pre ++ ClaudeAPIAnalyzer.fence_json ++ body ++ String c EmptyString)
    (String.length pre) = true ->
  str_contains ClaudeAPIAnalyzer.fence (body ++ String c EmptyString) = false ->
  ClaudeAPIAnalyzer.json_candidate
    (pre ++ ClaudeAPIAnalyzer.fence_json ++ body ++ String c EmptyString)
  = strip body.
Proof.
  intros Hopen Hclose.
  set (rest := (body ++ String c EmptyString)%string) in *.
  set (text := (pre ++ ClaudeAPIAnalyzer.fence_json ++ rest)%string) in *.
  assert (Hfind : find_first ClaudeAPIAnalyzer.fence_json text
                  = Some (String.length pre)).
  { apply find_first_at; [exact Hopen|].
    unfold text. rewrite drop_app. apply prefix_app. }
  assert (Hstart : str_find ClaudeAPIAnalyzer.fence_json text 0
                   = Z.of_nat (String.length pre)).
  { apply (@str_find_from ClaudeAPIAnalyzer.fence_json text 0
             (String.length pre)); [lia|].
    rewrite drop_0. exact Hfind. }
  assert (Htext : text = ((pre ++ ClaudeAPIAnalyzer.fence_json) ++ rest)%string).
  { unfold text. rewrite string_app_assoc. reflexivity. }
  assert (Hlen : String.length (pre ++ ClaudeAPIAnalyzer.fence_json)
                 = (String.length pre + 7)%nat).
  { rewrite length_app. reflexivity. }
  assert (Hend : str_find ClaudeAPIAnalyzer.fence text
                   (Z.of_nat (String.length pre) + 7) = (-1)%Z).
  { replace (Z.of_nat (String.length pre) + 7)%Z
      with (Z.of_nat (String.length pre + 7)) by lia.
    apply str_find_none_from.
    - rewrite Htext, length_app, Hlen. lia.
    - rewrite Htext, <- Hlen, drop_app.
      unfold str_contains in Hclose.
      destruct (find_first ClaudeAPIAnalyzer.fence rest);
        [discriminate Hclose | reflexivity]. }
  unfold ClaudeAPIAnalyzer.json_candidate, str_contains.
  rewrite Hfind, Hstart, Hend. f_equal.
  replace (Z.of_nat (String.length pre) + 7)%Z
    with (Z.of_nat (String.length (pre ++ ClaudeAPIAnalyzer.fence_json))) by lia.
  rewrite Htext. unfold rest. apply str_slice_to_last.
Qed.

Lemma unclosed_fence_witness :
  ClaudeAPIAnalyzer.json_candidate
    ("Result: " ++ ClaudeAPIAnalyzer.fence_json ++ "{}" ++ String "}" EmptyString)
  = strip "{}".
Proof.
  apply (unclosed_fence_drops_last_character "Result: " "{}" "}"%char);
    vm_compute; reflexivity.
Defined.

(** X26.  A reply without a fence that wraps one JSON object in prose: the
    text handed to the JSON parser runs from the first opening brace to
    the last closing brace, both included. *)
Theorem prose_around_object_is_dropped (pre mid post : string) :
  str_contains ClaudeAPIAnalyzer.fence
    (pre ++ ("{" ++ mid ++ "}") ++ post) = false ->
  no_occurrence_before "{" (pre ++ ("{" ++ mid ++ "}") ++ post)
    (String.length pre) = true ->
  str_contains "}" post = false ->
  ClaudeAPIAnalyzer.json_candidate (pre ++ ("{" ++ mid ++ "}") ++ post)
  = ("{" ++ mid ++ "}")%string.
Proof.
  intros Hfence Hopen Hclose.
  set (object := ("{" ++ mid ++ "}")%string) in *.
  set (text := (pre ++ object ++ post)%string) in *.
  rewrite (json_candidate_no_fence text Hfence).
  assert (Hstart : str_find "{" text 0 = Z.of_nat (String.length pre)).
  { apply (@str_find_from "{" text 0 (String.length pre)); [lia|].
    rewrite drop_0. apply find_first_at; [exact Hopen|].
    unfold text, object. rewrite drop_app.
    change (("{" ++ mid ++ "}") ++ post) with ("{" ++ ((mid ++ "}") ++ post)).
    apply prefix_app. }
  assert (Hpost : find_last "}" post = None).
  { apply find_first_none_last. unfold str_contains in Hclose.
    destruct (find_first "}" post); [discriminate Hclose | reflexivity]. }
  assert (Hlast : find_last "}" text
                  = Some (String.length pre + S (String.length mid))%nat).
  { unfold text, object.
    replace (pre ++ ("{" ++ mid ++ "}") ++ post)%string
      with ((pre ++ "{" ++ mid) ++ ("}" ++ post))%string.
    - rewrite (find_last_app "}" (pre ++ "{" ++ mid) ("}" ++ post) 0).
      + rewrite !length_app. simpl String.length. f_equal. lia.
      + simpl. rewrite Hpost. destruct post; reflexivity.
    - rewrite !string_app_assoc. reflexivity. }
  unfold str_rfind. rewrite Hstart, Hlast.
  assert (Hcond : negb (Z.of_nat (String.length pre) =? -1)%Z
                  && negb (Z.of_nat (String.length pre + S (String.length mid)) + 1
                           =? 0)%Z = true).
  { apply andb_true_intro. split; apply negb_true_iff, Z.eqb_neq; lia. }
  rewrite Hcond.
  replace (Z.of_nat (String.length pre + S (String.length mid)) + 1)%Z
    with (Z.of_nat (String.length pre + String.length object)).
  - unfold text. apply str_slice_app.
  - unfold object. rewrite !length_app. simpl String.length. lia.
Qed.

Lemma prose_around_object_witness :
  ClaudeAPIAnalyzer.json_candidate
    ("Sure. " ++ ("{" ++ "1" ++ "}") ++ " Bye")
  = ("{" ++ "1" ++ "}")%string.
Proof.
  apply (prose_around_object_is_dropped "Sure. " "1" " Bye");
    vm_compute; reflexivity.
Defined.

End JsonExtraction.

(* ================================================================== *)
(** * 42. The mock object detector *)
(* ================================================================== *)

Lemma Qlt_div_iff_r (a b c : Q) :
  (0 < c)%Q -> ((b < a / c)%Q <-> (b * c < a)%Q).
Proof.
  intro Hc. split.
  - intro H. destruct (Qlt_le_dec (b * c) a) as [Hlt | Hge]; [exact Hlt|].
    apply Qle_shift_div_r in Hge; [|exact Hc].
    exfalso. apply (Qlt_not_le _ _ H Hge).
  - apply Qlt_shift_div_l. exact Hc.
Qed.

(** Comparisons of the detector, over the integers. *)
Lemma Qltb_times_3_10 (a b : Z) :
  Qltb (inject_Z a * 0.3) (inject_Z b) = true <-> (3 * a < 10 * b)%Z.
Proof.
  rewrite Qltb_lt, Zlt_Qlt, !inject_Z_mult.
  change (inject_Z 3) with 3%Q. change (inject_Z 10) with 10%Q.
  set (qa := inject_Z a). set (qb := inject_Z b). clearbody qa qb.
  split; intro H; lra.
Qed.

Lemma Qltb_lt_times_3_10 (a b : Z) :
  Qltb (inject_Z b) (inject_Z a * 0.3) = true <-> (10 * b < 3 * a)%Z.
Proof.
  rewrite Qltb_lt, Zlt_Qlt, !inject_Z_mult.
  change (inject_Z 3) with 3%Q. change (inject_Z 10) with 10%Q.
  set (qa := inject_Z a). set (qb := inject_Z b). clearbody qa qb.
  split; intro H; lra.
Qed.

Lemma Qltb_times_2_10 (a b : Z) :
  Qltb (inject_Z a * 0.2) (inject_Z b) = true <-> (a < 5 * b)%Z.
Proof.
  rewrite Qltb_lt, Zlt_Qlt, !inject_Z_mult.
  change (inject_Z 5) with 5%Q.
  set (qa := inject_Z a). set (qb := inject_Z b). clearbody qa qb.
  split; intro H; lra.
Qed.

Lemma Qltb_half (a b : Z) :
  Qltb (inject_Z a * 0.5) (inject_Z b) = false <-> (2 * b <= a)%Z.
Proof.
  rewrite Qltb_ge, Zle_Qle, !inject_Z_mult.
  change (inject_Z 2) with 2%Q.
  set (qa := inject_Z a). set (qb := inject_Z b). clearbody qa qb.
  split; intro H; lra.
Qed.

Lemma aspect_above (w h : Z) (n d : Z) :
  (0 < h)%Z -> (0 < d)%Z ->
  ((inject_Z n / inject_Z d < inject_Z w / inject_Z h)%Q <-> (n * h < d * w)%Z).
Proof.
  intros Hh Hd.
  assert (Hqh : (0 < inject_Z h)%Q)
    by (change 0%Q with (inject_Z 0); rewrite <- Zlt_Qlt; exact Hh).
  assert (Hqd : (0 < inject_Z d)%Q)
    by (change 0%Q with (inject_Z 0); rewrite <- Zlt_Qlt; exact Hd).
  rewrite (Qlt_div_iff_r _ _ _ Hqh).
  setoid_replace (inject_Z n / inject_Z d * inject_Z h)%Q
    with ((inject_Z n * inject_Z h) / inject_Z d)%Q
    by (field; intro H0; rewrite H0 in Hqd; apply (Qlt_irrefl _ Hqd)).
  rewrite (Qlt_div_iff _ _ _ Hqd).
  rewrite Zlt_Qlt, !inject_Z_mult.
  setoid_replace (inject_Z w * inject_Z d)%Q with (inject_Z d * inject_Z w)%Q
    by ring.
  reflexivity.
Qed.

Lemma aspect_below (w h : Z) (n d : Z) :
  (0 < h)%Z -> (0 < d)%Z ->
  ((inject_Z w / inject_Z h < inject_Z n / inject_Z d)%Q <-> (d * w < n * h)%Z).
Proof.
  intros Hh Hd.
  assert (Hqh : (0 < inject_Z h)%Q)
    by (change 0%Q with (inject_Z 0); rewrite <- Zlt_Qlt; exact Hh).
  assert (Hqd : (0 < inject_Z d)%Q)
    by (change 0%Q with (inject_Z 0); rewrite <- Zlt_Qlt; exact Hd).
  rewrite (Qlt_div_iff _ _ _ Hqh).
  setoid_replace (inject_Z n / inject_Z d * inject_Z h)%Q
    with ((inject_Z n * inject_Z h) / inject_Z d)%Q
    by (field; intro H0; rewrite H0 in Hqd; apply (Qlt_irrefl _ Hqd)).
  rewrite (Qlt_div_iff_r _ _ _ Hqd).
  rewrite Zlt_Qlt, !inject_Z_mult.
  setoid_replace (inject_Z w * inject_Z d)%Q with (inject_Z d * inject_Z w)%Q
    by ring.
  reflexivity.
Qed.

Section DetectorFacts.
Variable E : Env.
Local Open Scope string_scope.

Lemma classify_cases (height width : nat) (x y w h : Z) :
  (ObjectDetector.classify height width (x, y, w, h) = (0%Z, "door", 0.75)
   /\ (0 < h)%Z /\ (3 * h < 10 * w)%Z /\ (10 * w < 7 * h)%Z
   /\ (3 * Z.of_nat height < 10 * y)%Z)
  \/ (ObjectDetector.classify height width (x, y, w, h) = (2%Z, "car", 0.65)
      /\ (0 < h)%Z /\ (3 * h < 2 * w)%Z /\ (Z.of_nat width < 5 * w)%Z)
  \/ (ObjectDetector.classify height width (x, y, w, h) = (14%Z, "sign", 0.60)
      /\ (10 * w < 3 * Z.of_nat width)%Z /\ (10 * h < 3 * Z.of_nat height)%Z)
  \/ ObjectDetector.classify height width (x, y, w, h) = (99%Z, "object", 0.50).
Proof.
  unfold ObjectDetector.classify.
  assert (H03 : (0.3 == inject_Z 3 / inject_Z 10)%Q) by (vm_compute; reflexivity).
  assert (H07 : (0.7 == inject_Z 7 / inject_Z 10)%Q) by (vm_compute; reflexivity).
  assert (H15 : (1.5 == inject_Z 3 / inject_Z 2)%Q) by (vm_compute; reflexivity).
  set (aspect_ratio := if (0 <? h)%Z then (inject_Z w / inject_Z h)%Q else 0%Q).
  destruct (Qltb 0.3 aspect_ratio && Qltb aspect_ratio 0.7
            && Qltb (inject_Z (Z.of_nat height) * 0.3) (inject_Z y)) eqn:Hdoor.
  - left. split; [reflexivity|].
    apply andb_prop in Hdoor. destruct Hdoor as [Hdoor Hy].
    apply andb_prop in Hdoor. destruct Hdoor as [Hlo Hhi].
    apply Qltb_lt in Hlo. apply Qltb_lt in Hhi. apply Qltb_times_3_10 in Hy.
    unfold aspect_ratio in Hlo, Hhi.
    destruct (0 <? h)%Z eqn:Hh.
    + apply Z.ltb_lt in Hh. rewrite H03 in Hlo. rewrite H07 in Hhi.
      apply (aspect_above w h 3 10) in Hlo; try lia.
      apply (aspect_below w h 7 10) in Hhi; try lia.
    + exfalso. revert Hlo. apply Qle_not_lt. vm_compute. discriminate.
  - right.
    destruct (Qltb 1.5 aspect_ratio
              && Qltb (inject_Z (Z.of_nat width) * 0.2) (inject_Z w)) eqn:Hcar.
    + left. split; [reflexivity|].
      apply andb_prop in Hcar. destruct Hcar as [Hlo Hw].
      apply Qltb_lt in Hlo. apply Qltb_times_2_10 in Hw.
      unfold aspect_ratio in Hlo.
      destruct (0 <? h)%Z eqn:Hh.
      * apply Z.ltb_lt in Hh. rewrite H15 in Hlo.
        apply (aspect_above w h 3 2) in Hlo; try lia.
      * exfalso. revert Hlo. apply Qle_not_lt. vm_compute. discriminate.
    + right.
      destruct (Qltb (inject_Z w) (inject_Z (Z.of_nat width) * 0.3)
                && Qltb (inject_Z h) (inject_Z (Z.of_nat height) * 0.3)) eqn:Hsign.
      * left. split; [reflexivity|].
        apply andb_prop in Hsign. destruct Hsign as [Hw Hh].
        apply Qltb_lt_times_3_10 in Hw. apply Qltb_lt_times_3_10 in Hh.
        split; assumption.
      * right. reflexivity.
Qed.

Lemma classify_confident (height width : nat) (box : Z * Z * Z * Z) :
  Qle_bool ObjectDetector.confidence_threshold
    (snd (ObjectDetector.classify height width box)) = true.
Proof.
  destruct box as [[[x y] w] h].
  destruct (classify_cases height width x y w h)
    as [[-> _] | [[-> _] | [[-> _] | ->]]]; reflexivity.
Qed.

Lemma size_test (height width : nat) (x y w h : Z) :
  ((w * h <? 1000)%Z
   || Qltb (inject_Z (Z.of_nat width * Z.of_nat height) * 0.5) (inject_Z (w * h)))
  = negb (box_size_ok height width (x, y, w, h)).
Proof.
  unfold box_size_ok. rewrite negb_andb, <- Z.ltb_antisym. f_equal.
  destruct (Qltb (inject_Z (Z.of_nat width * Z.of_nat height) * 0.5)
              (inject_Z (w * h))) eqn:Hq.
  - symmetry. apply negb_true_iff, Z.leb_gt.
    destruct (Z_lt_le_dec (Z.of_nat width * Z.of_nat height) (2 * (w * h)))
      as [Hlt | Hle]; [exact Hlt|].
    apply Qltb_half in Hle. congruence.
  - symmetry. apply negb_false_iff, Z.leb_le. apply Qltb_half. exact Hq.
Qed.

(** One turn of the loop: a contour gives a detection exactly when its
    box has an admissible size. *)
Lemma detect_contour_some (height width : nat) (c : contour) (d : DetectionResult) :
  ObjectDetector.detect_contour E height width c = Some d ->
  bbox d = boundingRect E c
  /\ box_size_ok height width (boundingRect E c) = true
  /\ (class_id d, class_name d, det_confidence d)
     = ObjectDetector.classify height width (boundingRect E c)
  /\ center d = (let '(x, y, w, h) := boundingRect E c in
                 (x + w / 2, y + h / 2)%Z).
Proof.
  unfold ObjectDetector.detect_contour.
  destruct (boundingRect E c) as [[[x y] w] h].
  rewrite (size_test height width x y w h).
  destruct (box_size_ok height width (x, y, w, h)); [|discriminate].
  cbn [negb].
  pose proof (classify_confident height width (x, y, w, h)) as Hconf.
  destruct (ObjectDetector.classify height width (x, y, w, h)) as [[cid cname] conf].
  simpl snd in Hconf. rewrite Hconf.
  intro H. inversion H; subst; clear H. simpl. repeat split.
Qed.

Lemma detect_contour_sized (height width : nat) (c : contour) :
  box_size_ok height width (boundingRect E c) = true ->
  exists d, ObjectDetector.detect_contour E height width c = Some d.
Proof.
  unfold ObjectDetector.detect_contour.
  destruct (boundingRect E c) as [[[x y] w] h].
  rewrite (size_test height width x y w h). intros ->. cbn [negb].
  pose proof (classify_confident height width (x, y, w, h)) as Hconf.
  destruct (ObjectDetector.classify height width (x, y, w, h)) as [[cid cname] conf].
  simpl snd in Hconf. rewrite Hconf. eexists. reflexivity.
Qed.

Lemma detect_contour_none (height width : nat) (c : contour) :
  ObjectDetector.detect_contour E height width c = None ->
  box_size_ok height width (boundingRect E c) = false.
Proof.
  intro Hnone.
  destruct (box_size_ok height width (boundingRect E c)) eqn:Hok; [|reflexivity].
  destruct (detect_contour_sized height width c Hok) as [d Hd]. congruence.
Qed.

Lemma detect_loop_spec (height width : nat) (contours : list contour) :
  forall detections,
    ObjectDetector.detect_loop E height width contours detections
    = (detections
       ++ flat_map (fun c => match ObjectDetector.detect_contour E height width c with
                             | Some d => [d]
                             | None => []
                             end) contours)%list.
Proof.
  induction contours as [|c rest IH]; intro detections; simpl.
  - rewrite app_nil_r. reflexivity.
  - rewrite IH.
    destruct (ObjectDetector.detect_contour E height width c) as [d|]; simpl.
    + rewrite <- app_assoc. reflexivity.
    + reflexivity.
Qed.

Lemma detect_loop_boxes (height width : nat) (contours : list contour) :
  map bbox (ObjectDetector.detect_loop E height width contours [])
  = filter (box_size_ok height width) (map (boundingRect E) contours).
Proof.
  rewrite detect_loop_spec. simpl.
  induction contours as [|c rest IH]; simpl; [reflexivity|].
  destruct (ObjectDetector.detect_contour E height width c) as [d|] eqn:Hd.
  - destruct (detect_contour_some height width c d Hd) as [Hbox [Hok _]].
    rewrite Hok. simpl. rewrite Hbox, IH. reflexivity.
  - rewrite (detect_contour_none height width c Hd). simpl. exact IH.
Qed.

Lemma detect_loop_in (height width : nat) (contours : list contour)
    (d : DetectionResult) :
  In d (ObjectDetector.detect_loop E height width contours []) ->
  exists c, In c contours
            /\ ObjectDetector.detect_contour E height width c = Some d.
Proof.
  rewrite detect_loop_spec. simpl. intro Hin.
  apply in_flat_map in Hin. destruct Hin as [c [Hc Hd]].
  exists c. split; [exact Hc|].
  destruct (ObjectDetector.detect_contour E height width c) as [d'|];
    [|destruct Hd].
  destruct Hd as [<- | []]. reflexivity.
Qed.

Lemma mock_detect_in (im : image) (ds : list DetectionResult) (d : DetectionResult) :
  ObjectDetector._mock_detect E im = Ok ds -> In d ds ->
  exists c, ObjectDetector.detect_contour E (shape0 im) (shape1 im) c = Some d.
Proof.
  unfold ObjectDetector._mock_detect. intros H Hin. exc_cases H.
  inversion H; subst ds; clear H.
  destruct (detect_loop_in _ _ _ _ Hin) as [c [_ Hc]]. exists c. exact Hc.
Qed.

(** X27.  The mock detector returns one detection for every contour whose
    bounding box has an area of at least 1000 and at most half of the
    image, in the order of the contours and with that bounding box: the
    confidence threshold of 0.5 never drops one, and contours of any
    other size are skipped. *)
Theorem mock_detect_one_per_sized_contour
    (im : image) (gray_im edges : gray) (contours : list contour) :
  cvtColor_BGR2GRAY E im = Ok gray_im ->
  Canny E gray_im 50 150 = Ok edges ->
  findContours E edges = Ok contours ->
  exists ds,
    ObjectDetector._mock_detect E im = Ok ds
    /\ map bbox ds
       = filter (box_size_ok (shape0 im) (shape1 im))
           (map (boundingRect E) contours).
Proof.
  intros Hgray Hcanny Hcont. unfold ObjectDetector._mock_detect.
  rewrite Hgray. cbn [exc_bind]. rewrite Hcanny. cbn [exc_bind].
  rewrite Hcont. cbn [exc_bind].
  eexists. split; [reflexivity | apply detect_loop_boxes].
Qed.

(** X28.  Every detection of the mock detector is a door (class 0, confidence
    0.75), a car (class 2, 0.65), a sign (class 14, 0.60) or an object
    (class 99, 0.50); its centre is the centre of its box with halves
    rounded down; a door's box is taller than wide (width between 0.3
    and 0.7 of the height) and starts below the top 30% of the image, a
    car's box is more than 1.5 times as wide as high and wider than a
    fifth of the image, a sign's box is smaller than 30% of the image
    in both directions. *)
Theorem mock_detection_fields
    (im : image) (ds : list DetectionResult) (d : DetectionResult) :
  ObjectDetector._mock_detect E im = Ok ds ->
  In d ds ->
  exists x y w h,
    bbox d = (x, y, w, h)
    /\ center d = (x + w / 2, y + h / 2)%Z
    /\ box_size_ok (shape0 im) (shape1 im) (x, y, w, h) = true
    /\ (((class_id d, class_name d, det_confidence d) = (0%Z, "door", 0.75)
         /\ (0 < h)%Z /\ (3 * h < 10 * w)%Z /\ (10 * w < 7 * h)%Z
         /\ (3 * Z.of_nat (shape0 im) < 10 * y)%Z)
        \/ ((class_id d, class_name d, det_confidence d) = (2%Z, "car", 0.65)
            /\ (0 < h)%Z /\ (3 * h < 2 * w)%Z
            /\ (Z.of_nat (shape1 im) < 5 * w)%Z)
        \/ ((class_id d, class_name d, det_confidence d) = (14%Z, "sign", 0.60)
            /\ (10 * w < 3 * Z.of_nat (shape1 im))%Z
            /\ (10 * h < 3 * Z.of_nat (shape0 im))%Z)
        \/ (class_id d, class_name d, det_confidence d) = (99%Z, "object", 0.50)).
Proof.
  intros Hds Hin.
  destruct (mock_detect_in im ds d Hds Hin) as [c Hc].
  destruct (detect_contour_some _ _ c d Hc) as [Hbox [Hok [Hclass Hcenter]]].
  destruct (boundingRect E c) as [[[x y] w] h].
  exists x, y, w, h.
  split; [exact Hbox|]. split; [exact Hcenter|]. split; [exact Hok|].
  rewrite Hclass.
  exact (classify_cases (shape0 im) (shape1 im) x y w h).
Qed.

Lemma mock_labels (im : image) (ds : list DetectionResult) (d : DetectionResult) :
  ObjectDetector._mock_detect E im = Ok ds -> In d ds ->
  (class_id d = 0%Z /\ class_name d = "door")
  \/ (class_id d = 2%Z /\ class_name d = "car")
  \/ (class_id d = 14%Z /\ class_name d = "sign")
  \/ (class_id d = 99%Z /\ class_name d = "object").
Proof.
  intros Hds Hin.
  destruct (mock_detect_in im ds d Hds Hin) as [c Hc].
  destruct (detect_contour_some _ _ c d Hc) as [_ [_ [Hclass _]]].
  destruct (boundingRect E c) as [[[x y] w] h].
  destruct (classify_cases (shape0 im) (shape1 im) x y w h)
    as [[Hr _] | [[Hr _] | [[Hr _] | Hr]]];
    rewrite Hr in Hclass; inversion Hclass; auto 6.
Qed.

Lemma filter_relevant_in (ds : list DetectionResult) (d : DetectionResult) :
  In d (ObjectDetector.filter_relevant_objects ds)
  <-> In d ds /\ ObjectDetector.is_relevant d = true.
Proof.
  induction ds as [|x ds IH]; simpl; [tauto|].
  destruct (ObjectDetector.is_relevant x) eqn:Hx; simpl; rewrite IH.
  - split.
    + intros [<- | [Hin Hr]]; auto.
    + intros [[<- | Hin] Hr]; auto.
  - split.
    + intros [Hin Hr]; auto.
    + intros [[<- | Hin] Hr]; [congruence | auto].
Qed.

(** X29.  After the mock detector, the relevance filter (which goes by class
    id) keeps exactly the detections labelled door, car or sign and
    drops those labelled object; the rule-based router then sends a kept
    detection to the door, the parking or the signage analyzer, never to
    the pathway analyzer. *)
Theorem mock_relevant_detections_are_routed
    (im : image) (ds : list DetectionResult) :
  ObjectDetector._mock_detect E im = Ok ds ->
  (forall d, In d (ObjectDetector.filter_relevant_objects ds)
             <-> In d ds /\ class_name d <> "object")
  /\ (forall (E' : Env) (frame : image) (d : DetectionResult),
         In d (ObjectDetector.filter_relevant_objects ds) ->
         (class_name d = "door"
          /\ RuleBasedAnalyzer.route E' frame d
             = DoorAnalyzer.analyze E' (get_crop d frame) d)
         \/ (class_name d = "car"
             /\ RuleBasedAnalyzer.route E' frame d
                = ParkingAnalyzer.analyze E' (get_crop d frame) d)
         \/ (class_name d = "sign"
             /\ RuleBasedAnalyzer.route E' frame d
                = SignageAnalyzer.analyze E' (get_crop d frame) d)).
Proof.
  intro Hds.
  assert (Hrel : forall d, In d ds ->
            (ObjectDetector.is_relevant d = true <-> class_name d <> "object")).
  { intros d Hin. unfold ObjectDetector.is_relevant.
    destruct (mock_labels im ds d Hds Hin)
      as [[-> ->] | [[-> ->] | [[-> ->] | [-> ->]]]]; simpl;
      split; (discriminate || reflexivity || congruence || (intro H; contradiction)). }
  split.
  - intro d. rewrite filter_relevant_in. split.
    + intros [Hin Hr]. split; [exact Hin | apply (Hrel d Hin); exact Hr].
    + intros [Hin Hn]. split; [exact Hin | apply (Hrel d Hin); exact Hn].
  - intros E' frame d Hd. apply filter_relevant_in in Hd. destruct Hd as [Hin Hr].
    pose proof (proj1 (Hrel d Hin) Hr) as Hn.
    destruct (mock_labels im ds d Hds Hin)
      as [[_ Hname] | [[_ Hname] | [[_ Hname] | [_ Hname]]]].
    + left. split; [exact Hname|].
      unfold RuleBasedAnalyzer.route. rewrite Hname. reflexivity.
    + right; left. split; [exact Hname|].
      unfold RuleBasedAnalyzer.route. rewrite Hname. reflexivity.
    + right; right. split; [exact Hname|].
      unfold RuleBasedAnalyzer.route. rewrite Hname. reflexivity.
    + contradiction.
Qed.

End DetectorFacts.

Lemma mock_detect_one_per_sized_contour_witness :
  exists ds,
    ObjectDetector._mock_detect (env_with_contours sample_contours)
      coordinate_image = Ok ds
    /\ map bbox ds
       = filter (box_size_ok (shape0 coordinate_image) (shape1 coordinate_image))
           (map (boundingRect (env_with_contours sample_contours)) sample_contours).
Proof.
  apply (mock_detect_one_per_sized_contour (env_with_contours sample_contours)
           coordinate_image (channel0 coordinate_image)
           (channel0 coordinate_image) sample_contours);
    reflexivity.
Defined.

Lemma mock_detection_fields_witness :
  exists x y w h,
    bbox sample_door_detection = (x, y, w, h)
    /\ center sample_door_detection = (x + w / 2, y + h / 2)%Z
    /\ box_size_ok (shape0 coordinate_image) (shape1 coordinate_image)
         (x, y, w, h) = true
    /\ (((class_id sample_door_detection, class_name sample_door_detection,
          det_confidence sample_door_detection) = (0%Z, "door"%string, 0.75)
         /\ (0 < h)%Z /\ (3 * h < 10 * w)%Z /\ (10 * w < 7 * h)%Z
         /\ (3 * Z.of_nat (shape0 coordinate_image) < 10 * y)%Z)
        \/ ((class_id sample_door_detection, class_name sample_door_detection,
             det_confidence sample_door_detection) = (2%Z, "car"%string, 0.65)
            /\ (0 < h)%Z /\ (3 * h < 2 * w)%Z
            /\ (Z.of_nat (shape1 coordinate_image) < 5 * w)%Z)
        \/ ((class_id sample_door_detection, class_name sample_door_detection,
             det_confidence sample_door_detection) = (14%Z, "sign"%string, 0.60)
            /\ (10 * w < 3 * Z.of_nat (shape1 coordinate_image))%Z
            /\ (10 * h < 3 * Z.of_nat (shape0 coordinate_image))%Z)
        \/ (class_id sample_door_detection, class_name sample_door_detection,
            det_confidence sample_door_detection) = (99%Z, "object"%string, 0.50)).
Proof.
  apply (mock_detection_fields (env_with_contours sample_contours)
           coordinate_image [sample_door_detection] sample_door_detection).
  - vm_compute. reflexivity.
  - left. reflexivity.
Defined.

Lemma mock_relevant_detections_witness :
  (forall d, In d (ObjectDetector.filter_relevant_objects [sample_door_detection])
             <-> In d [sample_door_detection] /\ class_name d <> "object"%string)
  /\ (forall (E' : Env) (frame : image) (d : DetectionResult),
         In d (ObjectDetector.filter_relevant_objects [sample_door_detection]) ->
         (class_name d = "door"%string
          /\ RuleBasedAnalyzer.route E' frame d
             = DoorAnalyzer.analyze E' (get_crop d frame) d)
         \/ (class_name d = "car"%string
             /\ RuleBasedAnalyzer.route E' frame d
                = ParkingAnalyzer.analyze E' (get_crop d frame) d)
         \/ (class_name d = "sign"%string
             /\ RuleBasedAnalyzer.route E' frame d
                = SignageAnalyzer.analyze E' (get_crop d frame) d)).
Proof.
  apply (mock_relevant_detections_are_routed (env_with_contours sample_contours)
           coordinate_image [sample_door_detection]).
  vm_compute. reflexivity.
Defined.

(* ================================================================== *)
(** * 43. The codes the findings cite *)
(* ================================================================== *)

Section CodeFacts.
Variable E : Env.
Local Open Scope string_scope.

Ltac cited := unfold cites_its_code, finding_codes; simpl; auto 15.

Lemma cites_append_if (vs : list violation) (o : option violation) :
  (forall v, In v vs -> cites_its_code v) ->
  (forall v, o = Some v -> cites_its_code v) ->
  forall v, In v (append_if vs o) -> cites_its_code v.
Proof.
  intros Hvs Ho v Hin. apply in_append_if in Hin.
  destruct Hin as [Hin | Hin]; [apply Hvs | apply Ho]; assumption.
Qed.

Lemma door_width_code (im : image) (h w : nat) (v : violation) :
  DoorAnalyzer._check_width E im h w = Some v -> cites_its_code v.
Proof.
  unfold DoorAnalyzer._check_width.
  destruct (Qltb DoorAnalyzer.very_narrow_ratio _);
    [|destruct (Qltb DoorAnalyzer.narrow_door_ratio _)];
    intro H; inversion H; subst; clear H; cited.
Qed.

Lemma door_threshold_code (im : image) (h w : nat) (v : violation) :
  DoorAnalyzer._check_threshold E im h w = Ok (Some v) -> cites_its_code v.
Proof.
  unfold DoorAnalyzer._check_threshold. intro H. exc_cases H.
  match type of H with
  | context [Qltb 0.3 ?d] => destruct (Qltb 0.3 d); [|discriminate H]
  end.
  inversion H; subst; clear H. cited.
Qed.

Lemma door_hardware_code (im : image) (h w : nat) (v : violation) :
  DoorAnalyzer._check_hardware E im h w = Ok (Some v) -> cites_its_code v.
Proof.
  unfold DoorAnalyzer._check_hardware. intro H. exc_cases H.
  match type of H with
  | context [if ?b then _ else _] => destruct b; [|discriminate H]
  end.
  inversion H; subst; clear H. cited.
Qed.

Lemma parking_signage_code (im : image) (h w : nat) (v : violation) :
  ParkingAnalyzer._check_signage E im h w = Ok (Some v) -> cites_its_code v.
Proof.
  unfold ParkingAnalyzer._check_signage. intro H. exc_cases H.
  destruct (negb _) in H.
  - inversion H; subst; clear H. cited.
  - destruct (_ && _) in H; [|discriminate H].
    inversion H; subst; clear H. cited.
Qed.

Lemma parking_position_code (im : image) (h w : nat) (v : violation) :
  ParkingAnalyzer._check_sign_position E im h w = Ok (Some v) -> cites_its_code v.
Proof.
  unfold ParkingAnalyzer._check_sign_position. intro H. exc_cases H.
  destruct (0 <? _)%nat in H; [|discriminate H].
  destruct (Qltb _ _) in H; [|discriminate H].
  inversion H; subst; clear H. cited.
Qed.

Lemma pathway_code (im : image) (d : DetectionResult) :
  cites_its_code (PathwayAnalyzer._check_obstruction E im d).
Proof.
  unfold PathwayAnalyzer._check_obstruction.
  destruct (size_assessment_cases (PathwayAnalyzer.relative_size_of im d))
    as [-> | ->];
    destruct (str_in (lower (class_name d)) PathwayAnalyzer.high_risk_objects);
    cited.
Qed.

Lemma ramp_slope_code (im : image) (h w : nat) (v : violation) :
  RampAnalyzer._check_slope E im h w = Ok (Some v) -> cites_its_code v.
Proof.
  unfold RampAnalyzer._check_slope. intro H. exc_cases H.
  inversion H as [Hv]. clear H. revert Hv.
  unfold RampAnalyzer.assess_slope.
  destruct r1 as [[|l ls]|]; try discriminate.
  destruct (RampAnalyzer.qualifying_angles (l :: ls)) as [|a angles];
    [discriminate|].
  destruct (Rlt_dec _ _); [|destruct (Rlt_dec _ _); [|discriminate]];
    intro Hv; inversion Hv; subst; clear Hv; cited.
Qed.

Lemma ramp_handrails_code (im : image) (h w : nat) (v : violation) :
  RampAnalyzer._check_handrails E im h w = Ok (Some v) -> cites_its_code v.
Proof.
  unfold RampAnalyzer._check_handrails. intro H. exc_cases H.
  match type of H with
  | context [match ?l with Some _ => _ | None => _ end] => destruct l
  end.
  - destruct (_ || _) in H; [|discriminate H].
    inversion H; subst; clear H. cited.
  - inversion H; subst; clear H. cited.
Qed.

Lemma signage_contrast_code (im : image) (h w : nat) (v : violation) :
  SignageAnalyzer._check_contrast E im h w = Ok (Some v) -> cites_its_code v.
Proof.
  unfold SignageAnalyzer._check_contrast. intro H. exc_cases H.
  destruct (Qltb _ SignageAnalyzer.low_contrast_ratio) in H.
  - inversion H; subst; clear H. cited.
  - destruct (Qltb _ SignageAnalyzer.min_contrast_ratio) in H; [|discriminate H].
    inversion H; subst; clear H. cited.
Qed.

Lemma signage_tactile_code (im : image) (h w : nat) (v : violation) :
  SignageAnalyzer._check_tactile_features E im h w = Ok (Some v) ->
  cites_its_code v.
Proof.
  unfold SignageAnalyzer._check_tactile_features. intro H. exc_cases H.
  destruct (_ =? 0)%nat in H; [discriminate H|].
  destruct (_ && _) in H; [|discriminate H].
  inversion H; subst; clear H. cited.
Qed.

Lemma route_codes (im : image) (d : DetectionResult) (vs : list violation) :
  RuleBasedAnalyzer.route E im d = Ok vs ->
  forall v, In v vs -> cites_its_code v.
Proof.
  unfold RuleBasedAnalyzer.route.
  set (crop := get_crop d im).
  destruct (str_in _ RuleBasedAnalyzer.door_objects).
  { intro H. destruct (Nat.eq_dec (image_size crop) 0) as [Hz | Hne].
    - unfold DoorAnalyzer.analyze in H. rewrite Hz in H. simpl in H.
      inversion H. intros v [].
    - destruct (@door_analyze_inv E crop d vs Hne H) as [t [hw [Ht [Hhw ->]]]].
      repeat apply cites_append_if; try (intros ? Hnil; exact (match Hnil with end)).
      + intros v Hv. apply (door_width_code _ _ _ _ Hv).
      + intros v ->. apply (door_threshold_code _ _ _ _ Ht).
      + intros v ->. apply (door_hardware_code _ _ _ _ Hhw). }
  destruct (str_in _ RuleBasedAnalyzer.parking_objects).
  { intro H. destruct (Nat.eq_dec (image_size crop) 0) as [Hz | Hne].
    - unfold ParkingAnalyzer.analyze in H. rewrite Hz in H. simpl in H.
      inversion H. intros v [].
    - destruct (@parking_analyze_inv E crop d vs Hne H) as [s [p [Hs [Hp ->]]]].
      repeat apply cites_append_if; try (intros ? Hnil; exact (match Hnil with end)).
      + intros v ->. apply (parking_signage_code _ _ _ _ Hs).
      + intros v ->. apply (parking_position_code _ _ _ _ Hp). }
  destruct (str_in _ RuleBasedAnalyzer.ramp_objects).
  { intro H. destruct (Nat.eq_dec (image_size crop) 0) as [Hz | Hne].
    - unfold RampAnalyzer.analyze in H. rewrite Hz in H. simpl in H.
      inversion H. intros v [].
    - destruct (@ramp_analyze_inv E crop d vs Hne H) as [s [hr [Hs [Hhr ->]]]].
      repeat apply cites_append_if; try (intros ? Hnil; exact (match Hnil with end)).
      + intros v ->. apply (ramp_slope_code _ _ _ _ Hs).
      + intros v ->. apply (ramp_handrails_code _ _ _ _ Hhr). }
  destruct (str_in _ RuleBasedAnalyzer.sign_objects).
  { intro H. destruct (Nat.eq_dec (image_size crop) 0) as [Hz | Hne].
    - unfold SignageAnalyzer.analyze in H. rewrite Hz in H. simpl in H.
      inversion H. intros v [].
    - destruct (@signage_analyze_inv E crop d vs Hne H) as [c [t [Hc [Ht ->]]]].
      repeat apply cites_append_if; try (intros ? Hnil; exact (match Hnil with end)).
      + intros v ->. apply (signage_contrast_code _ _ _ _ Hc).
      + intros v ->. apply (signage_tactile_code _ _ _ _ Ht). }
  intro H. inversion H; subst; clear H.
  intros v Hin. apply (@pathway_analyze_inv E crop d v) in Hin. subst v.
  apply pathway_code.
Qed.

(** X30.  Every record of the rule-based analyzer cites the ADA code that
    belongs to its kind of finding (door width 404.2.3, threshold
    404.2.5, hardware 404.2.7, the three parking findings 502.6, pathway
    obstruction 403.5.1, ramp slope 405.2, handrails 405.8, sign
    contrast 703.5, tactile features 703.2), and that code has an entry
    in the reference table [ADA_CODES]. *)
Theorem findings_cite_known_codes
    (im : image) (d : DetectionResult) (rs : list ViolationResult) :
  RuleBasedAnalyzer.analyze_detection E im d = Ok rs ->
  forall r, In r rs ->
    exists ty code info,
      type r = PyStr ty /\ ada_code r = PyStr code
      /\ In (ty, code) finding_codes
      /\ AdaCodeReferences.get_ada_code code = Some info.
Proof.
  unfold RuleBasedAnalyzer.analyze_detection. intro H. exc_cases H.
  inversion H; subst; clear H.
  intros x Hin. apply in_map_iff in Hin. destruct Hin as [v [<- Hv]].
  pose proof (route_codes im d _ Hr v Hv) as Hc.
  exists (v_type v), (v_ada_code v).
  unfold cites_its_code in Hc.
  assert (Hknown : exists info,
             AdaCodeReferences.get_ada_code (v_ada_code v) = Some info).
  { revert Hc. generalize (v_type v) (v_ada_code v). intros ty code Hc.
    unfold finding_codes in Hc. simpl in Hc.
    repeat (destruct Hc as [Hc | Hc];
            [inversion Hc; subst; eexists; reflexivity|]).
    destruct Hc. }
  destruct Hknown as [info Hinfo]. exists info.
  repeat split; assumption.
Qed.

End CodeFacts.

Lemma findings_cite_known_codes_witness :
  exists ty code info,
    type (RuleBasedAnalyzer.to_result
            (PathwayAnalyzer._check_obstruction test_env
               (uniform_image 4 4 mid_gray)
               (detection_of "chair"%string (0, 0, 4, 4)%Z))) = PyStr ty
    /\ ada_code (RuleBasedAnalyzer.to_result
                   (PathwayAnalyzer._check_obstruction test_env
                      (uniform_image 4 4 mid_gray)
                      (detection_of "chair"%string (0, 0, 4, 4)%Z))) = PyStr code
    /\ In (ty, code) finding_codes
    /\ AdaCodeReferences.get_ada_code code = Some info.
Proof.
  apply (findings_cite_known_codes test_env (uniform_image 4 4 mid_gray)
           (detection_of "chair"%string (0, 0, 4, 4)%Z)
           [RuleBasedAnalyzer.to_result
              (PathwayAnalyzer._check_obstruction test_env
                 (uniform_image 4 4 mid_gray)
                 (detection_of "chair"%string (0, 0, 4, 4)%Z))]).
  - reflexivity.
  - left. reflexivity.
Defined.
